(** * ai-paper-analyzer: the cleaning and analysis core

    A shallow embedding of [src/core/cleaner.py] (class [DataCleaner]) and
    [src/core/analyzer.py] (class [PaperAnalyzer]), and the properties of
    the specification that concern them; then the control flow of
    [run_pipeline.py] with the card of [send_feishu.py], and further
    properties of the code.

    Layout: Python text and its operations; JSON values; the assistant
    and the trace of its calls; the Cleaner (extraction by the rules,
    [clean] and its files, the sample of the prompt); the Analyzer
    (date normalisation, response parsing, single analysis with
    retries, the Result Store, the batch loop); the notification and
    the pipeline; then the theorems. *)

From Stdlib Require Import String Ascii NArith ZArith Lia List Bool.
From stdpp Require Import base option list gmap.
Import ListNotations.

Open Scope N_scope.

(* ===================================================================== *)
(** ** Python text *)
(* ===================================================================== *)

(** A Python [str] is a sequence of Unicode code points: [len], slicing,
    [strip], [count] and the regular expressions all work on code
    points, so the model is a list of code points and not a list of
    bytes. *)
Abbreviation str := (list N).

Module Py.

(** The literals of the source are given as UTF-8 text; [utf8] decodes
    them. A continuation byte (10xxxxxx) extends the pending code point,
    any other byte closes it and opens a new one. *)
Fixpoint utf8_go (pending : option N) (bs : list N) : str :=
  match bs with
  | [] => match pending with Some c => [c] | None => [] end
  | b :: r =>
      if (128 <=? b) && (b <? 192) then
        utf8_go (option_map (fun c => c * 64 + b mod 64) pending) r
      else
        (match pending with Some c => [c] | None => [] end) ++
        utf8_go (Some (if b <? 128 then b
                       else if b <? 224 then b mod 32
                       else if b <? 240 then b mod 16
                       else b mod 8)) r
  end.

Definition utf8 (s : string) : str :=
  utf8_go None (map N_of_ascii (list_ascii_of_string s)).

(** Truthiness of a text: [if s:] holds for a non-empty text. *)
Definition truthy (s : str) : bool :=
  match s with [] => false | _ => true end.

Definition eqb (a b : str) : bool := bool_decide (a = b).

(** [c in s] for a one-character [c]. *)
Definition contains (c : N) (s : str) : bool := existsb (N.eqb c) s.

(** [s.count(c)] for a one-character [c]. *)
Definition count (c : N) (s : str) : nat := length (filter (fun x => x = c) s).

(** [s.startswith(p)]. *)
Fixpoint startswith (p s : str) : bool :=
  match p, s with
  | [], _ => true
  | _ :: _, [] => false
  | a :: p', b :: s' => (a =? b) && startswith p' s'
  end.

(** [s.split(c)] for a one-character separator: never the empty list. *)
Fixpoint split (c : N) (s : str) : list str :=
  match s with
  | [] => [[]]
  | x :: r =>
      if x =? c then [] :: split c r
      else match split c r with
           | [] => [[x]]
           | h :: t => (x :: h) :: t
           end
  end.

(** [sep.join(parts)]. *)
Fixpoint join (sep : str) (parts : list str) : str :=
  match parts with
  | [] => []
  | [p] => p
  | p :: rest => p ++ sep ++ join sep rest
  end.

(** [s.replace(old, new)]: every non-overlapping occurrence of [old],
    from the left. [skip] counts the characters of an occurrence already
    replaced that are still to be passed over. With an empty [old]
    Python inserts [new] around every character; no call of the source
    has an empty [old], and the model then returns [s]. *)
Fixpoint replace_go (old new : str) (skip : nat) (s : str) : str :=
  match s with
  | [] => []
  | x :: r =>
      match skip with
      | S k => replace_go old new k r
      | O =>
          if truthy old && startswith old s
          then new ++ replace_go old new (length old - 1) r
          else x :: replace_go old new 0 r
      end
  end.

Definition replace (old new s : str) : str := replace_go old new 0 s.

(** Membership of a code point in a table of inclusive ranges. *)
Definition in_ranges (tbl : list (N * N)) (c : N) : bool :=
  existsb (fun r => (fst r <=? c) && (c <=? snd r)) tbl.

(** [str.isspace] for one character, the characters [strip] removes
    (Unicode 14, the table of CPython 3.11). *)
Definition whitespace_table : list (N * N) :=
  [(9, 13); (28, 32); (133, 133); (160, 160); (5760, 5760); (8192, 8202);
   (8232, 8233); (8239, 8239); (8287, 8287); (12288, 12288)].

Definition isspace (c : N) : bool := in_ranges whitespace_table c.

(** [str.isdecimal] for one character: what [\d] matches in a [str]
    pattern (Unicode category Nd, Unicode 14). *)
Definition decimal_table : list (N * N) :=
  [(48, 57); (1632, 1641); (1776, 1785); (1984, 1993); (2406, 2415);
   (2534, 2543); (2662, 2671); (2790, 2799); (2918, 2927); (3046, 3055);
   (3174, 3183); (3302, 3311); (3430, 3439); (3558, 3567); (3664, 3673);
   (3792, 3801); (3872, 3881); (4160, 4169); (4240, 4249); (6112, 6121);
   (6160, 6169); (6470, 6479); (6608, 6617); (6784, 6793); (6800, 6809);
   (6992, 7001); (7088, 7097); (7232, 7241); (7248, 7257); (42528, 42537);
   (43216, 43225); (43264, 43273); (43472, 43481); (43504, 43513);
   (43600, 43609); (44016, 44025); (65296, 65305); (66720, 66729);
   (68912, 68921); (69734, 69743); (69872, 69881); (69942, 69951);
   (70096, 70105); (70384, 70393); (70736, 70745); (70864, 70873);
   (71248, 71257); (71360, 71369); (71472, 71481); (71904, 71913);
   (72016, 72025); (72784, 72793); (73040, 73049); (73120, 73129);
   (92768, 92777); (92864, 92873); (93008, 93017); (120782, 120831);
   (123200, 123209); (123632, 123641); (125264, 125273); (130032, 130041)].

Definition isdecimal (c : N) : bool := in_ranges decimal_table c.

Fixpoint lstrip (s : str) : str :=
  match s with
  | [] => []
  | x :: r => if isspace x then lstrip r else s
  end.

(** [rstrip] keeps a character when it is not white space or when
    something is kept after it. *)
Fixpoint rstrip (s : str) : str :=
  match s with
  | [] => []
  | x :: r =>
      match rstrip r with
      | [] => if isspace x then [] else [x]
      | r' => x :: r'
      end
  end.

(** [s.strip()]. *)
Definition strip (s : str) : str := rstrip (lstrip s).

(** [s[:n]]. *)
Definition slice_to (n : nat) (s : str) : str := take n s.

End Py.

(** [py "..."] is the text of a literal, decoded once where it is
    written. *)
Notation "'py' s" :=
  (ltac:(let v := eval vm_compute in (Py.utf8 s%string) in exact v))
  (at level 9, s at level 0, only parsing).

(* ===================================================================== *)
(** ** JSON values and exceptions *)
(* ===================================================================== *)

(** What [json.load] returns: [None], [bool], [int], [float], [str],
    [list] and [dict]. A float is kept as mantissa and binary exponent;
    the code only ever tests it for truth. A [dict] is its items in
    insertion order, with distinct keys. *)
#[local] Set Warnings "-register-all".
Inductive json : Type :=
  | JNull
  | JBool (b : bool)
  | JInt (z : Z)
  | JFloat (mantissa exponent : Z)
  | JStr (s : str)
  | JArr (items : list json)
  | JObj (fields : list (str * json)).

(** The exceptions the modelled code can meet. *)
Inductive error : Type :=
  | AttributeError
  | TypeError
  | UnboundLocalError.

(** A computation that returns or raises. *)
Inductive exc (A : Type) : Type :=
  | Ok (a : A)
  | Raise (e : error).
Arguments Ok {A} a.
Arguments Raise {A} e.

#[global] Instance exc_ret : MRet exc := fun A a => Ok a.

#[global] Instance exc_bind : MBind exc := fun A B k m =>
  match m with
  | Ok a => k a
  | Raise e => Raise e
  end.

(** [try: body except Exception: handler] for a body without effects. *)
Definition try_except {A} (body : exc A) (handler : error -> A) : A :=
  match body with
  | Ok a => a
  | Raise e => handler e
  end.

Module Json.

(** [if v:] *)
Definition truthy (v : json) : bool :=
  match v with
  | JNull => false
  | JBool b => b
  | JInt z => negb (z =? 0)%Z
  | JFloat m _ => negb (m =? 0)%Z
  | JStr s => Py.truthy s
  | JArr l => match l with [] => false | _ => true end
  | JObj f => match f with [] => false | _ => true end
  end.

(** [d[k]] when [k in d]. *)
Fixpoint lookup (k : str) (fields : list (str * json)) : option json :=
  match fields with
  | [] => None
  | (k', v) :: rest => if Py.eqb k k' then Some v else lookup k rest
  end.

(** [v.get(k, dflt)]: only a [dict] has the attribute [get]. *)
Definition get (v : json) (k : str) (dflt : json) : exc json :=
  match v with
  | JObj fields => Ok (default dflt (lookup k fields))
  | _ => Raise AttributeError
  end.

End Json.

(* ===================================================================== *)
(** ** The data model *)
(* ===================================================================== *)

(** Modelled from the spec: the class [Paper] of [src/models/paper.py],
    which is not among the sources. It is the canonical paper of the
    data model, every field a text. *)
Module Paper.
Record t : Type := {
  id : str;
  title : str;
  translation : str;
  url : str;
  authors : str;
  publish_date : str;
  summary : str;
  github_repo : str;
  project_page : str;
  model_function : str
}.

End Paper.

(** A Python [dict] whose keys and values are texts, in insertion
    order: an entry of the Result Store. *)
Abbreviation dict := (list (str * str)).

Fixpoint dict_lookup (k : str) (d : dict) : option str :=
  match d with
  | [] => None
  | (k', v) :: rest => if Py.eqb k k' then Some v else dict_lookup k rest
  end.

(** Modelled from the spec: the class [AnalysisResult] of
    [src/models/report.py], which is not among the sources: the eleven
    fields the Analyzer passes to its constructor, [to_dict] writing
    each under its name, and [paper_id] reading the [id]. *)
Module AnalysisResult.
Record t : Type := {
  id : str;
  title_en : str;
  title_zh : str;
  url : str;
  authors : str;
  publish_date : str;
  summary_en : str;
  summary_zh : str;
  github_repo : str;
  project_page : str;
  model_function : str
}.

Definition paper_id (r : t) : str := id r.

Definition to_dict (r : t) : dict :=
  [ (py "id", id r);
    (py "title_en", title_en r);
    (py "title_zh", title_zh r);
    (py "url", url r);
    (py "authors", authors r);
    (py "publish_date", publish_date r);
    (py "summary_en", summary_en r);
    (py "summary_zh", summary_zh r);
    (py "github_repo", github_repo r);
    (py "project_page", project_page r);
    (py "model_function", model_function r) ].
End AnalysisResult.

(** The item the rule-based Cleaner builds (the dict literal of
    [_extract_paper_info]). [id], [url], [publish_date], [summary],
    [github_repo] and [project_page] are copied from the raw record
    and can be any JSON value. *)
Module Cleaned.
Record t : Type := {
  id : json;
  title : str;
  translation : str;
  url : json;
  authors : str;
  publish_date : json;
  summary : json;
  github_repo : json;
  project_page : json;
  model_function : str
}.
End Cleaned.

(* ===================================================================== *)
(** ** The Structuring Assistant *)
(* ===================================================================== *)

(** A call of [ai_client.chat]. The messages are built from the data
    alone ([_build_cleaning_prompt], [_build_analysis_prompt]), so a
    request is identified by the data it is built from. *)
Inductive Request : Type :=
  | CleaningRequest (raw_data : list json)
  | AnalysisRequest (paper : Paper.t).

(** What the modelled code does to the outside: it calls the assistant
    and it sleeps between attempts. *)
Inductive Event : Type :=
  | EvChat (req : Request)
  | EvSleep (seconds : N).

(** A call ends after some seconds with a text or with an exception. *)
Inductive ChatOutcome : Type :=
  | Answered (seconds : N) (text : str)
  | Failed (seconds : N).

(** The outside world: the assistant, which answers from everything that
    happened so far (the request included), and the trace of events. *)
Record World : Type := {
  assistant : list Event -> ChatOutcome;
  trace : list Event
}.

Definition record (e : Event) (w : World) : World :=
  {| assistant := assistant w; trace := trace w ++ [e] |}.

Definition chat (req : Request) (w : World) : ChatOutcome * World :=
  let w' := record (EvChat req) w in (assistant w (trace w'), w').

Definition sleep (seconds : N) (w : World) : World :=
  record (EvSleep seconds) w.

(** The chat requests of a trace. *)
Definition chat_requests (tr : list Event) : list Request :=
  omap (fun e => match e with EvChat r => Some r | EvSleep _ => None end) tr.

(* ===================================================================== *)
(** ** The Cleaner ([cleaner.py]) *)
(* ===================================================================== *)

Module Cleaner.

(** The state of a [DataCleaner] after [__init__]: [use_ai] and whether
    an assistant client was built. *)
Record t : Type := {
  use_ai : bool;
  ai_client : bool
}.

(** [__init__]: [use_ai] comes from the configuration (default false);
    when building the client raises, [use_ai] is switched off. *)
Definition __init__ (config_use_ai : option bool) (client_builds : bool) : t :=
  let use := default false config_use_ai in
  if use then
    if client_builds then {| use_ai := true; ai_client := true |}
    else {| use_ai := false; ai_client := false |}
  else {| use_ai := false; ai_client := false |}.

Definition unknown_authors : str := py "未知作者".
Definition arxiv_abs : str := py "https://arxiv.org/abs/".

(** Following the spec's words, a comma-joined display string: the
    names in their order, with a comma and a space between two of
    them. *)
Definition comma_joined (names : list str) : str :=
  match names with
  | [] => []
  | first :: rest => fold_left (fun joined name => joined ++ py ", " ++ name) rest first
  end.

(** An author as the raw data gives it: a dict with the key [name]. *)
Definition author_named (name : str) : json := JObj [(py "name", JStr name)].

Section Extraction.

(** [str(v)] for a value that is not a text: the way an f-string formats
    it. It belongs to the language and is left open. *)
Variable format_value : json -> str.

Definition fstring (v : json) : str :=
  match v with
  | JStr s => s
  | _ => format_value v
  end.

(** [a or b]. *)
Definition or_else (a b : json) : json := if Json.truthy a then a else b.

(** The loop over [authors_raw]: the [name] of a dict when it is truthy,
    a text as it is, nothing for any other shape. *)
Definition author_entry (author : json) : list json :=
  match author with
  | JObj fields =>
      let name := default (JStr []) (Json.lookup (py "name") fields) in
      if Json.truthy name then [name] else []
  | JStr _ => [author]
  | _ => []
  end.

Definition authors_list (authors_raw : json) : list json :=
  match authors_raw with
  | JArr l => flat_map author_entry l
  | JStr _ => [authors_raw]
  | _ => []
  end.

(** [', '.join(l)]: a [TypeError] when an item is not a text. *)
Fixpoint texts (l : list json) : exc (list str) :=
  match l with
  | [] => Ok []
  | JStr s :: r => r' ← texts r; Ok (s :: r')
  | _ :: _ => Raise TypeError
  end.

Definition join_values (sep : str) (l : list json) : exc str :=
  parts ← texts l; Ok (Py.join sep parts).

(** [v.strip().replace('\n', ' ')]: only a text has [strip]. *)
Definition normalize_title (v : json) : exc str :=
  match v with
  | JStr s => Ok (Py.replace [10] [32] (Py.strip s))
  | _ => Raise AttributeError
  end.

(** [item.get('paper', item)]: the record itself, or what it holds under
    [paper]. *)
Definition paper_data_of (item : json) : exc json :=
  Json.get item (py "paper") item.

(** A record lacks its key information when its data is a dict whose
    [title] is missing or a text, and whose [id] is missing or falsy or
    whose title is empty once normalised. *)
Definition lacks_key_info (item : json) : Prop :=
  exists fields title,
    paper_data_of item = Ok (JObj fields)
    /\ normalize_title (default (JStr []) (Json.lookup (py "title") fields))
       = Ok title
    /\ (Json.truthy (default (JStr []) (Json.lookup (py "id") fields)) = false
        \/ title = []).

(** The body of the [try] of [_extract_paper_info]. *)
Definition extract_body (item : json) : exc (option Cleaned.t) :=
  paper_data ← paper_data_of item;
  paper_id ← Json.get paper_data (py "id") (JStr []);
  title_raw ← Json.get paper_data (py "title") (JStr []);
  title ← normalize_title title_raw;
  if negb (Json.truthy paper_id) || negb (Py.truthy title) then Ok None
  else
    authors_raw ← Json.get paper_data (py "authors") (JArr []);
    let names := authors_list authors_raw in
    authors_str ← (if Json.truthy (JArr names)
                   then join_values (py ", ") names
                   else Ok unknown_authors);
    published_at ← Json.get paper_data (py "publishedAt") JNull;
    published_date ← Json.get paper_data (py "publishedDate") JNull;
    published ← Json.get paper_data (py "published") JNull;
    let publish_date :=
      or_else (or_else (or_else published_at published_date) published)
              (JStr []) in
    url ← Json.get paper_data (py "url") (JStr (arxiv_abs ++ fstring paper_id));
    summary ← Json.get paper_data (py "summary") (JStr []);
    github ← Json.get paper_data (py "githubRepo") (JStr []);
    project ← Json.get paper_data (py "projectPage") (JStr []);
    Ok (Some {| Cleaned.id := paper_id;
                Cleaned.title := title;
                Cleaned.translation := title;
                Cleaned.url := url;
                Cleaned.authors := authors_str;
                Cleaned.publish_date := publish_date;
                Cleaned.summary := summary;
                Cleaned.github_repo := github;
                Cleaned.project_page := project;
                Cleaned.model_function := [] |}).

(** [_extract_paper_info]: any exception of the body is logged and the
    item yields [None]. *)
Definition _extract_paper_info (item : json) : option Cleaned.t :=
  try_except (extract_body item) (fun _ => None).

(** [_clean_with_rules]: the items that yield a record, in order. *)
Fixpoint _clean_with_rules (raw_data : list json) : list Cleaned.t :=
  match raw_data with
  | [] => []
  | item :: rest =>
      match _extract_paper_info item with
      | Some cleaned_item => cleaned_item :: _clean_with_rules rest
      | None => _clean_with_rules rest
      end
  end.

(** [_parse_ai_response]: the parser of the assistant's answer is not
    written yet and returns the empty list. *)
Definition _parse_ai_response (response : str) : list Cleaned.t := [].

(** [_clean_with_ai]: one call of the assistant, without a deadline. A
    non-empty answer is parsed and the parsed list returned; an empty
    answer or an exception falls back to the rules. *)
Definition _clean_with_ai (raw_data : list json) (w : World)
  : list Cleaned.t * World :=
  match chat (CleaningRequest raw_data) w with
  | (Answered _ response, w') =>
      if Py.truthy response then (_parse_ai_response response, w')
      else (_clean_with_rules raw_data, w')
  | (Failed _, w') => (_clean_with_rules raw_data, w')
  end.

(** [_clean_data]. *)
Definition _clean_data (self : t) (raw_data : list json) (w : World)
  : list Cleaned.t * World :=
  match raw_data with
  | [] => ([], w)
  | _ =>
      if use_ai self && ai_client self then _clean_with_ai raw_data w
      else (_clean_with_rules raw_data, w)
  end.


(** *** [clean] *)

(** The [FileManager] as [clean] meets it ([src/utils/file_utils.py] is
    not among the sources): the metadata files by date, each with what
    [load_json] returns for it ([None] reads as [JNull]) or raises;
    whether [ensure_dir] raises; and what [save_json] returns or raises
    for the cleaned list of a date. *)
Record FileManager : Type := {
  metadata_files : gmap str (exc json);
  ensure_dir : exc unit;
  save_json : str -> list Cleaned.t -> exc bool
}.

(** [_load_metadata]: [None] when the file is missing or does not
    load; a list as it is; a dict with the key [error] as the empty
    list, any other dict as a list of one; anything else as the empty
    list. *)
Definition _load_metadata (fm : FileManager) (date : str) : option (list json) :=
  match metadata_files fm !! date with
  | None => None
  | Some (Raise _) => None
  | Some (Ok (JArr data)) => Some data
  | Some (Ok (JObj fields)) =>
      match Json.lookup (py "error") fields with
      | Some _ => Some []
      | None => Some [JObj fields]
      end
  | Some (Ok _) => Some []
  end.

(** [_save_cleaned_data]: what it returns, and the list it hands to
    [save_json] when it gets that far. *)
Definition _save_cleaned_data (fm : FileManager) (date : str) (data : list Cleaned.t)
  : bool * option (list Cleaned.t) :=
  match ensure_dir fm with
  | Raise _ => (false, None)
  | Ok _ => (try_except (save_json fm date data) (fun _ => false), Some data)
  end.

(** A call of [clean]: what it returns, the list it hands to
    [save_json] if it does, and the world it leaves. *)
Record Cleaning : Type := {
  succeeded : bool;
  handed_over : option (list Cleaned.t);
  cleaning_world : World
}.

Definition clean (self : t) (fm : FileManager) (date : str) (silent : bool) (w : World)
  : Cleaning :=
  match _load_metadata fm date with
  | None => {| succeeded := false; handed_over := None; cleaning_world := w |}
  | Some raw_data =>
      let '(cleaned_data, w') := _clean_data self raw_data w in
      let '(success, saved) := _save_cleaned_data fm date cleaned_data in
      {| succeeded := success; handed_over := saved; cleaning_world := w' |}
  end.

(** The convenience functions [clean_data] and [clean_data_no_ai]: a
    [DataCleaner] from a configuration without [use_ai], or with
    [use_ai] false, then [clean]. *)
Definition clean_data (client_builds : bool) (fm : FileManager) (date : str)
    (silent : bool) (w : World) : Cleaning :=
  clean (__init__ None client_builds) fm date silent w.

Definition clean_data_no_ai (client_builds : bool) (fm : FileManager) (date : str)
    (silent : bool) (w : World) : Cleaning :=
  clean (__init__ (Some false) client_builds) fm date silent w.

(** The file manager that finds the value [v] in the metadata file of
    [date]. *)
Definition holding (v : json) (date : str) (fm : FileManager) : FileManager :=
  {| metadata_files := <[date := Ok v]> (metadata_files fm);
     ensure_dir := ensure_dir fm;
     save_json := save_json fm |}.

(** *** [_preprocess_raw_data] and the sample of the prompt *)

(** [for x in v]: the items of a list, the characters of a text, the
    keys of a dict; nothing else can be iterated. *)
Definition iterate (v : json) : exc (list json) :=
  match v with
  | JArr l => Ok l
  | JStr s => Ok ((fun c => JStr [c]) <$> s)
  | JObj fields => Ok ((fun kv => JStr (fst kv)) <$> fields)
  | _ => Raise TypeError
  end.

(** [v.strip()]: only a text has [strip]. *)
Definition stripped (v : json) : exc str :=
  match v with
  | JStr s => Ok (Py.strip s)
  | _ => Raise AttributeError
  end.

(** [v[:n]] for a list or a text; a dict or a number cannot be sliced. *)
Definition slice_value (n : nat) (v : json) : exc json :=
  match v with
  | JArr l => Ok (JArr (take n l))
  | JStr s => Ok (JStr (take n s))
  | _ => Raise TypeError
  end.

(** The dict [processed_item]. *)
Record Processed : Type := {
  processed_id : json;
  processed_title : str;
  processed_summary : str;
  processed_ai_summary : str;
  processed_ai_keywords : json;
  processed_authors : list json;
  processed_publishedAt : json;
  processed_githubRepo : json;
  processed_projectPage : json;
  processed_url : json
}.

(** The body of the [try] in the loop of [_preprocess_raw_data]: the
    item it appends, or [None] when the item lacks an id or a title. *)
Definition preprocess_body (item : json) : exc (option Processed) :=
  paper ← Json.get item (py "paper") (JObj []);
  authors_raw ← Json.get paper (py "authors") (JArr []);
  entries ← iterate authors_raw;
  let authors := flat_map author_entry entries in
  paper_id ← Json.get paper (py "id") (JStr []);
  title_raw ← Json.get paper (py "title") (JStr []);
  title ← normalize_title title_raw;
  summary_raw ← Json.get paper (py "summary") (JStr []);
  summary ← stripped summary_raw;
  ai_summary_raw ← Json.get paper (py "ai_summary") (JStr []);
  ai_summary ← stripped ai_summary_raw;
  ai_keywords_raw ← Json.get paper (py "ai_keywords") (JArr []);
  ai_keywords ← slice_value 15 ai_keywords_raw;
  published_at ← Json.get paper (py "publishedAt") (JStr []);
  github ← Json.get paper (py "githubRepo") (JStr []);
  project ← Json.get paper (py "projectPage") (JStr []);
  url ← Json.get paper (py "url") (JStr (arxiv_abs ++ fstring paper_id));
  let processed_item :=
    {| processed_id := paper_id;
       processed_title := title;
       processed_summary := take 800 summary;
       processed_ai_summary := ai_summary;
       processed_ai_keywords := ai_keywords;
       processed_authors := take 8 authors;
       processed_publishedAt := published_at;
       processed_githubRepo := github;
       processed_projectPage := project;
       processed_url := url |} in
  if Json.truthy paper_id && Py.truthy title then Ok (Some processed_item)
  else Ok None.

(** [_preprocess_raw_data]: an item whose body raises is logged and
    left out. *)
Definition _preprocess_raw_data (raw_data : list json) : list Processed :=
  omap (fun item => try_except (preprocess_body item) (fun _ => None)) raw_data.

(** The list [sample_data] of [_build_cleaning_prompt]: the first
    fifteen processed items. *)
Definition sample_data (raw_data : list json) : list Processed :=
  let processed_data := _preprocess_raw_data raw_data in
  if (15 <? length processed_data)%nat then take 15 processed_data
  else processed_data.

(** The number of items of a list or of characters of a text. *)
Definition size (v : json) : nat :=
  match v with
  | JArr l => length l
  | JStr s => length s
  | _ => 0
  end.

(** A record without the envelope [paper]: a dict that lacks the key. *)
Definition bare (item : json) : bool :=
  match item with
  | JObj fields =>
      match Json.lookup (py "paper") fields with
      | Some _ => false
      | None => true
      end
  | _ => false
  end.

End Extraction.

End Cleaner.

(* ===================================================================== *)
(** ** The Analyzer ([analyzer.py]) *)
(* ===================================================================== *)

(** The Result Store: the report file of each date, named by its date.
    A file holds a JSON list of results, or something else (another
    JSON value, or text that does not load). *)
Inductive FileContent : Type :=
  | FileList (entries : list dict)
  | FileOther.

Abbreviation Store := (gmap str FileContent).

Module Analyzer.

(** The state of a [PaperAnalyzer] after [__init__]. *)
Record t : Type := {
  use_ai : bool;
  ai_client : bool
}.

(** [__init__]: [use_ai] defaults to true; when building the client
    raises, [use_ai] is switched off. *)
Definition __init__ (config_use_ai : option bool) (client_builds : bool) : t :=
  let use := default true config_use_ai in
  if use then
    if client_builds then {| use_ai := true; ai_client := true |}
    else {| use_ai := false; ai_client := false |}
  else {| use_ai := false; ai_client := false |}.

(** The sentinels of the source. *)
Definition unknown : str := py "暂无".
Definition no_summary : str := py "无摘要信息".
Definition ellipsis : str := py "...".

(** *** [_format_publish_date] *)

(** [\d{4}-\d{2}-\d{2}] matched at the start of [s]. *)
Definition date_here (s : str) : bool :=
  match s with
  | y1 :: y2 :: y3 :: y4 :: h1 :: m1 :: m2 :: h2 :: d1 :: d2 :: _ =>
      Py.isdecimal y1 && Py.isdecimal y2 && Py.isdecimal y3 && Py.isdecimal y4
      && (h1 =? 45)
      && Py.isdecimal m1 && Py.isdecimal m2
      && (h2 =? 45)
      && Py.isdecimal d1 && Py.isdecimal d2
  | _ => false
  end.

(** [re.search(r'(\d{4}-\d{2}-\d{2})', s)]: group 1 of the leftmost
    match. *)
Fixpoint re_search_date (s : str) : option str :=
  match s with
  | [] => None
  | _ :: r => if date_here s then Some (take 10 s) else re_search_date r
  end.

(** A text of the form YYYY-MM-DD, as the pattern above reads it:
    ten characters that the pattern matches. *)
Definition is_ymd (s : str) : bool := (length s =? 10)%nat && date_here s.

Definition _format_publish_date (date_str : str) : str :=
  if negb (Py.truthy date_str) || Py.eqb date_str unknown then unknown
  else if Py.contains 84 date_str then hd [] (Py.split 84 date_str)
  else if (length date_str =? 10)%nat && (Py.count 45 date_str =? 2)%nat
       then date_str
  else match re_search_date date_str with
       | Some date => date
       | None => date_str
       end.

(** The two shapes the data model gives [publish_date]: YYYY-MM-DD or
    the sentinel. *)
Definition publish_date_shape (s : str) : Prop :=
  is_ymd s = true \/ s = unknown.

(** *** [_parse_ai_response] *)

(** The dict [parsed_fields], which always has its three keys. *)
Record ParsedFields : Type := {
  parsed_title_zh : str;
  parsed_summary_zh : str;
  parsed_model_function : str
}.

Definition title_label : str := py "**标题中文翻译**：".
Definition summary_label : str := py "**摘要中文翻译**：".
Definition function_label : str := py "**模型功能**：".

(** One turn of the loop over the lines. *)
Definition parse_line (fields : ParsedFields) (line : str) : ParsedFields :=
  let line := Py.strip line in
  if Py.startswith title_label line then
    {| parsed_title_zh := Py.strip (Py.replace title_label [] line);
       parsed_summary_zh := parsed_summary_zh fields;
       parsed_model_function := parsed_model_function fields |}
  else if Py.startswith summary_label line then
    {| parsed_title_zh := parsed_title_zh fields;
       parsed_summary_zh := Py.strip (Py.replace summary_label [] line);
       parsed_model_function := parsed_model_function fields |}
  else if Py.startswith function_label line then
    {| parsed_title_zh := parsed_title_zh fields;
       parsed_summary_zh := parsed_summary_zh fields;
       parsed_model_function := Py.strip (Py.replace function_label [] line) |}
  else fields.

Definition _parse_ai_response (response : str) : ParsedFields :=
  let lines := Py.split 10 (Py.strip response) in
  let fields :=
    fold_left parse_line lines
      {| parsed_title_zh := [];
         parsed_summary_zh := [];
         parsed_model_function := unknown |} in
  if negb (Py.truthy (parsed_model_function fields))
     || Py.eqb (Py.strip (parsed_model_function fields)) []
  then {| parsed_title_zh := parsed_title_zh fields;
          parsed_summary_zh := parsed_summary_zh fields;
          parsed_model_function := unknown |}
  else fields.

(** *** [analyze_single] *)

(** The summary used when no translation is at hand (lines 208-210 and
    again 332-334): the first 200 characters and an ellipsis when the
    summary is longer, the summary itself otherwise, and the no-summary
    sentinel when that is empty or the unknown sentinel. *)
Definition summary_fallback (summary : str) : str :=
  let summary_zh :=
    if (200 <? length summary)%nat
    then Py.slice_to 200 summary ++ ellipsis
    else summary in
  if negb (Py.truthy summary_zh) || Py.eqb summary_zh unknown
  then no_summary
  else summary_zh.

(** The result built without the assistant. *)
Definition basic_result (paper : Paper.t) : AnalysisResult.t :=
  {| AnalysisResult.id := Paper.id paper;
     AnalysisResult.title_en := Paper.title paper;
     AnalysisResult.title_zh := Paper.translation paper;
     AnalysisResult.url := Paper.url paper;
     AnalysisResult.authors := Paper.authors paper;
     AnalysisResult.publish_date := _format_publish_date (Paper.publish_date paper);
     AnalysisResult.summary_en := Paper.summary paper;
     AnalysisResult.summary_zh := summary_fallback (Paper.summary paper);
     AnalysisResult.github_repo := Paper.github_repo paper;
     AnalysisResult.project_page := Paper.project_page paper;
     AnalysisResult.model_function := unknown |}.

(** The result built from a usable answer of the assistant. *)
Definition parsed_result (paper : Paper.t) (response : str) : AnalysisResult.t :=
  let parsed_fields := _parse_ai_response response in
  let publish_date := _format_publish_date (Paper.publish_date paper) in
  let title_zh := Py.strip (parsed_title_zh parsed_fields) in
  let title_zh := if negb (Py.truthy title_zh) then Paper.title paper else title_zh in
  let summary_zh := Py.strip (parsed_summary_zh parsed_fields) in
  let summary_zh :=
    if negb (Py.truthy summary_zh) then summary_fallback (Paper.summary paper)
    else summary_zh in
  {| AnalysisResult.id := Paper.id paper;
     AnalysisResult.title_en := Paper.title paper;
     AnalysisResult.title_zh := title_zh;
     AnalysisResult.url := Paper.url paper;
     AnalysisResult.authors := Paper.authors paper;
     AnalysisResult.publish_date := publish_date;
     AnalysisResult.summary_en := Paper.summary paper;
     AnalysisResult.summary_zh := summary_zh;
     AnalysisResult.github_repo := Paper.github_repo paper;
     AnalysisResult.project_page := Paper.project_page paper;
     AnalysisResult.model_function := parsed_model_function parsed_fields |}.

(** The constants of the retry loop (locals of [analyze_single]) and the
    deadline of one call, in seconds. *)
Definition max_retries : nat := 3.
Definition retry_delay : N := 2.
Definition deadline : N := 90.

(** The retry loop, [for attempt in range(max_retries)]: the answer it
    leaves the loop with, or [None] when it gives up. A call that is not
    over at the deadline raises a timeout, handled like any exception of
    the call. *)
Fixpoint retry_loop (attempts : list nat) (paper : Paper.t) (w : World)
  : option str * World :=
  match attempts with
  | [] => (None, w)
  | attempt :: rest =>
      let '(outcome, w1) := chat (AnalysisRequest paper) w in
      let again :=
        if (attempt <? max_retries - 1)%nat
        then retry_loop rest paper (sleep retry_delay w1)
        else (None, w1) in
      match outcome with
      | Answered seconds response =>
          if seconds <=? deadline then
            if Py.truthy response then (Some response, w1) else again
          else again
      | Failed _ => again
      end
  end.

(** An outcome the retry loop cannot use: an exception, an answer that
    comes after the deadline, or an empty answer. *)
Definition unusable (outcome : ChatOutcome) : bool :=
  match outcome with
  | Answered seconds response =>
      negb (seconds <=? deadline) || negb (Py.truthy response)
  | Failed _ => true
  end.

(** The assistant fails for good when no call, whatever happened before
    it, has a usable outcome. *)
Definition fails_for_good (w : World) : Prop :=
  forall tr, unusable (assistant w tr) = true.

(** The assistant is used when [use_ai] is set and a client exists. *)
Definition assistant_on (self : t) : bool := use_ai self && ai_client self.

Definition analyze_single (self : t) (paper : Paper.t) (silent : bool) (w : World)
  : option AnalysisResult.t * World :=
  if negb (use_ai self) || negb (ai_client self) then
    (Some (basic_result paper), w)
  else
    match retry_loop (seq 0 max_retries) paper w with
    | (Some response, w') => (Some (parsed_result paper response), w')
    | (None, w') => (None, w')
    end.

(** *** The Result Store *)

(** [_load_existing_results]: the list in the file; the empty list when
    the file is missing, holds no list, or fails to load. *)
Definition _load_existing_results (fs : Store) (date : str) : list dict :=
  match fs !! date with
  | Some (FileList data) => data
  | Some FileOther => []
  | None => []
  end.

(** [_extract_paper_id_from_result]: the field [paper_id], else the
    field [id], else the last segment of [paper_url], else the empty
    text. *)
Definition _extract_paper_id_from_result (result : dict) : str :=
  match dict_lookup (py "paper_id") result with
  | Some v => v
  | None =>
      match dict_lookup (py "id") result with
      | Some v => v
      | None =>
          let url := default [] (dict_lookup (py "paper_url") result) in
          if Py.truthy url then List.last (Py.split 47 url) [] else []
      end
  end.

(** The list [_save_single_result] writes back: the entries that do
    not carry the id of the new result, then the new result. *)
Definition with_result (result : AnalysisResult.t) (existing_results : list dict)
  : list dict :=
  List.filter
    (fun r => negb (Py.eqb (_extract_paper_id_from_result r)
                           (AnalysisResult.paper_id result)))
    existing_results
  ++ [AnalysisResult.to_dict result].

(** [_save_single_result]: load the whole list, drop the entries that
    carry the id of the new result, append the new result and write the
    list back. *)
Definition _save_single_result (result : AnalysisResult.t) (date : str) (fs : Store)
  : Store :=
  let existing_results := _load_existing_results fs date in
  <[date := FileList (with_result result existing_results)]> fs.

(** The ids of a list of entries, and the entries that carry one id. *)
Definition stored_ids (entries : list dict) : list str :=
  _extract_paper_id_from_result <$> entries.

Definition entries_of (x : str) (entries : list dict) : list dict :=
  List.filter (fun r => Py.eqb (_extract_paper_id_from_result r) x) entries.

(** The list in the file after the results [rs] are saved one after the
    other. *)
Definition merge_results (entries : list dict) (rs : list AnalysisResult.t)
  : list dict :=
  fold_left (fun es r => with_result r es) rs entries.

(** The results that carry one id. *)
Definition results_of (x : str) (rs : list AnalysisResult.t) : list AnalysisResult.t :=
  List.filter (fun r => Py.eqb (AnalysisResult.id r) x) rs.

(** *** [analyze_batch] *)

(** The four counters of the loop. *)
Record Stats : Type := {
  processed_count : nat;
  success_count : nat;
  fail_count : nat;
  skip_count : nat
}.

(** What the loop carries from one paper to the next. *)
Record Loop : Type := {
  files : Store;
  world : World;
  results : list AnalysisResult.t;
  stats : Stats
}.

(** [if date:] holds for a date that is given and not empty. *)
Definition date_given (date : option str) : bool :=
  match date with
  | Some d => Py.truthy d
  | None => false
  end.

(** The set [existing_ids], built once before the loop. *)
Definition existing_ids_of (fs : Store) (date : option str) : gset str :=
  match date with
  | Some d =>
      if Py.truthy d
      then list_to_set (stored_ids (_load_existing_results fs d))
      else ∅
  | None => ∅
  end.

(** [date and paper.id in existing_ids]: the paper is skipped. *)
Definition already_processed (date : option str) (existing_ids : gset str)
    (paper : Paper.t) : bool :=
  date_given date && bool_decide (Paper.id paper ∈ existing_ids).

(** [if final_file: self._save_single_result(result, final_file)]. *)
Definition save_when_dated (date : option str) (result : AnalysisResult.t)
    (fs : Store) : Store :=
  match date with
  | Some d => if Py.truthy d then _save_single_result result d fs else fs
  | None => fs
  end.

Section Batch.

(** The call [self.analyze_single(paper, silent=silent)] as the loop
    sees it: it yields a result, yields [None], or raises. *)
Variable analyze : Paper.t -> World -> exc (option AnalysisResult.t) * World.

Variable date : option str.
Variable existing_ids : gset str.

(** One turn of the loop over the papers. *)
Definition batch_step (st : Loop) (paper : Paper.t) : Loop :=
  let s := stats st in
  if already_processed date existing_ids paper then
    {| files := files st; world := world st; results := results st;
       stats := {| processed_count := processed_count s;
                   success_count := success_count s;
                   fail_count := fail_count s;
                   skip_count := S (skip_count s) |} |}
  else
    let processed := S (processed_count s) in
    match analyze paper (world st) with
    | (Ok (Some result), w') =>
        {| files := save_when_dated date result (files st);
           world := w';
           results := results st ++ [result];
           stats := {| processed_count := processed;
                       success_count := S (success_count s);
                       fail_count := fail_count s;
                       skip_count := skip_count s |} |}
    | (Ok None, w') | (Raise _, w') =>
        {| files := files st; world := w'; results := results st;
           stats := {| processed_count := processed;
                       success_count := success_count s;
                       fail_count := S (fail_count s);
                       skip_count := skip_count s |} |}
    end.

Definition batch_loop (papers : list Paper.t) (st : Loop) : Loop :=
  fold_left batch_step papers st.

End Batch.

(** A call of [analyze_batch]: what it returns or raises, the Result
    Store and the world it leaves, and its list [results] and its
    counters at the end of the loop. *)
Record Run : Type := {
  returned : exc (list AnalysisResult.t);
  run_files : Store;
  run_world : World;
  run_results : list AnalysisResult.t;
  run_stats : Stats
}.

Definition no_stats : Stats :=
  {| processed_count := 0; success_count := 0; fail_count := 0; skip_count := 0 |}.

Section AnalyzeBatch.

Variable analyze : Paper.t -> World -> exc (option AnalysisResult.t) * World.

(** [analyze_batch] over any single analysis. An empty list returns at
    once. Otherwise the loop runs; the closing log line then reads
    [actually_processed], which is assigned only when [silent] is
    false, so a silent call ends with [UnboundLocalError]. *)
Definition analyze_batch_with (papers : list Paper.t) (date : option str)
    (silent : bool) (fs : Store) (w : World) : Run :=
  match papers with
  | [] => {| returned := Ok []; run_files := fs; run_world := w;
             run_results := []; run_stats := no_stats |}
  | _ =>
      let existing_ids := existing_ids_of fs date in
      let st := batch_loop analyze date existing_ids papers
                  {| files := fs; world := w; results := [];
                     stats := no_stats |} in
      {| returned := if silent then Raise UnboundLocalError
                     else Ok (results st);
         run_files := files st;
         run_world := world st;
         run_results := results st;
         run_stats := stats st |}
  end.

End AnalyzeBatch.

(** [analyze_batch] of a [PaperAnalyzer]: [analyze_single] catches its
    own exceptions, so the call never raises. *)
Definition analyze_batch (self : t) (papers : list Paper.t) (date : option str)
    (silent : bool) (fs : Store) (w : World) : Run :=
  analyze_batch_with
    (fun paper w => let '(r, w') := analyze_single self paper silent w in (Ok r, w'))
    papers date silent fs w.

(** *** Traces and answers *)

(** What [n] attempts of the retry loop on one paper leave in the
    trace: [n] calls of the assistant with a sleep of [retry_delay]
    seconds between two of them. *)
Fixpoint attempts_trace (paper : Paper.t) (n : nat) : list Event :=
  match n with
  | O => []
  | S m =>
      match m with
      | O => [EvChat (AnalysisRequest paper)]
      | S _ =>
          attempts_trace paper m
          ++ [EvSleep retry_delay; EvChat (AnalysisRequest paper)]
      end
  end.

(** The seconds slept in a trace. *)
Definition slept (tr : list Event) : N :=
  fold_right (fun e acc => match e with EvSleep s => s + acc | EvChat _ => acc end) 0 tr.

(** The text of an outcome; an exception has none. *)
Definition answer (outcome : ChatOutcome) : str :=
  match outcome with
  | Answered _ response => response
  | Failed _ => []
  end.

(** A line of an answer that [parse_line] reads: once stripped it
    starts with one of the three labels. *)
Definition labelled (line : str) : bool :=
  Py.startswith title_label (Py.strip line)
  || Py.startswith summary_label (Py.strip line)
  || Py.startswith function_label (Py.strip line).

(** The dict [parsed_fields] before the first line is read. *)
Definition no_fields : ParsedFields :=
  {| parsed_title_zh := [];
     parsed_summary_zh := [];
     parsed_model_function := unknown |}.

(** A field as the prompt asks for it: not empty, without white space
    at either end, on one line, and free of asterisks. *)
Definition plain_field (x : str) : Prop :=
  x <> [] /\ Py.strip x = x /\ Py.contains 10 x = false /\ Py.contains 42 x = false.

(** The answer in the format of the prompt ([_build_analysis_prompt]):
    the three labelled lines. *)
Definition labelled_answer (title_zh summary_zh model_function : str) : str :=
  title_label ++ title_zh ++ [10]
  ++ summary_label ++ summary_zh ++ [10]
  ++ function_label ++ model_function.

(** *** [analyze_papers] *)

(** The convenience function: a [PaperAnalyzer] built from a
    configuration without [use_ai], then [analyze_batch]. *)
Definition analyze_papers (client_builds : bool) (papers : list Paper.t)
    (date : option str) (silent : bool) (fs : Store) (w : World) : Run :=
  analyze_batch (__init__ None client_builds) papers date silent fs w.

End Analyzer.

(* ===================================================================== *)
(** ** The notification ([send_feishu.py]) *)
(* ===================================================================== *)

Module Feishu.

(** The variable parts of the card that is posted: its title, the
    colour template of its header and its text. The card also carries
    the time of the clock. *)
Record Card : Type := {
  card_title : str;
  card_template : str;
  card_content : str
}.

(** [result.get("code") == 0]: the integer zero, and what Python
    counts equal to it, a zero float and [False]. *)
Definition code_is_zero (code : json) : bool :=
  match code with
  | JInt z => (z =? 0)%Z
  | JFloat mantissa _ => (mantissa =? 0)%Z
  | JBool b => negb b
  | _ => false
  end.

Section Notification.

(** [str.lower]: it belongs to the language and is left open. *)
Variable lower : str -> str.

(** The environment variable [FEISHU_WEBHOOK], and what the post of a
    card to it gives: the JSON of the response, or an exception (of
    the connection, of [raise_for_status] or of [json]). *)
Variable FEISHU_WEBHOOK : option str.
Variable post : Card -> exc json.

(** The colour of the header: green for a success, red for a failure,
    blue otherwise. *)
Definition template_of (status : str) : str :=
  if bool_decide (lower status ∈ [py "success"; py "ok"; py "pass"]) then py "green"
  else if bool_decide (lower status ∈ [py "failed"; py "error"; py "fail"]) then py "red"
  else py "blue".

(** [send_feishu_notification]: what it returns and the cards it
    posts. Without a webhook nothing is posted. *)
Definition send_feishu_notification (title content status : str) : bool * list Card :=
  if negb (Py.truthy (default [] FEISHU_WEBHOOK)) then (false, [])
  else
    let card := {| card_title := title;
                   card_template := template_of status;
                   card_content := content |} in
    (try_except
       (result ← post card;
        code ← Json.get result (py "code") JNull;
        Ok (code_is_zero code))
       (fun _ => false),
     [card]).

End Notification.

End Feishu.

(* ===================================================================== *)
(** ** The pipeline ([run_pipeline.py]) *)
(* ===================================================================== *)

Module Pipeline.

(** The two lists of a [PipelineRunner]. *)
Record t : Type := {
  success_steps : list str;
  failed_steps : list str
}.

Definition __init__ : t := {| success_steps := []; failed_steps := [] |}.

(** The processes: what [subprocess.run] gives for a command, from
    all the commands run so far (the new one last): the exit code of
    the process, or an exception; and the commands run so far. *)
Record Processes : Type := {
  subprocess_run : list (list str) -> exc Z;
  commands : list (list str)
}.

Definition basic_step : str := py "Basic分析".
Definition advanced_step : str := py "Advanced分析".

(** [run_command]: the step succeeds when the process ends with the
    exit code 0. *)
Definition run_command (cmd : list str) (step_name : str) (self : t) (ps : Processes)
  : bool * t * Processes :=
  let ps' := {| subprocess_run := subprocess_run ps;
                commands := commands ps ++ [cmd] |} in
  match subprocess_run ps (commands ps') with
  | Ok 0%Z =>
      (true,
       {| success_steps := success_steps self ++ [step_name];
          failed_steps := failed_steps self |},
       ps')
  | _ =>
      (false,
       {| success_steps := success_steps self;
          failed_steps := failed_steps self ++ [step_name] |},
       ps')
  end.

(** The process ended with the exit code 0. *)
Definition exit_zero (outcome : exc Z) : bool :=
  match outcome with
  | Ok 0%Z => true
  | _ => false
  end.

Section Run.

(** [sys.executable]; the line of the quote, drawn at random from the
    module [quotes], which is not among the sources; the text that
    lists the papers of the cleaned file of a date; and the notifier
    with its environment. *)
Variable executable : str.
Variable quote_text : str.
Variable paper_list_text : str -> str.
Variable lower : str -> str.
Variable FEISHU_WEBHOOK : option str.
Variable post : Feishu.Card -> exc json.

(** The command of a step: [run.py], the step and the date, then the
    flags. *)
Definition command (step date : str) (rage_mode silent : bool) : list str :=
  [executable; py "run.py"; step; date]
  ++ (if rage_mode then [py "--rageMode"] else [])
  ++ (if silent then [py "--silent"] else []).

(** The status of [print_summary], from the number of steps that
    succeeded. *)
Definition status_of (self : t) : str :=
  if (length (success_steps self) =? 2)%nat then py "success"
  else if (length (success_steps self) =? 1)%nat then py "warning"
  else py "failed".

Definition summary_text_of (self : t) : str :=
  if (length (success_steps self) =? 2)%nat then quote_text
  else if (length (success_steps self) =? 1)%nat then quote_text ++ [10]
  else py "Patch内部论文分析执行失败。

❌ 失败步骤: "
       ++ (if match failed_steps self with [] => false | _ => true end
           then Py.join (py ", ") (failed_steps self)
           else py "全部").

Definition title_of (status date : str) : str :=
  if Py.eqb status (py "success")
  then py "📢[PatchX日报] AI前沿论文速递 - " ++ date ++ py "(昨日精选)"
  else if Py.eqb status (py "failed")
  then py "❌ [PatchX日报] AI前沿论文速递 - " ++ date
  else py "📢[PatchX日报] AI前沿论文速递 - " ++ date ++ py "(昨日精选)".

(** [print_summary]: the cards it posts. *)
Definition print_summary (self : t) (date : str) : list Feishu.Card :=
  let status := status_of self in
  let full_content := summary_text_of self ++ paper_list_text date in
  snd (Feishu.send_feishu_notification lower FEISHU_WEBHOOK post
         (title_of status date) full_content status).

(** A call of [run_pipeline]: what it returns, the runner and the
    processes it leaves, and the cards it posts. *)
Record Outcome : Type := {
  returned : bool;
  runner : t;
  processes : Processes;
  posted : list Feishu.Card
}.

Definition run_pipeline (date : str) (rage_mode silent : bool) (self : t) (ps : Processes)
  : Outcome :=
  let basic_cmd := command (py "basic") date rage_mode silent in
  let '(basic_success, self1, ps1) := run_command basic_cmd basic_step self ps in
  if negb basic_success then
    {| returned := false; runner := self1; processes := ps1;
       posted := print_summary self1 date |}
  else
    let advanced_cmd := command (py "advanced") date rage_mode silent in
    let '(advanced_success, self2, ps2) :=
      run_command advanced_cmd advanced_step self1 ps1 in
    {| returned := basic_success && advanced_success;
       runner := self2; processes := ps2;
       posted := print_summary self2 date |}.

End Run.

End Pipeline.

(* ===================================================================== *)
(** ** Sample data *)
(* ===================================================================== *)

(** Concrete papers, analyzers, assistants and raw records, on which the
    properties below are instantiated. *)
Module Sample.

Definition paper : Paper.t :=
  {| Paper.id := py "2501.00001";
     Paper.title := py "A Title";
     Paper.translation := py "A Title";
     Paper.url := py "https://arxiv.org/abs/2501.00001";
     Paper.authors := py "Jane Doe";
     Paper.publish_date := py "2025-07-31T17:00:30.000Z";
     Paper.summary := py "An abstract.";
     Paper.github_repo := [];
     Paper.project_page := [];
     Paper.model_function := [] |}.

(** The same paper with another title: a second paper under one id. *)
Definition revised : Paper.t :=
  {| Paper.id := py "2501.00001";
     Paper.title := py "A Revised Title";
     Paper.translation := py "A Revised Title";
     Paper.url := py "https://arxiv.org/abs/2501.00001";
     Paper.authors := py "Jane Doe";
     Paper.publish_date := py "2025-08-02";
     Paper.summary := py "An abstract.";
     Paper.github_repo := [];
     Paper.project_page := [];
     Paper.model_function := [] |}.

Definition other : Paper.t :=
  {| Paper.id := py "2501.00002";
     Paper.title := py "Another Title";
     Paper.translation := py "Another Title";
     Paper.url := py "https://arxiv.org/abs/2501.00002";
     Paper.authors := py "John Roe";
     Paper.publish_date := py "2025-07-31";
     Paper.summary := [];
     Paper.github_repo := [];
     Paper.project_page := [];
     Paper.model_function := [] |}.

(** A paper whose summary has 500 characters. *)
Definition long_paper : Paper.t :=
  {| Paper.id := py "2501.00003";
     Paper.title := py "A Long One";
     Paper.translation := py "A Long One";
     Paper.url := py "https://arxiv.org/abs/2501.00003";
     Paper.authors := py "Jane Doe";
     Paper.publish_date := py "2025-07-31";
     Paper.summary := repeat 97 500;
     Paper.github_repo := [];
     Paper.project_page := [];
     Paper.model_function := [] |}.

(** A paper with a title and an empty translation. *)
Definition untranslated : Paper.t :=
  {| Paper.id := py "2501.00004";
     Paper.title := py "A Title";
     Paper.translation := [];
     Paper.url := py "https://arxiv.org/abs/2501.00004";
     Paper.authors := py "Jane Doe";
     Paper.publish_date := py "2025-07-31";
     Paper.summary := py "An abstract.";
     Paper.github_repo := [];
     Paper.project_page := [];
     Paper.model_function := [] |}.

Definition off : Analyzer.t := Analyzer.__init__ (Some false) true.
Definition on : Analyzer.t := Analyzer.__init__ None true.

(** An assistant that fails every call after one second. *)
Definition failing : World :=
  {| assistant := fun _ => Failed 1; trace := [] |}.

(** An assistant that answers every call with the function line only. *)
Definition terse : World :=
  {| assistant := fun _ => Answered 1 (py "**模型功能**：分类"); trace := [] |}.

Definition day : str := py "2025-08-01".

(** A Result Store that already holds the analysis of [paper] for [day]. *)
Definition stocked : Store :=
  {[ day := FileList [AnalysisResult.to_dict (Analyzer.basic_result paper)] ]}.

(** The raw record of the specification's example. *)
Definition record : json :=
  JObj [ (py "paper",
          JObj [ (py "id", JStr (py "1234.5678"));
                 (py "title", JStr (py "A Title
"));
                 (py "authors", JArr [ JObj [ (py "name", JStr (py "Jane Doe")) ] ]) ]) ].

(** What the rule-based Cleaner makes of it. *)
Definition cleaned : Cleaned.t :=
  {| Cleaned.id := JStr (py "1234.5678");
     Cleaned.title := py "A Title";
     Cleaned.translation := py "A Title";
     Cleaned.url := JStr (py "https://arxiv.org/abs/1234.5678");
     Cleaned.authors := py "Jane Doe";
     Cleaned.publish_date := JStr [];
     Cleaned.summary := JStr [];
     Cleaned.github_repo := JStr [];
     Cleaned.project_page := JStr [];
     Cleaned.model_function := [] |}.

(** The same record without authors. *)
Definition anonymous : json :=
  JObj [ (py "id", JStr (py "1234.5678")); (py "title", JStr (py "A Title")) ].

(** Raw records that lack an id, lack a title, or have a blank title. *)
Definition no_id : json :=
  JObj [ (py "paper", JObj [ (py "title", JStr (py "A Title")) ]) ].
Definition no_title : json :=
  JObj [ (py "id", JStr (py "1234.5678")) ].
Definition blank_title : json :=
  JObj [ (py "id", JStr (py "1234.5678")); (py "title", JStr (py "  ")) ].

(** A Cleaner with the assistant switched on. *)
Definition ai_cleaner : Cleaner.t := Cleaner.__init__ (Some true) true.

(** An assistant that answers every call with some text. *)
Definition talkative : World :=
  {| assistant := fun _ => Answered 1 (py "1. ok"); trace := [] |}.

(** [str] of a non-text value, for the instances below: none of them
    formats such a value. *)
Definition no_format (v : json) : str := [].

(** A raw record with three authors, the second a plain text. *)
Definition coauthored : json :=
  JObj [ (py "paper",
          JObj [ (py "id", JStr (py "2507.00001"));
                 (py "title", JStr (py "Three Authors"));
                 (py "authors",
                  JArr [ JObj [ (py "name", JStr (py "Jane Doe")) ];
                         JStr (py "John Roe");
                         JObj [ (py "name", JStr (py "Ann Lee")) ] ]) ]) ].

(** An assistant that answers the first call of all and fails every
    later one, and an assistant that answers for the paper [other] and
    fails for every other paper. *)
Definition once : World :=
  {| assistant := fun tr => if (length tr =? 1)%nat
                            then Answered 1 (py "**模型功能**：分类")
                            else Failed 1;
     trace := [] |}.

Definition picky : World :=
  {| assistant := fun tr =>
       match last tr with
       | Some (EvChat (AnalysisRequest p)) =>
           if Py.eqb (Paper.id p) (Paper.id other)
           then Answered 1 (py "**模型功能**：分类")
           else Failed 1
       | _ => Failed 1
       end;
     trace := [] |}.


(** A cleaner that works by the rules, and a file manager that finds
    the example record and a record without id for [day], and saves
    what it is given. *)
Definition rule_cleaner : Cleaner.t := Cleaner.__init__ None true.

Definition disk : Cleaner.FileManager :=
  {| Cleaner.metadata_files := {[ day := Ok (JArr [record; no_id]) ]};
     Cleaner.ensure_dir := Ok ();
     Cleaner.save_json := fun _ _ => Ok true |}.

(** The data of the example record without its envelope. *)
Definition bare_record : json :=
  JObj [ (py "id", JStr (py "1234.5678"));
         (py "title", JStr (py "A Title")) ].

(** [str.lower] on the letters A to Z. *)
Definition lower (s : str) : str :=
  (fun c => if (65 <=? c) && (c <=? 90) then c + 32 else c) <$> s.

(** Processes that all end with the exit code 0, and processes of
    which only the first does. *)
Definition smooth : Pipeline.Processes :=
  {| Pipeline.subprocess_run := fun _ => Ok 0%Z; Pipeline.commands := [] |}.

Definition halting : Pipeline.Processes :=
  {| Pipeline.subprocess_run :=
       fun cmds => if (length cmds =? 1)%nat then Ok 0%Z else Ok 1%Z;
     Pipeline.commands := [] |}.

(** A webhook that accepts every card. *)
Definition accepting (card : Feishu.Card) : exc json :=
  Ok (JObj [(py "code", JInt 0)]).

End Sample.

(* ===================================================================== *)
(** * Properties *)
(* ===================================================================== *)

(** ** Text *)

Example utf8_ascii : py "A-1" = [65; 45; 49].
Proof. reflexivity. Qed.

Example utf8_chinese : py "暂无" = [26242; 26080].
Proof. reflexivity. Qed.

Example strip_example : Py.strip (py "  A Title
") = py "A Title".
Proof. reflexivity. Qed.

Example replace_example :
  Py.replace (py "ab") (py "-") (py "xababyab") = py "x--y-".
Proof. reflexivity. Qed.

Example split_example :
  Py.split 84 (py "2025-07-31T17:00") = [py "2025-07-31"; py "17:00"].
Proof. reflexivity. Qed.

Section DateFacts.
Import Analyzer.


Lemma truthy_nil (s : str) : Py.truthy s = false <-> s = [].
Proof. destruct s; simpl; split; congruence. Qed.

Lemma eqb_true (a b : str) : Py.eqb a b = true <-> a = b.
Proof. unfold Py.eqb. apply bool_decide_eq_true. Qed.

Lemma eqb_false (a b : str) : Py.eqb a b = false <-> a <> b.
Proof. unfold Py.eqb. apply bool_decide_eq_false. Qed.

Lemma split_head c s :
  Py.contains c s = true ->
  exists rest, s = hd [] (Py.split c s) ++ c :: rest
               /\ Py.contains c (hd [] (Py.split c s)) = false.
Proof.
  induction s as [|x r IH]; simpl; [discriminate|].
  rewrite N.eqb_sym. destruct (x =? c) eqn:E.
  - apply N.eqb_eq in E as ->. intros _. exists r. simpl. auto.
  - simpl. intros H. destruct (IH H) as (rest & Hr & Hn).
    destruct (Py.split c r) as [|h t] eqn:Es; simpl in *.
    + exists rest. rewrite Hr at 1. simpl. split; [reflexivity|].
      exfalso. clear -Es. destruct r; simpl in Es; [discriminate|].
      destruct (n =? c); [discriminate|].
      destruct (Py.split c r); discriminate.
    + exists rest. split; [congruence|]. rewrite N.eqb_sym, E. exact Hn.
Qed.

Lemma split_head_none c s :
  Py.contains c s = false -> hd [] (Py.split c s) = s.
Proof.
  induction s as [|x r IH]; simpl; [reflexivity|].
  rewrite N.eqb_sym. destruct (x =? c); simpl; [discriminate|].
  intros H. specialize (IH H). destruct (Py.split c r); simpl in *; congruence.
Qed.

Lemma date_here_take s :
  date_here s = true ->
  is_ymd (take 10 s) = true /\ exists post, s = take 10 s ++ post.
Proof.
  intros H. do 10 (destruct s as [|? s]; [discriminate H|]).
  split; [exact H|]. exists s. reflexivity.
Qed.

Lemma re_search_date_some s d :
  re_search_date s = Some d ->
  is_ymd d = true /\ exists pre post, s = pre ++ d ++ post.
Proof.
  induction s as [|x r IH]; [discriminate|].
  cbn [re_search_date]. destruct (date_here (x :: r)) eqn:E.
  - intros [= <-]. destruct (date_here_take _ E) as [H [post Hp]].
    split; [exact H|]. exists [], post. exact Hp.
  - intros H. destruct (IH H) as [Hy (pre & post & ->)].
    split; [exact Hy|]. exists (x :: pre), post. reflexivity.
Qed.

Lemma re_search_date_none s pre d post :
  re_search_date s = None -> s = pre ++ d ++ post -> is_ymd d = false.
Proof.
  revert s. induction pre as [|p pre IH]; intros s H ->.
  - simpl in H. destruct (is_ymd d) eqn:E; [|reflexivity].
    exfalso. unfold is_ymd in E. apply andb_true_iff in E as [_ E].
    do 10 (destruct d as [|? d]; [discriminate E|]).
    cbn [app re_search_date] in H. cbn [date_here] in *.
    rewrite E in H. discriminate.
  - cbn [app re_search_date] in H.
    destruct (date_here (p :: pre ++ d ++ post)); [discriminate|].
    eapply IH; eauto.
Qed.

Lemma decimal_not_T c : Py.isdecimal c = true -> (84 =? c) = false.
Proof. intros H. destruct (84 =? c) eqn:E; [|reflexivity]. apply N.eqb_eq in E as <-. discriminate H. Qed.

Lemma decimal_not_dash c : Py.isdecimal c = true -> c <> 45.
Proof. intros H ->. discriminate H. Qed.

Lemma unknown_eq : unknown = [26242; 26080].
Proof. reflexivity. Qed.

Lemma count_cons_eq c s : Py.count c (c :: s) = S (Py.count c s).
Proof. unfold Py.count. rewrite filter_cons_True by reflexivity. reflexivity. Qed.

Lemma count_cons_ne c x s : x <> c -> Py.count c (x :: s) = Py.count c s.
Proof. intros H. unfold Py.count. rewrite filter_cons_False by exact H. reflexivity. Qed.

Lemma ymd_passthrough s : is_ymd s = true -> _format_publish_date s = s.
Proof.
  unfold is_ymd. intros H. apply andb_true_iff in H as [L H].
  do 10 (destruct s as [|? s]; [discriminate H|]).
  destruct s; [|discriminate L]. clear L.
  cbn [date_here] in H.
  repeat (apply andb_true_iff in H as [H ?]).
  repeat match goal with
         | E : (_ =? 45) = true |- _ => apply N.eqb_eq in E; subst
         end.
  unfold _format_publish_date.
  cbn [Py.truthy negb orb].
  replace (Py.eqb _ unknown) with false
    by (symmetry; apply bool_decide_eq_false; rewrite unknown_eq; discriminate).
  cbn [Py.contains existsb].
  repeat match goal with
         | E : Py.isdecimal ?c = true |- context [84 =? ?c] =>
             rewrite (decimal_not_T c E)
         end.
  change (84 =? 45) with false. cbn [orb length Nat.eqb andb].
  repeat first [ rewrite count_cons_eq
               | rewrite (count_cons_ne 45) by (apply decimal_not_dash; assumption) ].
  reflexivity.
Qed.


Lemma truthy_true (s : str) : Py.truthy s = true <-> s <> [].
Proof. destruct s; simpl; split; congruence. Qed.

Lemma unknown_no_T : Py.contains 84 unknown = false.
Proof. reflexivity. Qed.

Lemma ymd_no_T d : is_ymd d = true -> Py.contains 84 d = false.
Proof.
  unfold is_ymd. intros H. apply andb_true_iff in H as [L H].
  do 10 (destruct d as [|? d]; [discriminate H|]).
  destruct d; [|discriminate L]. clear L.
  cbn [date_here] in H.
  repeat (apply andb_true_iff in H as [H ?]).
  repeat match goal with
         | E : (_ =? 45) = true |- _ => apply N.eqb_eq in E; subst
         end.
  cbn [Py.contains existsb].
  repeat match goal with
         | E : Py.isdecimal ?c = true |- context [84 =? ?c] =>
             rewrite (decimal_not_T c E)
         end.
  reflexivity.
Qed.

Lemma contains_app c a b : Py.contains c (a ++ b) = Py.contains c a || Py.contains c b.
Proof. unfold Py.contains. apply existsb_app. Qed.

Lemma split_head_app c d rest :
  Py.contains c d = false -> hd [] (Py.split c (d ++ c :: rest)) = d.
Proof.
  induction d as [|x d IH]; simpl.
  - rewrite N.eqb_refl. reflexivity.
  - rewrite N.eqb_sym. destruct (x =? c); simpl; [discriminate|].
    intros H. specialize (IH H). destruct (Py.split c (d ++ c :: rest)); simpl in *; congruence.
Qed.

(** The cascade of [_format_publish_date], case by case. *)
Lemma format_sentinel s : s = [] \/ s = unknown -> _format_publish_date s = unknown.
Proof. intros [-> | ->]; reflexivity. Qed.

Lemma format_T s :
  s <> [] -> s <> unknown -> Py.contains 84 s = true ->
  _format_publish_date s = hd [] (Py.split 84 s).
Proof.
  intros H1 H2 H3. unfold _format_publish_date.
  apply truthy_true in H1. apply eqb_false in H2. rewrite H1, H2, H3. reflexivity.
Qed.

Lemma format_no_T s :
  s <> [] -> s <> unknown -> Py.contains 84 s = false ->
  _format_publish_date s = default s (re_search_date s).
Proof.
  intros H1 H2 H3. unfold _format_publish_date.
  apply truthy_true in H1. apply eqb_false in H2. rewrite H1, H2, H3.
  cbn [negb orb].
  destruct ((length s =? 10)%nat && (Py.count 45 s =? 2)%nat) eqn:E.
  - apply andb_true_iff in E as [L _]. apply Nat.eqb_eq in L.
    destruct (re_search_date s) as [d|] eqn:R; [|reflexivity].
    destruct (re_search_date_some _ _ R) as [Hd (pre & post & Hs)].
    unfold is_ymd in Hd. apply andb_true_iff in Hd as [Ld _]. apply Nat.eqb_eq in Ld.
    assert (length pre = 0%nat /\ length post = 0%nat) as [Hp Hq].
    { rewrite Hs in L. rewrite !length_app in L. lia. }
    destruct pre; [|discriminate]. destruct post; [|discriminate].
    simpl in Hs. rewrite app_nil_r in Hs. simpl. congruence.
  - destruct (re_search_date s); reflexivity.
Qed.

Lemma date_here_prefix a b : date_here (a ++ b) = false -> date_here a = false.
Proof.
  do 10 (destruct a as [|? a]; [reflexivity|]).
  intros H. exact H.
Qed.

Lemma re_search_date_short l : (length l < 10)%nat -> re_search_date l = None.
Proof.
  induction l as [|x l IH]; [reflexivity|].
  intros H. cbn [re_search_date].
  replace (date_here (x :: l)) with false.
  - apply IH. simpl in H. lia.
  - symmetry. do 9 (destruct l as [|? l]; [reflexivity|]). simpl in H. lia.
Qed.

Lemma re_search_date_leftmost s d :
  re_search_date s = Some d ->
  is_ymd d = true
  /\ exists pre post, s = pre ++ d ++ post
                      /\ re_search_date (pre ++ take 9 d) = None.
Proof.
  induction s as [|x r IH]; [discriminate|].
  cbn [re_search_date]. destruct (date_here (x :: r)) eqn:E.
  - intros [= <-]. destruct (date_here_take _ E) as [H [post Hp]].
    split; [exact H|]. exists [], post. split; [exact Hp|].
    apply re_search_date_short. cbn [app]. rewrite length_take. lia.
  - intros H. destruct (IH H) as [Hy (pre & post & -> & Hl)].
    split; [exact Hy|]. exists (x :: pre), post. split; [reflexivity|].
    cbn [app re_search_date]. rewrite Hl.
    rewrite (date_here_prefix (x :: pre ++ take 9 d) (drop 9 d ++ post)); [reflexivity|].
    rewrite <- E. f_equal. cbn [app]. f_equal.
    rewrite <- !app_assoc. f_equal. rewrite (app_assoc (take 9 d)), take_drop. reflexivity.
Qed.
Lemma format_T_prefix s :
  s <> [] -> s <> unknown -> Py.contains 84 s = true ->
  exists rest, s = _format_publish_date s ++ 84 :: rest
               /\ Py.contains 84 (_format_publish_date s) = false.
Proof.
  intros H1 H2 H3. rewrite (format_T s H1 H2 H3). apply split_head, H3.
Qed.

Lemma format_iso d rest :
  is_ymd d = true -> _format_publish_date (d ++ 84 :: rest) = d.
Proof.
  intros Hd. pose proof (ymd_no_T d Hd) as Hn.
  rewrite format_T.
  - apply split_head_app, Hn.
  - destruct d; discriminate.
  - intros E. pose proof unknown_no_T as U. rewrite <- E, contains_app in U.
    cbn in U. rewrite orb_true_r in U. discriminate.
  - rewrite contains_app. cbn. apply orb_true_r.
Qed.

(** C5, as the spec states it, fails: a text without a date in it comes
    back unchanged, and is then neither YYYY-MM-DD nor the sentinel. *)
Lemma format_publish_date_keeps_other_text :
  _format_publish_date (py "hello") = py "hello"
  /\ is_ymd (py "hello") = false
  /\ py "hello" <> unknown.
Proof. repeat split; try reflexivity. discriminate. Qed.

(** C5, amended: for every input text the result is YYYY-MM-DD or the
    sentinel, or the part of the input before its first 'T', or the
    input unchanged; and it is YYYY-MM-DD or the sentinel whenever the
    input is empty, the sentinel, a YYYY-MM-DD date followed by 'T' and
    anything, or a text without 'T' in which the pattern
    [\d{4}-\d{2}-\d{2}] occurs. *)
Theorem format_publish_date_shape (s : str) :
  (publish_date_shape (_format_publish_date s)
   \/ (Py.contains 84 s = true
       /\ exists rest, s = _format_publish_date s ++ 84 :: rest)
   \/ _format_publish_date s = s)
  /\ ((s = [] \/ s = unknown
       \/ (exists d rest, is_ymd d = true /\ s = d ++ 84 :: rest)
       \/ (Py.contains 84 s = false /\ exists d, re_search_date s = Some d))
      -> publish_date_shape (_format_publish_date s)).
Proof.
  destruct (decide (s = [] \/ s = unknown)) as [Hs | Hs].
  { rewrite (format_sentinel s Hs). split; [left|intros _]; right; reflexivity. }
  assert (s <> [] /\ s <> unknown) as [H1 H2] by (split; intros E; apply Hs; auto).
  split.
  - destruct (Py.contains 84 s) eqn:HT.
    + right; left. split; [reflexivity|].
      destruct (format_T_prefix s H1 H2 HT) as (rest & E & _). eauto.
    + rewrite (format_no_T s H1 H2 HT).
      destruct (re_search_date s) as [d|] eqn:R; simpl.
      * left. left. apply (re_search_date_some s d R).
      * right; right. reflexivity.
  - intros [E | [E | [(d & rest & Hd & E) | (HT & d & R)]]].
    + contradiction.
    + contradiction.
    + subst s. rewrite (format_iso d rest Hd). left. exact Hd.
    + rewrite (format_no_T s H1 H2 HT), R. simpl.
      left. apply (re_search_date_some s d R).
Qed.

Lemma format_publish_date_shape_witness :
  publish_date_shape (_format_publish_date (py "on 2025-07-31 ok"))
  /\ publish_date_shape (_format_publish_date (py "2025-07-31T17:00:30.000Z")).
Proof.
  split.
  - apply (proj2 (format_publish_date_shape (py "on 2025-07-31 ok"))).
    right; right; right. split; [reflexivity|].
    exists (py "2025-07-31"). reflexivity.
  - apply (proj2 (format_publish_date_shape (py "2025-07-31T17:00:30.000Z"))).
    right; right; left. exists (py "2025-07-31"), (py "17:00:30.000Z").
    split; reflexivity.
Defined.

(** C6, as the spec states it, fails in two of its cases: a text with a
    YYYY-MM-DD pattern in it does not yield that pattern when a 'T'
    stands before it, and a text that is no timestamp, no date and holds
    no pattern is not returned unchanged when it holds a 'T'. In both
    the text is cut at its first 'T'. *)
Lemma format_publish_date_cut_at_T :
  re_search_date (py "Tue 2025-07-29") = Some (py "2025-07-29")
  /\ _format_publish_date (py "Tue 2025-07-29") = []
  /\ re_search_date (py "Today") = None
  /\ _format_publish_date (py "Today") = []
  /\ py "Today" <> [].
Proof. repeat split; try reflexivity. discriminate. Qed.

(** C6, amended: the three examples of the spec hold; a YYYY-MM-DD date
    followed by 'T' and anything (an ISO-8601 timestamp) yields the
    date, and any other text with a 'T' in it, unless empty or the
    sentinel, yields what stands before its first 'T'; a YYYY-MM-DD text
    passes through; a text without 'T' in which the pattern occurs
    yields the leftmost occurrence; a text without 'T' and without the
    pattern is returned unchanged; the empty text and the sentinel yield
    the sentinel. *)
Theorem format_publish_date_cases :
  _format_publish_date (py "2025-07-31T17:00:30.000Z") = py "2025-07-31"
  /\ _format_publish_date (py "2025-07-31") = py "2025-07-31"
  /\ _format_publish_date [] = unknown
  /\ _format_publish_date unknown = unknown
  /\ (forall d rest, is_ymd d = true -> _format_publish_date (d ++ 84 :: rest) = d)
  /\ (forall s, s <> [] -> s <> unknown -> Py.contains 84 s = true ->
        exists rest, s = _format_publish_date s ++ 84 :: rest
                     /\ Py.contains 84 (_format_publish_date s) = false)
  /\ (forall s, is_ymd s = true -> _format_publish_date s = s)
  /\ (forall s d, s <> [] -> s <> unknown -> Py.contains 84 s = false ->
        re_search_date s = Some d ->
        _format_publish_date s = d /\ is_ymd d = true
        /\ exists pre post, s = pre ++ d ++ post
                            /\ re_search_date (pre ++ take 9 d) = None)
  /\ (forall s, s <> [] -> s <> unknown -> Py.contains 84 s = false ->
        re_search_date s = None -> _format_publish_date s = s).
Proof.
  split; [reflexivity|]. split; [reflexivity|].
  split; [reflexivity|]. split; [reflexivity|].
  split; [exact format_iso|]. split; [exact format_T_prefix|].
  split; [exact ymd_passthrough|]. split.
  - intros s d H1 H2 HT R. rewrite (format_no_T s H1 H2 HT), R. simpl.
    split; [reflexivity|]. apply (re_search_date_leftmost s d R).
  - intros s H1 H2 HT R. rewrite (format_no_T s H1 H2 HT), R. reflexivity.
Qed.

Lemma format_publish_date_cases_witness :
  _format_publish_date (py "2025-07-31" ++ 84 :: py "17:00:30.000Z") = py "2025-07-31"
  /\ (exists rest, py "Tue 2025-07-29" = _format_publish_date (py "Tue 2025-07-29") ++ 84 :: rest)
  /\ _format_publish_date (py "2025-07-31") = py "2025-07-31"
  /\ _format_publish_date (py "on 2025-07-31 ok") = py "2025-07-31"
  /\ _format_publish_date (py "hello") = py "hello".
Proof.
  destruct format_publish_date_cases as (_ & _ & _ & _ & Hiso & HT & Hymd & Hre & Hnone).
  split; [apply Hiso; reflexivity|]. split.
  { destruct (HT (py "Tue 2025-07-29")) as (rest & E & _);
      [discriminate|discriminate|reflexivity|]. exists rest. exact E. }
  split; [apply Hymd; reflexivity|]. split.
  { apply (Hre (py "on 2025-07-31 ok") (py "2025-07-31"));
      [discriminate|discriminate|reflexivity|reflexivity]. }
  apply Hnone; [discriminate|discriminate|reflexivity|reflexivity].
Defined.

End DateFacts.

(** ** [analyze_single] *)

Section SingleFacts.
Import Analyzer.

Lemma summary_fallback_cases summary :
  summary_fallback summary =
    if (200 <? length summary)%nat then take 200 summary ++ ellipsis
    else if negb (Py.truthy summary) || Py.eqb summary unknown then no_summary
    else summary.
Proof.
  unfold summary_fallback, Py.slice_to.
  destruct (200 <? length summary)%nat eqn:L; [|reflexivity].
  apply Nat.ltb_lt in L.
  replace (Py.truthy (take 200 summary ++ ellipsis)) with true
    by (symmetry; apply truthy_true; intros E; apply (f_equal length) in E;
        rewrite length_app in E; simpl in E; lia).
  replace (Py.eqb (take 200 summary ++ ellipsis) unknown) with false; [reflexivity|].
  symmetry. apply bool_decide_eq_false. intros E. apply (f_equal length) in E.
  rewrite length_app, length_take in E. simpl in E. lia.
Qed.


Lemma summary_fallback_long summary :
  (200 < length summary)%nat ->
  summary_fallback summary = take 200 summary ++ ellipsis.
Proof.
  intros L. rewrite summary_fallback_cases.
  apply Nat.ltb_lt in L. rewrite L. reflexivity.
Qed.


Lemma analyze_single_off self paper silent w :
  assistant_on self = false ->
  analyze_single self paper silent w = (Some (basic_result paper), w).
Proof.
  unfold assistant_on, analyze_single. intros H.
  destruct (use_ai self), (ai_client self); try discriminate; reflexivity.
Qed.

Lemma analyze_single_on self paper silent w :
  assistant_on self = true ->
  analyze_single self paper silent w =
    match retry_loop (seq 0 max_retries) paper w with
    | (Some response, w') => (Some (parsed_result paper response), w')
    | (None, w') => (None, w')
    end.
Proof.
  unfold assistant_on, analyze_single. intros H.
  destruct (use_ai self), (ai_client self); try discriminate; reflexivity.
Qed.

(** Outside the data model: with the assistant off, [title_zh] is the
    paper's [translation] as it stands, so a record whose translation
    is empty, which is no canonical paper and which the Cleaner never
    writes, would get an empty [title_zh]. *)
Lemma analyze_single_empty_title_zh :
  analyze_single Sample.off Sample.untranslated false Sample.failing
  = (Some (basic_result Sample.untranslated), Sample.failing)
  /\ AnalysisResult.title_zh (basic_result Sample.untranslated) = []
  /\ Paper.title Sample.untranslated <> [].
Proof.
  split; [vm_compute; reflexivity|]. split; [vm_compute; reflexivity|].
  discriminate.
Qed.



(** C9: with [use_ai] false, [analyze_single] returns the basic result
    built from the paper's own fields, never [None], and leaves the
    world as it found it: no call of the assistant, no sleep, no retry.
    For a summary of 500 characters, [summary_zh] is its first 200
    characters followed by the ellipsis. *)
Theorem analyze_single_without_assistant self paper silent w :
  use_ai self = false ->
  analyze_single self paper silent w = (Some (basic_result paper), w)
  /\ (length (Paper.summary paper) = 500%nat ->
      AnalysisResult.summary_zh (basic_result paper)
      = take 200 (Paper.summary paper) ++ py "...").
Proof.
  intros H. split.
  - apply analyze_single_off. unfold assistant_on. rewrite H. reflexivity.
  - intros L. cbn [basic_result AnalysisResult.summary_zh].
    apply summary_fallback_long. lia.
Qed.

Lemma analyze_single_without_assistant_witness :
  analyze_single Sample.off Sample.long_paper true Sample.failing
  = (Some (basic_result Sample.long_paper), Sample.failing)
  /\ AnalysisResult.summary_zh (basic_result Sample.long_paper)
     = take 200 (Paper.summary Sample.long_paper) ++ py "...".
Proof.
  assert (Analyzer.use_ai Sample.off = false) as Hoff by reflexivity.
  assert (length (Paper.summary Sample.long_paper) = 500%nat) as Hlen
    by (vm_compute; reflexivity).
  destruct (analyze_single_without_assistant Sample.off Sample.long_paper true
              Sample.failing Hoff) as [Hr Hs].
  split; [exact Hr|]. exact (Hs Hlen).
Defined.

End SingleFacts.

(** ** The Cleaner *)

Section CleanerFacts.
Import Cleaner.
Variable format_value : json -> str.

Lemma paper_data_dict item pd :
  paper_data_of item = Ok pd ->
  exists fields, item = JObj fields /\ pd = default item (Json.lookup (py "paper") fields).
Proof.
  unfold paper_data_of, Json.get. destruct item; try discriminate.
  intros [= <-]. eauto.
Qed.

(** The body of [_extract_paper_info] once the record's data is known
    to be a dict. *)
Lemma extract_body_dict item fields :
  paper_data_of item = Ok (JObj fields) ->
  extract_body format_value item =
    (let paper_id := default (JStr []) (Json.lookup (py "id") fields) in
     title ← normalize_title (default (JStr []) (Json.lookup (py "title") fields));
     if negb (Json.truthy paper_id) || negb (Py.truthy title) then Ok None
     else
       let names := authors_list (default (JArr []) (Json.lookup (py "authors") fields)) in
       authors_str ← (if Json.truthy (JArr names)
                      then join_values (py ", ") names
                      else Ok unknown_authors);
       Ok (Some {| Cleaned.id := paper_id;
                   Cleaned.title := title;
                   Cleaned.translation := title;
                   Cleaned.url :=
                     default (JStr (arxiv_abs ++ fstring format_value paper_id))
                             (Json.lookup (py "url") fields);
                   Cleaned.authors := authors_str;
                   Cleaned.publish_date :=
                     or_else
                       (or_else
                          (or_else (default JNull (Json.lookup (py "publishedAt") fields))
                                   (default JNull (Json.lookup (py "publishedDate") fields)))
                          (default JNull (Json.lookup (py "published") fields)))
                       (JStr []);
                   Cleaned.summary := default (JStr []) (Json.lookup (py "summary") fields);
                   Cleaned.github_repo := default (JStr []) (Json.lookup (py "githubRepo") fields);
                   Cleaned.project_page := default (JStr []) (Json.lookup (py "projectPage") fields);
                   Cleaned.model_function := [] |})).
Proof.
  intros H. unfold extract_body. rewrite H.
  cbn [mbind exc_bind Json.get].
  destruct (normalize_title _) as [title|e]; [|reflexivity].
  cbn [mbind exc_bind].
  destruct (negb _ || negb _); [reflexivity|].
  destruct (if Json.truthy (JArr _) then _ else _); reflexivity.
Qed.

Lemma clean_with_rules_omap raw_data :
  _clean_with_rules format_value raw_data
  = omap (_extract_paper_info format_value) raw_data.
Proof.
  induction raw_data as [|item rest IH]; [reflexivity|].
  cbn [_clean_with_rules omap list_omap]. rewrite IH.
  destruct (_extract_paper_info format_value item); reflexivity.
Qed.

Lemma lacks_key_info_dropped item :
  lacks_key_info item ->
  extract_body format_value item = Ok None
  /\ _extract_paper_info format_value item = None.
Proof.
  intros (fields & title & Hpd & Ht & H).
  assert (extract_body format_value item = Ok None) as Hb.
  { rewrite (extract_body_dict item fields Hpd). cbn zeta.
    rewrite Ht. cbn [mbind exc_bind].
    destruct H as [-> | ->]; [reflexivity|].
    cbn [Py.truthy negb]. rewrite orb_true_r. reflexivity. }
  split; [exact Hb|]. unfold _extract_paper_info. rewrite Hb. reflexivity.
Qed.

Lemma extract_paper_info_some item c :
  _extract_paper_info format_value item = Some c ->
  exists fields,
    paper_data_of item = Ok (JObj fields)
    /\ Cleaned.id c = default (JStr []) (Json.lookup (py "id") fields)
    /\ normalize_title (default (JStr []) (Json.lookup (py "title") fields))
       = Ok (Cleaned.title c)
    /\ Json.truthy (Cleaned.id c) = true
    /\ Cleaned.title c <> []
    /\ Cleaned.translation c = Cleaned.title c
    /\ Cleaned.url c
       = default (JStr (arxiv_abs ++ fstring format_value (Cleaned.id c)))
                 (Json.lookup (py "url") fields)
    /\ (let names := authors_list (default (JArr []) (Json.lookup (py "authors") fields)) in
        if Json.truthy (JArr names)
        then join_values (py ", ") names = Ok (Cleaned.authors c)
        else Cleaned.authors c = unknown_authors).
Proof.
  unfold _extract_paper_info. intros H.
  destruct (paper_data_of item) as [pd|e] eqn:Hpd;
    [|unfold extract_body in H; rewrite Hpd in H; discriminate H].
  destruct pd as [| | | | |l|fields];
    try (unfold extract_body in H; rewrite Hpd in H; discriminate H).
  exists fields. split; [reflexivity|].
  rewrite (extract_body_dict item fields Hpd) in H. cbn zeta in H.
  destruct (normalize_title _) as [title|e]; [|discriminate H].
  cbn [mbind exc_bind] in H.
  destruct (Json.truthy (default (JStr []) (Json.lookup (py "id") fields))) eqn:Hid;
    [|discriminate H].
  destruct (Py.truthy title) eqn:Ht; [|discriminate H].
  cbn [negb orb] in H.
  destruct (Json.truthy (JArr _)) eqn:Ha.
  - destruct (join_values _ _) as [a|e] eqn:Hj; [|discriminate H].
    cbn [mbind exc_bind try_except] in H. injection H as <-.
    repeat split; try assumption; try reflexivity;
      try (apply truthy_true, Ht);
      try (cbv zeta; rewrite Ha; exact Hj).
  - cbn [mbind exc_bind try_except] in H. injection H as <-.
    repeat split; try assumption; try reflexivity;
      try (apply truthy_true, Ht);
      try (cbv zeta; rewrite Ha; reflexivity).
Qed.

Lemma clean_with_rules_app a b :
  _clean_with_rules format_value (a ++ b)
  = _clean_with_rules format_value a ++ _clean_with_rules format_value b.
Proof. rewrite !clean_with_rules_omap. apply omap_app. Qed.

Lemma clean_with_rules_length raw_data :
  (length (_clean_with_rules format_value raw_data) <= length raw_data)%nat.
Proof.
  induction raw_data as [|item rest IH]; [reflexivity|].
  cbn [_clean_with_rules]. destruct (_extract_paper_info format_value item); simpl; lia.
Qed.

(** C7: for every list of raw records, the output of the rule-based
    extraction is what [_extract_paper_info] yields, item by item; every
    record in it has a truthy [id] and a non-empty title, which are the
    [id] and the normalised [title] of the raw record; a record that
    lacks its id or its title (missing, falsy, or blank once stripped)
    yields [None] by the [return None] of the code, without an
    exception, and leaves no trace in the output. *)
Theorem rule_based_extraction_drops_incomplete (raw_data : list json) :
  _clean_with_rules format_value raw_data
  = omap (_extract_paper_info format_value) raw_data
  /\ Forall (fun c => Json.truthy (Cleaned.id c) = true /\ Cleaned.title c <> [])
            (_clean_with_rules format_value raw_data)
  /\ (forall item c,
        _extract_paper_info format_value item = Some c ->
        exists fields,
          paper_data_of item = Ok (JObj fields)
          /\ Cleaned.id c = default (JStr []) (Json.lookup (py "id") fields)
          /\ normalize_title (default (JStr []) (Json.lookup (py "title") fields))
             = Ok (Cleaned.title c)
          /\ Json.truthy (Cleaned.id c) = true
          /\ Cleaned.title c <> [])
  /\ (forall item, lacks_key_info item ->
        extract_body format_value item = Ok None
        /\ _extract_paper_info format_value item = None)
  /\ (forall before item after,
        raw_data = before ++ item :: after -> lacks_key_info item ->
        _clean_with_rules format_value raw_data
        = _clean_with_rules format_value before
          ++ _clean_with_rules format_value after)
  /\ (length (_clean_with_rules format_value raw_data) <= length raw_data)%nat.
Proof.
  split; [apply clean_with_rules_omap|]. split.
  { rewrite clean_with_rules_omap. apply Forall_forall. intros c Hc.
    apply list_elem_of_omap in Hc as (item & _ & Hi).
    destruct (extract_paper_info_some item c Hi) as (fields & _ & _ & _ & Hid & Ht & _).
    split; assumption. }
  split.
  { intros item c Hi.
    destruct (extract_paper_info_some item c Hi)
      as (fields & H1 & H2 & H3 & H4 & H5 & _).
    exists fields. repeat split; assumption. }
  split; [exact lacks_key_info_dropped|]. split.
  - intros before item after -> Hl.
    rewrite clean_with_rules_app. cbn [_clean_with_rules].
    rewrite (proj2 (lacks_key_info_dropped item Hl)). reflexivity.
  - apply clean_with_rules_length.
Qed.

Lemma join_head_app (sep a b : str) (rest : list str) :
  Py.join sep ((a ++ b) :: rest) = a ++ Py.join sep (b :: rest).
Proof. destruct rest as [|y r]; cbn [Py.join]; rewrite <- ?app_assoc; reflexivity. Qed.

Lemma join_fold (sep first : str) (rest : list str) :
  Py.join sep (first :: rest)
  = fold_left (fun joined name => joined ++ sep ++ name) rest first.
Proof.
  revert first. induction rest as [|n rest IH]; intros first; [reflexivity|].
  cbn [fold_left]. rewrite <- IH, !join_head_app. reflexivity.
Qed.

(** [', '.join(names)] is the comma-joined string of the spec. *)
Lemma join_comma_joined (names : list str) :
  Py.join (py ", ") names = comma_joined names.
Proof. destruct names as [|first rest]; [reflexivity|]. apply join_fold. Qed.

(** The loop over the authors keeps the name of every dict with a
    non-empty name. *)
Lemma authors_named (names : list str) :
  Forall (fun name => name <> []) names ->
  authors_list (JArr (author_named <$> names)) = JStr <$> names.
Proof.
  intros H. cbn [authors_list]. induction H as [|name names Hn _ IH]; [reflexivity|].
  cbn [fmap list_fmap flat_map]. cbn [fmap list_fmap] in IH. rewrite IH.
  unfold author_named at 1. cbn [author_entry].
  replace (Json.lookup (py "name") [(py "name", JStr name)]) with (Some (JStr name))
    by (vm_compute; reflexivity).
  cbn [default from_option id Json.truthy].
  apply truthy_true in Hn. rewrite Hn. reflexivity.
Qed.

Lemma texts_of_texts (names : list str) : texts (JStr <$> names) = Ok names.
Proof.
  induction names as [|n names IH]; [reflexivity|].
  cbn [fmap list_fmap texts]. cbn [fmap list_fmap] in IH. rewrite IH. reflexivity.
Qed.

Lemma replace_not_nil (old new s : str) :
  new <> [] -> s <> [] -> Py.replace old new s <> [].
Proof.
  intros Hn Hs. destruct s as [|x r]; [contradiction|].
  unfold Py.replace. cbn [Py.replace_go].
  destruct (Py.truthy old && Py.startswith old (x :: r)); [|discriminate].
  destruct new; [contradiction|discriminate].
Qed.

(** C8: the raw record of the specification's example yields id
    1234.5678, title and translation [A Title], authors [Jane Doe] and
    the url https://arxiv.org/abs/1234.5678; a record with the three
    authors Jane Doe, John Roe (a plain text) and Ann Lee yields the
    authors [Jane Doe, John Roe, Ann Lee]; a record without authors
    gets the unknown-authors sentinel. For every record that holds,
    under [paper], a dict with a non-empty text as [id], a text as
    [title] that is not blank, and as [authors] a list of dicts with
    non-empty names (or no authors at all): the result has that id,
    the stripped title with its line feeds turned into spaces, the
    title as translation, the names comma-joined in their order (the
    sentinel when there is none), and as url the [url] field or, when
    absent, https://arxiv.org/abs/ followed by the id. *)
Theorem extract_paper_info_example :
  _extract_paper_info format_value Sample.record = Some Sample.cleaned
  /\ option_map Cleaned.authors (_extract_paper_info format_value Sample.coauthored)
     = Some (py "Jane Doe, John Roe, Ann Lee")
  /\ option_map Cleaned.authors (_extract_paper_info format_value Sample.anonymous)
     = Some (py "未知作者")
  /\ (forall (item_fields fields : list (str * json)) (x s : str) (names : list str),
        Json.lookup (py "paper") item_fields = Some (JObj fields) ->
        Json.lookup (py "id") fields = Some (JStr x) -> x <> [] ->
        Json.lookup (py "title") fields = Some (JStr s) -> Py.strip s <> [] ->
        (Json.lookup (py "authors") fields = Some (JArr (author_named <$> names))
         \/ (Json.lookup (py "authors") fields = None /\ names = [])) ->
        Forall (fun name => name <> []) names ->
        exists c,
          _extract_paper_info format_value (JObj item_fields) = Some c
          /\ Cleaned.id c = JStr x
          /\ Cleaned.title c = Py.replace [10] [32] (Py.strip s)
          /\ Cleaned.translation c = Cleaned.title c
          /\ Cleaned.authors c
             = match names with
               | [] => py "未知作者"
               | _ => comma_joined names
               end
          /\ Cleaned.url c
             = default (JStr (py "https://arxiv.org/abs/" ++ x))
                       (Json.lookup (py "url") fields)).
Proof.
  split; [vm_compute; reflexivity|]. split; [vm_compute; reflexivity|].
  split; [vm_compute; reflexivity|].
  intros item_fields fields x s names Hpaper Hid Hx Htitle Hs Hauthors Hnames.
  assert (paper_data_of (JObj item_fields) = Ok (JObj fields)) as Hpd.
  { unfold paper_data_of. cbn [Json.get]. rewrite Hpaper. reflexivity. }
  assert (authors_list (default (JArr []) (Json.lookup (py "authors") fields))
          = JStr <$> names) as Hlist.
  { destruct Hauthors as [-> | [-> ->]]; [|reflexivity].
    cbn [default from_option id]. apply authors_named, Hnames. }
  unfold _extract_paper_info.
  rewrite (extract_body_dict (JObj item_fields) fields Hpd).
  cbv zeta. rewrite Hid, Htitle, Hlist. cbn [default from_option id normalize_title].
  cbn [mbind exc_bind Json.truthy fstring].
  apply truthy_true in Hx. rewrite Hx.
  assert (Py.truthy (Py.replace [10] [32] (Py.strip s)) = true) as ->
    by (apply truthy_true, replace_not_nil; [discriminate|exact Hs]).
  cbn [negb orb]. unfold join_values. rewrite texts_of_texts.
  cbn [mbind exc_bind]. rewrite join_comma_joined.
  destruct names as [|first rest]; cbn [fmap list_fmap]; cbn [try_except mbind exc_bind];
    (eexists; split; [reflexivity|]); cbn; repeat split.
Qed.

Lemma clean_data_with_assistant self raw_data w :
  use_ai self && ai_client self = true -> raw_data <> [] ->
  _clean_data format_value self raw_data w
  = _clean_with_ai format_value raw_data w.
Proof.
  intros H Hr. unfold _clean_data. rewrite H. destruct raw_data; [contradiction|reflexivity].
Qed.

(** C4, where the code departs from it: with the assistant selected and
    answering any non-empty text, the cleaned output is the empty list
    of the unwritten parser, while the rules extract the record. The
    fallback to the rules happens only on an empty answer and on an
    exception of the call. *)
Theorem clean_with_ai_returns_nothing :
  fst (_clean_data format_value Sample.ai_cleaner [Sample.record] Sample.talkative) = []
  /\ _clean_with_rules format_value [Sample.record] = [Sample.cleaned]
  /\ (forall raw_data w seconds response,
        fst (chat (CleaningRequest raw_data) w) = Answered seconds response ->
        fst (_clean_with_ai format_value raw_data w)
        = if Py.truthy response then []
          else _clean_with_rules format_value raw_data)
  /\ (forall raw_data w seconds,
        fst (chat (CleaningRequest raw_data) w) = Failed seconds ->
        fst (_clean_with_ai format_value raw_data w)
        = _clean_with_rules format_value raw_data).
Proof.
  split; [vm_compute; reflexivity|]. split; [vm_compute; reflexivity|]. split.
  - intros raw_data w seconds response H. unfold _clean_with_ai.
    destruct (chat (CleaningRequest raw_data) w) as [outcome w']. simpl in H. subst outcome.
    destruct (Py.truthy response); reflexivity.
  - intros raw_data w seconds H. unfold _clean_with_ai.
    destruct (chat (CleaningRequest raw_data) w) as [outcome w']. simpl in H. subst outcome.
    reflexivity.
Qed.
End CleanerFacts.

Lemma lacks_key_info_no_id : Cleaner.lacks_key_info Sample.no_id.
Proof.
  eexists _, _. split; [vm_compute; reflexivity|].
  split; [vm_compute; reflexivity|]. left. vm_compute. reflexivity.
Defined.

Lemma lacks_key_info_blank_title : Cleaner.lacks_key_info Sample.blank_title.
Proof.
  eexists _, _. split; [vm_compute; reflexivity|].
  split; [vm_compute; reflexivity|]. right. reflexivity.
Defined.

Lemma rule_based_extraction_drops_incomplete_witness :
  Cleaner._clean_with_rules Sample.no_format
    [Sample.no_id; Sample.record; Sample.no_title; Sample.blank_title]
  = Cleaner._clean_with_rules Sample.no_format []
    ++ Cleaner._clean_with_rules Sample.no_format
         [Sample.record; Sample.no_title; Sample.blank_title]
  /\ Cleaner.extract_body Sample.no_format Sample.blank_title = Ok None.
Proof.
  destruct (rule_based_extraction_drops_incomplete Sample.no_format
              [Sample.no_id; Sample.record; Sample.no_title; Sample.blank_title])
    as (_ & _ & _ & Hdrop & Hout & _).
  split.
  - exact (Hout [] Sample.no_id _ eq_refl lacks_key_info_no_id).
  - exact (proj1 (Hdrop Sample.blank_title lacks_key_info_blank_title)).
Defined.

Lemma extract_paper_info_example_witness :
  exists c,
    Cleaner._extract_paper_info Sample.no_format
      (JObj [ (py "paper",
               JObj [ (py "id", JStr (py "1234.5678"));
                      (py "title", JStr (py "  Two
Lines "));
                      (py "authors",
                       JArr [ JObj [ (py "name", JStr (py "Jane Doe")) ];
                              JObj [ (py "name", JStr (py "John Roe")) ] ]) ]) ])
    = Some c
    /\ Cleaned.title c = py "Two Lines"
    /\ Cleaned.authors c = py "Jane Doe, John Roe"
    /\ Cleaned.url c = JStr (py "https://arxiv.org/abs/1234.5678").
Proof.
  assert (py "1234.5678" <> []) as Hx by discriminate.
  assert (Py.strip (py "  Two
Lines ") <> []) as Hs by (vm_compute; discriminate).
  assert (Forall (fun name : str => name <> []) [py "Jane Doe"; py "John Roe"]) as Hn
    by (repeat constructor; discriminate).
  destruct (proj2 (proj2 (proj2 (extract_paper_info_example Sample.no_format)))
              [ (py "paper",
                 JObj [ (py "id", JStr (py "1234.5678"));
                        (py "title", JStr (py "  Two
Lines "));
                        (py "authors",
                         JArr [ JObj [ (py "name", JStr (py "Jane Doe")) ];
                                JObj [ (py "name", JStr (py "John Roe")) ] ]) ]) ]
              [ (py "id", JStr (py "1234.5678"));
                (py "title", JStr (py "  Two
Lines "));
                (py "authors",
                 JArr [ JObj [ (py "name", JStr (py "Jane Doe")) ];
                        JObj [ (py "name", JStr (py "John Roe")) ] ]) ]
              (py "1234.5678") (py "  Two
Lines ") [py "Jane Doe"; py "John Roe"]
              eq_refl eq_refl Hx eq_refl Hs (or_introl eq_refl) Hn)
    as (c & H1 & _ & H3 & _ & H5 & H6).
  exists c. split; [exact H1|]. split; [rewrite H3; vm_compute; reflexivity|].
  split; [rewrite H5; vm_compute; reflexivity|].
  rewrite H6. vm_compute. reflexivity.
Defined.

(** ** The Result Store *)

Section StoreFacts.
Import Analyzer.

Lemma extract_to_dict r :
  _extract_paper_id_from_result (AnalysisResult.to_dict r) = AnalysisResult.id r.
Proof. reflexivity. Qed.

Lemma load_insert (d : str) (l : list dict) (fs : Store) :
  _load_existing_results (<[d := FileList l]> fs) d = l.
Proof. unfold _load_existing_results. rewrite lookup_insert_eq. reflexivity. Qed.

Lemma load_insert_ne (d d' : str) (c : FileContent) (fs : Store) :
  d <> d' -> _load_existing_results (<[d := c]> fs) d' = _load_existing_results fs d'.
Proof. intros H. unfold _load_existing_results. rewrite lookup_insert_ne by exact H. reflexivity. Qed.

Lemma load_save (r : AnalysisResult.t) (d : str) (fs : Store) :
  _load_existing_results (_save_single_result r d fs) d
  = with_result r (_load_existing_results fs d).
Proof. apply load_insert. Qed.

Lemma stored_ids_with_result (r : AnalysisResult.t) (es : list dict) :
  stored_ids (with_result r es)
  = List.filter (fun x => negb (Py.eqb x (AnalysisResult.id r))) (stored_ids es)
    ++ [AnalysisResult.id r].
Proof.
  unfold with_result, stored_ids. rewrite fmap_app. cbn [fmap list_fmap].
  rewrite extract_to_dict. f_equal.
  induction es as [|e es IH]; [reflexivity|].
  cbn [List.filter fmap list_fmap]. unfold AnalysisResult.paper_id.
  destruct (Py.eqb (_extract_paper_id_from_result e) (AnalysisResult.id r));
    cbn [negb fmap list_fmap]; [exact IH|]. f_equal. exact IH.
Qed.

Lemma elem_of_filter_ne (x y : str) (l : list str) :
  x ∈ List.filter (fun z => negb (Py.eqb z y)) l <-> x ∈ l /\ x <> y.
Proof.
  rewrite !list_elem_of_In, List.filter_In, negb_true_iff.
  unfold Py.eqb. rewrite bool_decide_eq_false. reflexivity.
Qed.

Lemma elem_of_stored_ids_with_result (x : str) (r : AnalysisResult.t) (es : list dict) :
  x ∈ stored_ids (with_result r es) <-> x ∈ stored_ids es \/ x = AnalysisResult.id r.
Proof.
  rewrite stored_ids_with_result, elem_of_app, elem_of_filter_ne, list_elem_of_singleton.
  destruct (decide (x = AnalysisResult.id r)); tauto.
Qed.

Lemma NoDup_filter_list {A} (f : A -> bool) (l : list A) :
  NoDup l -> NoDup (List.filter f l).
Proof.
  induction 1 as [|x l Hx Hl IH]; cbn [List.filter]; [constructor|].
  destruct (f x); [|exact IH]. constructor; [|exact IH].
  rewrite list_elem_of_In, List.filter_In, <- list_elem_of_In. tauto.
Qed.

Lemma NoDup_stored_ids_with_result (r : AnalysisResult.t) (es : list dict) :
  NoDup (stored_ids es) -> NoDup (stored_ids (with_result r es)).
Proof.
  intros H. rewrite stored_ids_with_result. apply NoDup_app. split; [|split].
  - apply NoDup_filter_list, H.
  - intros x Hx Hx'. apply elem_of_filter_ne in Hx as [_ Hne].
    apply list_elem_of_singleton in Hx'. contradiction.
  - apply NoDup_singleton.
Qed.

(** Saving a result leaves alone every entry that carries another id. *)
Lemma with_result_keeps (r : AnalysisResult.t) (prefix es : list dict) :
  AnalysisResult.id r ∉ stored_ids prefix ->
  with_result r (prefix ++ es) = prefix ++ with_result r es.
Proof.
  intros H. unfold with_result. rewrite List.filter_app, <- app_assoc. f_equal.
  induction prefix as [|e prefix IH]; [reflexivity|].
  unfold stored_ids in H. cbn [fmap list_fmap] in H. apply not_elem_of_cons in H as [H1 H2].
  cbn [List.filter]. unfold AnalysisResult.paper_id.
  replace (Py.eqb (_extract_paper_id_from_result e) (AnalysisResult.id r)) with false
    by (symmetry; apply bool_decide_eq_false; congruence).
  cbn [negb]. f_equal. apply IH, H2.
Qed.

Lemma entries_of_app (x : str) (a b : list dict) : entries_of x (a ++ b) = entries_of x a ++ entries_of x b.
Proof. apply List.filter_app. Qed.

Lemma entries_of_with_result (x : str) (r : AnalysisResult.t) (es : list dict) :
  entries_of x (with_result r es)
  = if Py.eqb (AnalysisResult.id r) x then [AnalysisResult.to_dict r]
    else entries_of x es.
Proof.
  unfold with_result. rewrite entries_of_app.
  unfold entries_of at 2. cbn [List.filter]. rewrite extract_to_dict.
  unfold AnalysisResult.paper_id.
  destruct (Py.eqb (AnalysisResult.id r) x) eqn:E.
  - apply bool_decide_eq_true in E. subst x.
    replace (entries_of _ (List.filter _ es)) with (@nil dict); [reflexivity|].
    symmetry. induction es as [|e es IH]; [reflexivity|].
    cbn [List.filter].
    destruct (Py.eqb (_extract_paper_id_from_result e) (AnalysisResult.id r)) eqn:E';
      cbn [negb]; [exact IH|].
    unfold entries_of. cbn [List.filter]. rewrite E'. exact IH.
  - rewrite app_nil_r. apply bool_decide_eq_false in E.
    induction es as [|e es IH]; [reflexivity|].
    cbn [List.filter]. unfold entries_of in *.
    destruct (Py.eqb (_extract_paper_id_from_result e) (AnalysisResult.id r)) eqn:E';
      cbn [negb List.filter].
    + apply bool_decide_eq_true in E'.
      replace (Py.eqb (_extract_paper_id_from_result e) x) with false
        by (symmetry; apply bool_decide_eq_false; congruence).
      exact IH.
    + destruct (Py.eqb (_extract_paper_id_from_result e) x); [f_equal|]; exact IH.
Qed.

Lemma merge_results_snoc (es : list dict) (rs : list AnalysisResult.t) (r : AnalysisResult.t) :
  merge_results es (rs ++ [r]) = with_result r (merge_results es rs).
Proof. unfold merge_results. rewrite fold_left_app. reflexivity. Qed.

Lemma merge_results_cons (es : list dict) (rs : list AnalysisResult.t) (r : AnalysisResult.t) :
  merge_results es (r :: rs) = merge_results (with_result r es) rs.
Proof. reflexivity. Qed.

Lemma merge_results_keeps (prefix es : list dict) (rs : list AnalysisResult.t) :
  (forall r, r ∈ rs -> AnalysisResult.id r ∉ stored_ids prefix) ->
  merge_results (prefix ++ es) rs = prefix ++ merge_results es rs.
Proof.
  revert es. induction rs as [|r rs IH]; intros es H; [reflexivity|].
  rewrite !merge_results_cons, with_result_keeps by (apply H; left).
  apply IH. intros r' Hr'. apply H. right. exact Hr'.
Qed.

Lemma NoDup_merge_results (es : list dict) (rs : list AnalysisResult.t) :
  NoDup (stored_ids es) -> NoDup (stored_ids (merge_results es rs)).
Proof.
  revert es. induction rs as [|r rs IH]; intros es H; [exact H|].
  rewrite merge_results_cons. apply IH, NoDup_stored_ids_with_result, H.
Qed.

Lemma elem_of_merge_results (x : str) (es : list dict) (rs : list AnalysisResult.t) :
  x ∈ stored_ids (merge_results es rs)
  <-> x ∈ stored_ids es \/ x ∈ AnalysisResult.id <$> rs.
Proof.
  revert es. induction rs as [|r rs IH]; intros es.
  - cbn. rewrite elem_of_nil. tauto.
  - rewrite merge_results_cons, IH, elem_of_stored_ids_with_result.
    cbn [fmap list_fmap]. rewrite elem_of_cons. tauto.
Qed.

(** Of the results saved under one id, the last one is in the file. *)
Lemma entries_of_merge_results (x : str) (es : list dict) (rs : list AnalysisResult.t) :
  entries_of x (merge_results es rs)
  = match last (results_of x rs) with
    | Some r => [AnalysisResult.to_dict r]
    | None => entries_of x es
    end.
Proof.
  induction rs as [|r rs IH] using rev_ind; [reflexivity|].
  rewrite merge_results_snoc, entries_of_with_result.
  unfold results_of in *. rewrite List.filter_app. cbn [List.filter].
  destruct (Py.eqb (AnalysisResult.id r) x).
  - rewrite last_snoc. reflexivity.
  - rewrite app_nil_r. exact IH.
Qed.

Lemma sublist_same_length {A} (l k : list A) :
  l `sublist_of` k -> (length k <= length l)%nat -> l = k.
Proof.
  induction 1 as [|x l k H IH|x l k H IH]; cbn [length]; intros L.
  - reflexivity.
  - f_equal. apply IH. lia.
  - apply sublist_length in H. lia.
Qed.
End StoreFacts.

(** ** The batch loop *)

Section LoopFacts.
Import Analyzer.

Variable analyze : Paper.t -> World -> exc (option AnalysisResult.t) * World.
Variable date : option str.
Variable E : gset str.

Hypothesis analyze_id : forall p w r w',
  analyze p w = (Ok (Some r), w') -> AnalysisResult.id r = Paper.id p.

Local Abbreviation skip := (already_processed date E).
Local Abbreviation loop := (batch_loop analyze date E).
Local Abbreviation step := (batch_step analyze date E).

Lemma batch_loop_cons p papers st : loop (p :: papers) st = loop papers (step st p).
Proof. reflexivity. Qed.

(** What one run of the loop does, told from its new results [rs]. *)
Lemma batch_loop_spec papers st :
  exists rs,
    results (loop papers st) = results st ++ rs
    /\ files (loop papers st)
       = fold_left (fun fs r => save_when_dated date r fs) rs (files st)
    /\ skip_count (stats (loop papers st))
       = (skip_count (stats st) + length (List.filter skip papers))%nat
    /\ processed_count (stats (loop papers st))
       = (processed_count (stats st)
          + length (List.filter (fun p => negb (skip p)) papers))%nat
    /\ success_count (stats (loop papers st))
       = (success_count (stats st) + length rs)%nat
    /\ (fail_count (stats (loop papers st)) + length rs
        = fail_count (stats st)
          + length (List.filter (fun p => negb (skip p)) papers))%nat
    /\ (AnalysisResult.id <$> rs)
         `sublist_of` (Paper.id <$> List.filter (fun p => negb (skip p)) papers).
Proof.
  revert st. induction papers as [|p papers IH]; intros st.
  { exists []. cbn. rewrite app_nil_r. repeat split; try lia. constructor. }
  rewrite batch_loop_cons. destruct (IH (step st p)) as (rs & Hr & Hf & Hk & Hp & Hs & Hfl & Hsub).
  unfold batch_step in *. cbn [List.filter]. destruct (skip p) eqn:Sk; cbn [negb].
  - exists rs. cbn [results files stats skip_count processed_count success_count fail_count] in *.
    cbn [length]. repeat split; try assumption; lia.
  - destruct (analyze p (world st)) as [[[r|]|e] w'] eqn:A;
      cbn [results files stats skip_count processed_count success_count fail_count] in *.
    + exists (r :: rs). cbn [length fold_left fmap list_fmap].
      rewrite <- app_assoc in Hr. repeat split; try assumption; try lia.
      rewrite (analyze_id _ _ _ _ A). apply sublist_skip, Hsub.
    + exists rs. cbn [length fmap list_fmap]. repeat split; try assumption; try lia.
      apply sublist_cons, Hsub.
    + exists rs. cbn [length fmap list_fmap]. repeat split; try assumption; try lia.
      apply sublist_cons, Hsub.
Qed.

(** When every paper is skipped the loop only counts. *)
Lemma batch_loop_all_skipped papers st :
  Forall (fun p => skip p = true) papers ->
  files (loop papers st) = files st
  /\ world (loop papers st) = world st
  /\ results (loop papers st) = results st
  /\ skip_count (stats (loop papers st)) = (skip_count (stats st) + length papers)%nat
  /\ processed_count (stats (loop papers st)) = processed_count (stats st)
  /\ success_count (stats (loop papers st)) = success_count (stats st)
  /\ fail_count (stats (loop papers st)) = fail_count (stats st).
Proof.
  revert st. induction papers as [|p papers IH]; intros st H.
  { cbn. repeat split; lia. }
  inversion H as [|? ? Hp Hrest]; subst.
  rewrite batch_loop_cons.
  destruct (IH (step st p) Hrest) as (H1 & H2 & H3 & H4 & H5 & H6 & H7).
  unfold batch_step in *. rewrite Hp in *.
  cbn [results files world stats skip_count processed_count success_count fail_count] in *.
  cbn [length]. repeat split; try assumption; lia.
Qed.
End LoopFacts.

(** ** [analyze_batch] *)

Section RunFacts.
Import Analyzer.

(** [analyze_single] as [analyze_batch] calls it. *)
Local Abbreviation single self silent :=
  (fun paper w => let '(r, w') := analyze_single self paper silent w in (Ok r, w')).

Lemma analyze_single_id self p silent w r w' :
  analyze_single self p silent w = (Some r, w') ->
  AnalysisResult.id r = Paper.id p.
Proof.
  unfold analyze_single. destruct (negb (use_ai self) || negb (ai_client self)).
  - intros [= <- _]. reflexivity.
  - destruct (retry_loop _ p w) as [[response|] w1]; [|discriminate].
    intros [= <- _]. reflexivity.
Qed.

Lemma single_id self silent p w r w' :
  single self silent p w = (Ok (Some r), w') -> AnalysisResult.id r = Paper.id p.
Proof.
  cbn beta. destruct (analyze_single self p silent w) as [r0 w0] eqn:A.
  intros [= -> ->]. apply (analyze_single_id _ _ _ _ _ _ A).
Qed.

Lemma analyze_batch_loop (self : t) (papers : list Paper.t) (date : option str)
    (silent : bool) (fs : Store) (w : World) :
  let st := batch_loop (single self silent) date (existing_ids_of fs date) papers
              {| files := fs; world := w; results := []; stats := no_stats |} in
  let run := analyze_batch self papers date silent fs w in
  run_files run = files st /\ run_world run = world st
  /\ run_results run = results st /\ run_stats run = stats st.
Proof.
  destruct papers; cbn; repeat split; reflexivity.
Qed.

Lemma load_saved (d : str) (rs : list AnalysisResult.t) (fs : Store) :
  d <> [] ->
  _load_existing_results
    (fold_left (fun fs r => save_when_dated (Some d) r fs) rs fs) d
  = merge_results (_load_existing_results fs d) rs.
Proof.
  intros Hd. revert fs. induction rs as [|r rs IH]; intros fs; [reflexivity|].
  cbn [fold_left]. rewrite IH, merge_results_cons. f_equal.
  unfold save_when_dated. apply truthy_true in Hd. rewrite Hd. apply load_save.
Qed.

Lemma load_saved_other (d d' : str) (rs : list AnalysisResult.t) (fs : Store) :
  d <> d' ->
  _load_existing_results
    (fold_left (fun fs r => save_when_dated (Some d) r fs) rs fs) d'
  = _load_existing_results fs d'.
Proof.
  intros Hd. revert fs. induction rs as [|r rs IH]; intros fs; [reflexivity|].
  cbn [fold_left]. rewrite IH. unfold save_when_dated.
  destruct (Py.truthy d); [|reflexivity]. apply load_insert_ne, Hd.
Qed.

Lemma already_processed_dated (d : str) (E : gset str) (p : Paper.t) :
  d <> [] -> already_processed (Some d) E p = bool_decide (Paper.id p ∈ E).
Proof.
  intros Hd. unfold already_processed, date_given. apply truthy_true in Hd.
  rewrite Hd. reflexivity.
Qed.

Lemma filter_ext_list {A} (f g : A -> bool) (l : list A) :
  (forall x, f x = g x) -> List.filter f l = List.filter g l.
Proof. intros H. apply List.filter_ext, H. Qed.

Lemma entries_of_absent (x : str) (es : list dict) :
  x ∉ stored_ids es -> entries_of x es = [].
Proof.
  induction es as [|e es IH]; [reflexivity|].
  unfold stored_ids. cbn [fmap list_fmap]. intros H.
  apply not_elem_of_cons in H as [H1 H2].
  unfold entries_of. cbn [List.filter].
  replace (Py.eqb (_extract_paper_id_from_result e) x) with false
    by (symmetry; apply bool_decide_eq_false; congruence).
  apply IH, H2.
Qed.

(** One dated run, told from the store at its start and the results it
    collects. *)
Lemma analyze_batch_spec (self : t) (papers : list Paper.t) (d : str) (silent : bool)
    (fs : Store) (w : World) :
  d <> [] ->
  let E : gset str := list_to_set (stored_ids (_load_existing_results fs d)) in
  let run := analyze_batch self papers (Some d) silent fs w in
  let fresh := List.filter (fun p => negb (bool_decide (Paper.id p ∈ E))) papers in
  _load_existing_results (run_files run) d
  = _load_existing_results fs d ++ merge_results [] (run_results run)
  /\ skip_count (run_stats run)
     = length (List.filter (fun p => bool_decide (Paper.id p ∈ E)) papers)
  /\ processed_count (run_stats run) = length fresh
  /\ success_count (run_stats run) = length (run_results run)
  /\ (fail_count (run_stats run) + length (run_results run) = length fresh)%nat
  /\ (AnalysisResult.id <$> run_results run) `sublist_of` (Paper.id <$> fresh).
Proof.
  intros Hd E run fresh.
  destruct (analyze_batch_loop self papers (Some d) silent fs w) as (Hf & _ & Hr & Hs).
  fold run in Hf, Hr, Hs.
  assert (existing_ids_of fs (Some d) = E) as HE.
  { unfold existing_ids_of. apply truthy_true in Hd. rewrite Hd. reflexivity. }
  rewrite HE in Hf, Hr, Hs.
  destruct (batch_loop_spec (single self silent) (Some d) E (single_id self silent) papers
              {| files := fs; world := w; results := []; stats := no_stats |})
    as (rs & Hrs & Hfs & Hk & Hp & Hsu & Hfl & Hsub).
  cbn [results files stats skip_count processed_count success_count fail_count
       no_stats app Nat.add] in *.
  rewrite (filter_ext_list _ (fun p => bool_decide (Paper.id p ∈ E)) papers
             (fun p => already_processed_dated d E p Hd)) in Hk.
  rewrite (filter_ext_list (fun p => negb (already_processed (Some d) E p))
             (fun p => negb (bool_decide (Paper.id p ∈ E))) papers) in Hp, Hfl, Hsub
    by (intros p; rewrite (already_processed_dated d E p Hd); reflexivity).
  rewrite Hr, Hs, Hf, Hrs, Hfs. fold fresh in Hp, Hfl, Hsub.
  repeat split; try assumption.
  rewrite load_saved by exact Hd.
  rewrite <- (app_nil_r (_load_existing_results fs d)) at 1.
  apply merge_results_keeps. intros r Hrin.
  assert (AnalysisResult.id r ∈ Paper.id <$> fresh) as Hin.
  { apply (sublist_subseteq _ _ Hsub). apply list_elem_of_fmap. eauto. }
  apply list_elem_of_fmap in Hin as (p & Hid & Hp').
  unfold fresh in Hp'. rewrite list_elem_of_In, List.filter_In in Hp'.
  destruct Hp' as [_ Hp']. apply negb_true_iff, bool_decide_eq_false in Hp'.
  rewrite Hid. intros Hc. apply Hp'. unfold E. apply elem_of_list_to_set, Hc.
Qed.

Lemma batch_step_fresh (analyze : Paper.t -> World -> exc (option AnalysisResult.t) * World)
    (date : option str) (E : gset str) (st : Loop) (p : Paper.t)
    (r : AnalysisResult.t) (w' : World) :
  already_processed date E p = false ->
  analyze p (world st) = (Ok (Some r), w') ->
  batch_step analyze date E st p
  = {| files := save_when_dated date r (files st);
       world := w';
       results := results st ++ [r];
       stats := {| processed_count := S (processed_count (stats st));
                   success_count := S (success_count (stats st));
                   fail_count := fail_count (stats st);
                   skip_count := skip_count (stats st) |} |}.
Proof. intros Hs Ha. unfold batch_step. rewrite Hs, Ha. reflexivity. Qed.

Lemma single_some (self : t) (silent : bool) (p : Paper.t) (w w' : World)
    (r : AnalysisResult.t) :
  analyze_single self p silent w = (Some r, w') ->
  single self silent p w = (Ok (Some r), w').
Proof. intros H. cbn beta. rewrite H. reflexivity. Qed.

(** C10: the set of ids that decides what is skipped is the set of ids
    in the Result Store when the batch starts: the skipped papers are
    those whose id is in it, all others are analysed, whatever was saved
    meanwhile. The store at the end is the store at the start followed
    by the new results, of which, under one id, only the last saved one
    is left. So of two papers with one id that is not in the store at
    the start, both are analysed, and once both are saved the store
    holds one entry under that id, the result of the second. *)
Theorem existing_ids_computed_once (self : t) (papers : list Paper.t) (d : str)
    (silent : bool) (fs : Store) (w : World) :
  d <> [] ->
  let E : gset str := list_to_set (stored_ids (_load_existing_results fs d)) in
  let run := analyze_batch self papers (Some d) silent fs w in
  let stored := _load_existing_results (run_files run) d in
  skip_count (run_stats run)
  = length (List.filter (fun p => bool_decide (Paper.id p ∈ E)) papers)
  /\ processed_count (run_stats run)
     = length (List.filter (fun p => negb (bool_decide (Paper.id p ∈ E))) papers)
  /\ stored = _load_existing_results fs d ++ merge_results [] (run_results run)
  /\ (forall x, x ∉ E ->
        entries_of x stored
        = match last (results_of x (run_results run)) with
          | Some r => [AnalysisResult.to_dict r]
          | None => []
          end)
  /\ (forall p1 p2 r1 r2 w1 w2,
        papers = [p1; p2] -> Paper.id p1 = Paper.id p2 -> Paper.id p1 ∉ E ->
        analyze_single self p1 silent w = (Some r1, w1) ->
        analyze_single self p2 silent w1 = (Some r2, w2) ->
        processed_count (run_stats run) = 2%nat
        /\ skip_count (run_stats run) = 0%nat
        /\ run_results run = [r1; r2]
        /\ stored = _load_existing_results fs d ++ [AnalysisResult.to_dict r2]
        /\ entries_of (Paper.id p1) stored = [AnalysisResult.to_dict r2]).
Proof.
  intros Hd E run stored.
  destruct (analyze_batch_spec self papers d silent fs w Hd)
    as (Hst & Hk & Hp & _ & _ & _).
  fold E in Hst, Hk, Hp. fold run in Hst, Hk, Hp. fold stored in Hst.
  assert (forall x, x ∉ E ->
            entries_of x stored
            = match last (results_of x (run_results run)) with
              | Some r => [AnalysisResult.to_dict r]
              | None => []
              end) as Hlast.
  { intros x Hx. rewrite Hst, entries_of_app, entries_of_absent.
    - cbn [app]. apply entries_of_merge_results.
    - intros Hc. apply Hx. unfold E. apply elem_of_list_to_set, Hc. }
  split; [exact Hk|]. split; [exact Hp|]. split; [exact Hst|]. split; [exact Hlast|].
  intros p1 p2 r1 r2 w1 w2 -> Hid Hfresh A1 A2.
  assert (AnalysisResult.id r1 = Paper.id p1) as I1 by apply (analyze_single_id _ _ _ _ _ _ A1).
  assert (AnalysisResult.id r2 = Paper.id p1) as I2
    by (rewrite Hid; apply (analyze_single_id _ _ _ _ _ _ A2)).
  assert (bool_decide (Paper.id p1 ∈ E) = false) as B1 by (apply bool_decide_eq_false, Hfresh).
  assert (bool_decide (Paper.id p2 ∈ E) = false) as B2 by (rewrite <- Hid; exact B1).
  assert (run_results run = [r1; r2]) as Hrs.
  { destruct (analyze_batch_loop self [p1; p2] (Some d) silent fs w) as (_ & _ & Hr & _).
    fold run in Hr. rewrite Hr.
    assert (existing_ids_of fs (Some d) = E) as ->.
    { unfold existing_ids_of. apply truthy_true in Hd. rewrite Hd. reflexivity. }
    unfold batch_loop. cbn [fold_left].
    rewrite (batch_step_fresh _ _ _ _ p1 r1 w1);
      [|rewrite already_processed_dated by exact Hd; exact B1
       |apply single_some, A1].
    rewrite (batch_step_fresh _ _ _ _ p2 r2 w2);
      [|rewrite already_processed_dated by exact Hd; exact B2
       |apply single_some, A2].
    reflexivity. }
  assert (stored = _load_existing_results fs d ++ [AnalysisResult.to_dict r2]) as Hst'.
  { rewrite Hst, Hrs. f_equal. unfold merge_results, with_result. cbn [fold_left List.filter app].
    rewrite extract_to_dict. unfold AnalysisResult.paper_id. rewrite I1, I2.
    replace (Py.eqb (Paper.id p1) (Paper.id p1)) with true
      by (symmetry; apply bool_decide_eq_true; reflexivity).
    reflexivity. }
  split; [rewrite Hp; cbn [List.filter]; rewrite B1, B2; reflexivity|].
  split; [rewrite Hk; cbn [List.filter]; rewrite B1, B2; reflexivity|].
  split; [exact Hrs|]. split; [exact Hst'|].
  rewrite (Hlast _ Hfresh), Hrs. unfold results_of. cbn [List.filter]. rewrite I1, I2.
  replace (Py.eqb (Paper.id p1) (Paper.id p1)) with true
    by (symmetry; apply bool_decide_eq_true; reflexivity).
  reflexivity.
Qed.

Lemma filter_all {A} (f : A -> bool) (l : list A) :
  (forall x, f x = true) -> List.filter f l = l.
Proof.
  intros H. induction l as [|x l IH]; [reflexivity|].
  cbn [List.filter]. rewrite H, IH. reflexivity.
Qed.

Lemma filter_length_mono {A} (g h : A -> bool) (l : list A) :
  (forall x, x ∈ l -> g x = true -> h x = true) ->
  (length (List.filter g l) <= length (List.filter h l))%nat.
Proof.
  induction l as [|x l IH]; intros H; [reflexivity|].
  assert (length (List.filter g l) <= length (List.filter h l))%nat as IH'
    by (apply IH; intros y Hy; apply H; right; exact Hy).
  cbn [List.filter]. destruct (g x) eqn:G.
  - rewrite (H x (list_elem_of_here _ _) G). cbn [length]. lia.
  - destruct (h x); cbn [length]; lia.
Qed.

Lemma filter_ext_elem {A} (g h : A -> bool) (l : list A) :
  (forall x, x ∈ l -> g x = h x) -> List.filter g l = List.filter h l.
Proof.
  intros H. apply List.filter_ext_in. intros x Hx. apply H, list_elem_of_In, Hx.
Qed.

(** A sublist of the keys of a list counts at most as many items as
    carry one of its keys. *)
Lemma count_sublist_le {A} (f : A -> str) (l : list A) (sub : list str) :
  sub `sublist_of` (f <$> l) ->
  (length sub <= length (List.filter (fun p => bool_decide (f p ∈ sub)) l))%nat.
Proof.
  revert sub. induction l as [|p l IH]; intros sub H.
  - apply sublist_nil_r in H. subst sub. reflexivity.
  - cbn [fmap list_fmap] in H. apply sublist_cons_r in H as [H|(k & -> & H)].
    + specialize (IH sub H). cbn [List.filter].
      destruct (bool_decide (f p ∈ sub)); cbn [length]; lia.
    + specialize (IH k H). cbn [List.filter].
      rewrite bool_decide_eq_true_2 by left. cbn [length].
      pose proof (filter_length_mono
                    (fun q => bool_decide (f q ∈ k))
                    (fun q => bool_decide (f q ∈ f p :: k)) l) as Hm.
      assert (length (List.filter (fun q => bool_decide (f q ∈ k)) l)
              <= length (List.filter (fun q => bool_decide (f q ∈ f p :: k)) l))%nat.
      { apply Hm. intros x _ Hx. apply bool_decide_eq_true in Hx.
        apply bool_decide_eq_true. right. exact Hx. }
      lia.
Qed.

(** With distinct keys, exactly as many. *)
Lemma count_sublist_NoDup {A} (f : A -> str) (l : list A) (sub : list str) :
  NoDup (f <$> l) -> sub `sublist_of` (f <$> l) ->
  length (List.filter (fun p => bool_decide (f p ∈ sub)) l) = length sub.
Proof.
  revert sub. induction l as [|p l IH]; intros sub Hn H.
  - apply sublist_nil_r in H. subst sub. reflexivity.
  - cbn [fmap list_fmap] in H, Hn. apply NoDup_cons in Hn as [Hp Hn].
    apply sublist_cons_r in H as [H|(k & -> & H)].
    + cbn [List.filter]. rewrite bool_decide_eq_false_2.
      * apply IH; assumption.
      * intros Hin. apply Hp. apply (sublist_subseteq _ _ H), Hin.
    + cbn [List.filter]. rewrite bool_decide_eq_true_2 by left. cbn [length].
      f_equal. rewrite <- (IH k Hn H). f_equal. apply filter_ext_elem. intros q Hq.
      apply bool_decide_ext. split.
      * intros Hin. apply elem_of_cons in Hin as [E|Hin]; [|exact Hin].
        exfalso. apply Hp. rewrite <- E. apply list_elem_of_fmap.
        exists q. split; [reflexivity|exact Hq].
      * intros Hin. right. exact Hin.
Qed.


Lemma elem_of_set_of_list (x : str) (l : list str) :
  bool_decide (x ∈ (list_to_set l : gset str)) = bool_decide (x ∈ l).
Proof. apply bool_decide_ext, elem_of_list_to_set. Qed.

Lemma stored_ids_concat (a b : list dict) : stored_ids (a ++ b) = stored_ids a ++ stored_ids b.
Proof. unfold stored_ids. apply fmap_app. Qed.

(** A dated run, with the ids read as a list. *)
Lemma analyze_batch_run (self : t) (papers : list Paper.t) (d : str) (silent : bool)
    (fs : Store) (w : World) :
  d <> [] ->
  let before := _load_existing_results fs d in
  let run := analyze_batch self papers (Some d) silent fs w in
  let got := AnalysisResult.id <$> run_results run in
  let fresh := List.filter (fun p => negb (bool_decide (Paper.id p ∈ stored_ids before))) papers in
  _load_existing_results (run_files run) d = before ++ merge_results [] (run_results run)
  /\ (forall x, x ∈ stored_ids (_load_existing_results (run_files run) d)
                <-> x ∈ stored_ids before \/ x ∈ got)
  /\ (NoDup (stored_ids before) ->
      NoDup (stored_ids (_load_existing_results (run_files run) d)))
  /\ skip_count (run_stats run)
     = length (List.filter (fun p => bool_decide (Paper.id p ∈ stored_ids before)) papers)
  /\ processed_count (run_stats run) = length fresh
  /\ success_count (run_stats run) = length got
  /\ (fail_count (run_stats run) + length got = length fresh)%nat
  /\ got `sublist_of` (Paper.id <$> fresh).
Proof.
  intros Hd before run got fresh.
  destruct (analyze_batch_spec self papers d silent fs w Hd)
    as (Hst & Hk & Hp & Hsu & Hfl & Hsub).
  fold run before in Hst, Hk, Hp, Hsu, Hfl, Hsub.
  rewrite (filter_ext_list _ (fun p => bool_decide (Paper.id p ∈ stored_ids before)) papers)
    in Hk by (intros p; apply elem_of_set_of_list).
  rewrite (filter_ext_list _ (fun p => negb (bool_decide (Paper.id p ∈ stored_ids before)))
             papers) in Hp, Hfl, Hsub
    by (intros p; rewrite elem_of_set_of_list; reflexivity).
  fold fresh in Hp, Hfl, Hsub. fold got in Hsub.
  assert (forall x, x ∈ stored_ids (_load_existing_results (run_files run) d)
                    <-> x ∈ stored_ids before \/ x ∈ got) as Hel.
  { intros x. rewrite Hst, stored_ids_concat, elem_of_app, elem_of_merge_results.
    cbn [stored_ids fmap list_fmap]. rewrite elem_of_nil. fold got. tauto. }
  split; [exact Hst|]. split; [exact Hel|]. split.
  { intros Hnd. rewrite Hst, stored_ids_concat. apply NoDup_app. split; [exact Hnd|]. split.
    - intros x Hx Hx'. apply elem_of_merge_results in Hx' as [Hx'|Hx'].
      + cbn in Hx'. apply elem_of_nil in Hx'. exact Hx'.
      + apply (sublist_subseteq _ _ Hsub) in Hx'.
        apply list_elem_of_fmap in Hx' as (p & -> & Hp').
        unfold fresh in Hp'. rewrite list_elem_of_In, List.filter_In in Hp'.
        destruct Hp' as [_ Hp']. apply negb_true_iff, bool_decide_eq_false in Hp'.
        exact (Hp' Hx).
    - apply NoDup_merge_results. constructor. }
  split; [exact Hk|]. split; [exact Hp|].
  split; [rewrite Hsu; unfold got; rewrite length_fmap; reflexivity|].
  split; [unfold got; rewrite length_fmap; exact Hfl|exact Hsub].
Qed.

Lemma filter_elem_all {A} (f : A -> bool) (l : list A) :
  (forall x, x ∈ l -> f x = true) -> List.filter f l = l.
Proof.
  induction l as [|x l IH]; intros H; [reflexivity|].
  cbn [List.filter]. rewrite (H x) by left. f_equal. apply IH.
  intros y Hy. apply H. right. exact Hy.
Qed.

Lemma elem_of_filter_list {A} (f : A -> bool) (l : list A) (x : A) :
  x ∈ List.filter f l -> x ∈ l.
Proof. rewrite !list_elem_of_In, List.filter_In. tauto. Qed.

(** C1, as the spec states it, fails in four ways. When the file
    already holds a paper of the list, the first run skips it, so the
    second run skips one paper while the first succeeded on none. When
    two papers share an id and the analysis of only the first succeeds,
    the second run skips both while the first run succeeded on one.
    When the assistant fails for good, nothing is stored, so after two
    runs the file is empty while there is one distinct paper. And when
    the file already holds another paper, it ends with two entries
    while the list has one distinct paper. *)
Lemma analyze_twice_counts_differ :
  let stocked1 := analyze_batch Sample.off [Sample.paper] (Some Sample.day) false
                    Sample.stocked Sample.failing in
  let stocked2 := analyze_batch Sample.off [Sample.paper] (Some Sample.day) false
                    (run_files stocked1) (run_world stocked1) in
  let twin1 := analyze_batch Sample.on [Sample.paper; Sample.revised] (Some Sample.day)
                 false ∅ Sample.once in
  let twin2 := analyze_batch Sample.on [Sample.paper; Sample.revised] (Some Sample.day)
                 false (run_files twin1) (run_world twin1) in
  let failed1 := analyze_batch Sample.on [Sample.paper] (Some Sample.day) false
                   ∅ Sample.failing in
  let failed2 := analyze_batch Sample.on [Sample.paper] (Some Sample.day) false
                   (run_files failed1) (run_world failed1) in
  let other1 := analyze_batch Sample.off [Sample.other] (Some Sample.day) false
                  Sample.stocked Sample.failing in
  let other2 := analyze_batch Sample.off [Sample.other] (Some Sample.day) false
                  (run_files other1) (run_world other1) in
  (success_count (run_stats stocked1) = 0%nat
   /\ skip_count (run_stats stocked2) = 1%nat)
  /\ (Paper.id Sample.paper = Paper.id Sample.revised
      /\ success_count (run_stats twin1) = 1%nat
      /\ fail_count (run_stats twin1) = 1%nat
      /\ skip_count (run_stats twin2) = 2%nat)
  /\ (_load_existing_results (run_files failed2) Sample.day = []
      /\ length (remove_dups (Paper.id <$> [Sample.paper])) = 1%nat)
  /\ (length (_load_existing_results (run_files other2) Sample.day) = 2%nat
      /\ length (remove_dups (Paper.id <$> [Sample.other])) = 1%nat).
Proof. repeat split; vm_compute; reflexivity. Qed.

(** C1, amended. In each of two runs for a date with the same papers,
    the entries the file holds at the start stay where they are,
    unchanged: a stored result is never overwritten by a rerun that
    skips it. The second run skips exactly the papers whose id is in
    the file when it starts. If none of the papers is in the file when
    the first run starts, these are the papers whose id got a result
    in the first run, and the second run analyses the others again,
    those whose analysis failed; its skipped count is then at least
    the first run's succeeded count, and equal to it when the papers
    have distinct ids or no analysis of the first run failed. If
    moreover the file is empty when the first run starts, it holds
    after the two runs one entry for each id that got a result in
    either run, all of them ids of papers; so its size is the distinct
    paper count when every paper got a result in one of the runs, in
    particular when no analysis of the first run failed: then the
    first run succeeds on every paper, and the second analyses nothing
    and leaves the store and the world as the first left them. *)
Theorem analyze_twice (self : t) (papers : list Paper.t) (d : str)
    (silent silent' : bool) (fs : Store) (w : World) :
  d <> [] ->
  let run1 := analyze_batch self papers (Some d) silent fs w in
  let run2 := analyze_batch self papers (Some d) silent'
                (run_files run1) (run_world run1) in
  let stored0 := _load_existing_results fs d in
  let stored1 := _load_existing_results (run_files run1) d in
  let stored2 := _load_existing_results (run_files run2) d in
  let got1 := AnalysisResult.id <$> run_results run1 in
  let got2 := AnalysisResult.id <$> run_results run2 in
  (exists added1 added2, stored1 = stored0 ++ added1 /\ stored2 = stored1 ++ added2)
  /\ skip_count (run_stats run2)
     = length (List.filter (fun p => bool_decide (Paper.id p ∈ stored_ids stored1)) papers)
  /\ ((forall p, p ∈ papers -> Paper.id p ∉ stored_ids stored0) ->
      skip_count (run_stats run2)
      = length (List.filter (fun p => bool_decide (Paper.id p ∈ got1)) papers)
      /\ processed_count (run_stats run2)
         = length (List.filter (fun p => negb (bool_decide (Paper.id p ∈ got1))) papers)
      /\ (success_count (run_stats run1) <= skip_count (run_stats run2))%nat
      /\ (NoDup (Paper.id <$> papers) \/ fail_count (run_stats run1) = 0%nat ->
          skip_count (run_stats run2) = success_count (run_stats run1)))
  /\ (stored0 = [] ->
      NoDup (stored_ids stored2)
      /\ (forall x, x ∈ stored_ids stored2 <-> x ∈ got1 \/ x ∈ got2)
      /\ (forall x, x ∈ stored_ids stored2 -> x ∈ Paper.id <$> papers)
      /\ ((forall p, p ∈ papers -> Paper.id p ∈ stored_ids stored2) ->
          length stored2 = length (remove_dups (Paper.id <$> papers)))
      /\ (fail_count (run_stats run1) = 0%nat ->
          length stored2 = length (remove_dups (Paper.id <$> papers))
          /\ success_count (run_stats run1) = length papers
          /\ run_results run2 = []
          /\ run_files run2 = run_files run1
          /\ run_world run2 = run_world run1)).
Proof.
  intros Hd run1 run2 stored0 stored1 stored2 got1 got2.
  destruct (analyze_batch_run self papers d silent fs w Hd)
    as (Hst1 & Hel1 & Hnd1 & _ & _ & Hsu1 & Hfl1 & Hsub1).
  destruct (analyze_batch_run self papers d silent' (run_files run1) (run_world run1) Hd)
    as (Hst2 & Hel2 & Hnd2 & Hk2 & Hp2 & _ & Hfl2 & Hsub2).
  fold run1 stored0 stored1 got1 in Hst1, Hel1, Hnd1, Hsu1, Hfl1, Hsub1.
  fold run1 run2 stored1 stored2 got2 in Hst2, Hel2, Hnd2, Hk2, Hp2, Hfl2, Hsub2.
  (* when no paper is in the file at the start *)
  assert ((forall p, p ∈ papers -> Paper.id p ∉ stored_ids stored0) ->
          got1 `sublist_of` (Paper.id <$> papers)
          /\ (fail_count (run_stats run1) + length got1 = length papers)%nat
          /\ forall p, p ∈ papers ->
               bool_decide (Paper.id p ∈ stored_ids stored1)
               = bool_decide (Paper.id p ∈ got1)) as Hfresh.
  { intros H0.
    rewrite (filter_elem_all _ papers) in Hfl1, Hsub1
      by (intros p Hp; apply negb_true_iff, bool_decide_eq_false, H0, Hp).
    split; [exact Hsub1|]. split; [exact Hfl1|].
    intros p Hp. apply bool_decide_ext. rewrite Hel1. split; [|tauto].
    intros [Hin|Hin]; [destruct (H0 p Hp Hin)|exact Hin]. }
  assert (forall x, x ∈ got2 -> x ∈ Paper.id <$> papers) as Hgot2.
  { intros x Hx. apply (sublist_subseteq _ _ Hsub2) in Hx.
    apply list_elem_of_fmap in Hx as (p & -> & Hp).
    apply list_elem_of_fmap. exists p. split; [reflexivity|].
    exact (elem_of_filter_list _ _ _ Hp). }
  split; [eexists _, _; split; [exact Hst1|exact Hst2]|].
  split; [exact Hk2|]. split.
  - intros H0. destruct (Hfresh H0) as (Hsub & Hfl & Hsame).
    assert (skip_count (run_stats run2)
            = length (List.filter (fun p => bool_decide (Paper.id p ∈ got1)) papers)) as Hk.
    { rewrite Hk2. f_equal. apply filter_ext_elem, Hsame. }
    split; [exact Hk|]. split.
    { rewrite Hp2. f_equal. apply filter_ext_elem. intros p Hp.
      rewrite (Hsame p Hp). reflexivity. }
    split.
    { rewrite Hk, Hsu1. apply (count_sublist_le Paper.id), Hsub. }
    intros [Hnd|Hfail]; rewrite Hk, Hsu1.
    + apply (count_sublist_NoDup Paper.id); assumption.
    + assert (got1 = Paper.id <$> papers) as Hall.
      { apply sublist_same_length; [exact Hsub|]. rewrite length_fmap. lia. }
      rewrite (filter_elem_all _ papers).
      * rewrite Hall, length_fmap. reflexivity.
      * intros p Hp. apply bool_decide_eq_true. rewrite Hall.
        apply list_elem_of_fmap. exists p. split; [reflexivity|exact Hp].
  - intros Hempty.
    assert (forall p, p ∈ papers -> Paper.id p ∉ stored_ids stored0) as H0
      by (intros p _; rewrite Hempty; apply not_elem_of_nil).
    destruct (Hfresh H0) as (Hsub & Hfl & Hsame).
    assert (NoDup (stored_ids stored2)) as Hnd.
    { apply Hnd2, Hnd1. rewrite Hempty. constructor. }
    assert (forall x, x ∈ stored_ids stored2 <-> x ∈ got1 \/ x ∈ got2) as Hel.
    { intros x. rewrite Hel2, Hel1, Hempty. cbn [stored_ids fmap list_fmap].
      rewrite elem_of_nil. tauto. }
    assert ((forall p, p ∈ papers -> Paper.id p ∈ stored_ids stored2) ->
            length stored2 = length (remove_dups (Paper.id <$> papers))) as Hsize.
    { intros Hcover.
      rewrite <- (length_fmap _extract_paper_id_from_result stored2).
      apply Permutation_length, NoDup_Permutation.
      - exact Hnd.
      - apply NoDup_remove_dups.
      - intros x. rewrite elem_of_remove_dups. split.
        + intros Hx. apply Hel in Hx as [Hx|Hx]; [|exact (Hgot2 x Hx)].
          exact (sublist_subseteq _ _ Hsub x Hx).
        + intros Hx. apply list_elem_of_fmap in Hx as (p & -> & Hp).
          apply Hcover, Hp. }
    split; [exact Hnd|]. split; [exact Hel|]. split.
    { intros x Hx. apply Hel in Hx as [Hx|Hx]; [|exact (Hgot2 x Hx)].
      exact (sublist_subseteq _ _ Hsub x Hx). }
    split; [exact Hsize|].
    intros Hfail.
    assert (got1 = Paper.id <$> papers) as Hall.
    { apply sublist_same_length; [exact Hsub|]. rewrite length_fmap. lia. }
    assert (forall p, p ∈ papers -> Paper.id p ∈ stored_ids stored1) as Hin1.
    { intros p Hp. apply Hel1. right. rewrite Hall.
      apply list_elem_of_fmap. exists p. split; [reflexivity|exact Hp]. }
    (* the second run skips every paper *)
    destruct (analyze_batch_loop self papers (Some d) silent' (run_files run1) (run_world run1))
      as (Hf2 & Hw2 & Hr2 & _).
    fold run2 in Hf2, Hw2, Hr2.
    destruct (batch_loop_all_skipped
                (single self silent') (Some d)
                (existing_ids_of (run_files run1) (Some d)) papers
                {| files := run_files run1; world := run_world run1;
                   results := []; stats := no_stats |})
      as (S1 & S2 & S3 & _).
    { apply Forall_forall. intros p Hin.
      rewrite already_processed_dated by exact Hd.
      apply bool_decide_eq_true. unfold existing_ids_of.
      pose proof Hd as Ht. apply truthy_true in Ht. rewrite Ht.
      apply elem_of_list_to_set. apply Hin1, Hin. }
    cbn [files world results] in S1, S2, S3.
    rewrite <- Hf2 in S1. rewrite <- Hw2 in S2. rewrite <- Hr2 in S3.
    split.
    { apply Hsize. intros p Hp. apply Hel2. left. apply Hin1, Hp. }
    split; [rewrite Hsu1, Hall, length_fmap; reflexivity|].
    split; [exact S3|]. split; [exact S1|exact S2].
Qed.

Lemma analyze_twice_witness :
  let papers := [Sample.paper; Sample.other] in
  let run1 := analyze_batch Sample.on papers (Some Sample.day) false ∅ Sample.picky in
  let run2 := analyze_batch Sample.on papers (Some Sample.day) false
                (run_files run1) (run_world run1) in
  fail_count (run_stats run1) = 1%nat
  /\ skip_count (run_stats run2) = success_count (run_stats run1)
  /\ processed_count (run_stats run2) = 1%nat
  /\ NoDup (stored_ids (_load_existing_results (run_files run2) Sample.day)).
Proof.
  assert (Sample.day <> []) as Hd by discriminate.
  assert (_load_existing_results (∅ : Store) Sample.day = []) as Hempty by reflexivity.
  assert (forall p, p ∈ [Sample.paper; Sample.other] ->
            Paper.id p ∉ stored_ids (_load_existing_results (∅ : Store) Sample.day)) as H0
    by (intros p _; apply not_elem_of_nil).
  assert (NoDup (Paper.id <$> [Sample.paper; Sample.other])) as Hn
    by (apply (bool_decide_unpack _); vm_compute; reflexivity).
  destruct (analyze_twice Sample.on [Sample.paper; Sample.other] Sample.day false false
              ∅ Sample.picky Hd) as (_ & _ & Hrerun & Hfresh).
  destruct (Hrerun H0) as (_ & Hp & _ & Heq).
  destruct (Hfresh Hempty) as (Hnd & _).
  cbv zeta. split; [vm_compute; reflexivity|]. split; [exact (Heq (or_introl Hn))|].
  split; [rewrite Hp; vm_compute; reflexivity|exact Hnd].
Defined.

Lemma existing_ids_computed_once_witness :
  let run := analyze_batch Sample.off [Sample.paper; Sample.revised]
               (Some Sample.day) false ∅ Sample.failing in
  processed_count (run_stats run) = 2%nat
  /\ skip_count (run_stats run) = 0%nat
  /\ _load_existing_results (run_files run) Sample.day
     = _load_existing_results (∅ : Store) Sample.day
       ++ [AnalysisResult.to_dict (basic_result Sample.revised)].
Proof.
  assert (Sample.day <> []) as Hd by discriminate.
  assert (Paper.id Sample.paper
          ∉ (list_to_set (stored_ids (_load_existing_results (∅ : Store) Sample.day))
             : gset str)) as Hfresh by apply not_elem_of_empty.
  destruct (existing_ids_computed_once Sample.off [Sample.paper; Sample.revised]
              Sample.day false ∅ Sample.failing Hd) as (_ & _ & _ & _ & H).
  destruct (H Sample.paper Sample.revised (basic_result Sample.paper)
              (basic_result Sample.revised) Sample.failing Sample.failing
              eq_refl eq_refl Hfresh eq_refl eq_refl) as (H1 & H2 & _ & H4 & _).
  cbv zeta. split; [exact H1|]. split; [exact H2|exact H4].
Defined.

End RunFacts.

(** ** Failures in a batch *)

Section FailureFacts.
Import Analyzer.

Local Abbreviation single self silent :=
  (fun paper w => let '(r, w') := analyze_single self paper silent w in (Ok r, w')).

(** The counters of the loop account for every paper, whatever the
    single analysis does: return a result, return [None], or raise. *)
Lemma batch_loop_accounting
    (analyze : Paper.t -> World -> exc (option AnalysisResult.t) * World)
    (date : option str) (E : gset str) (papers : list Paper.t) (st : Loop) :
  let st' := batch_loop analyze date E papers st in
  (success_count (stats st') + fail_count (stats st') + processed_count (stats st)
   = success_count (stats st) + fail_count (stats st) + processed_count (stats st'))%nat
  /\ (skip_count (stats st') + processed_count (stats st')
      = skip_count (stats st) + processed_count (stats st) + length papers)%nat
  /\ (length (results st') + success_count (stats st)
      = length (results st) + success_count (stats st'))%nat.
Proof.
  revert st. induction papers as [|p papers IH]; intros st.
  { cbn. lia. }
  cbv zeta. change (batch_loop analyze date E (p :: papers) st)
    with (batch_loop analyze date E papers (batch_step analyze date E st p)).
  specialize (IH (batch_step analyze date E st p)). cbv zeta in IH.
  destruct IH as (H1 & H2 & H3).
  assert (let s := batch_step analyze date E st p in
          (success_count (stats s) + fail_count (stats s) + processed_count (stats st)
           = success_count (stats st) + fail_count (stats st) + processed_count (stats s)
           /\ skip_count (stats s) + processed_count (stats s)
              = skip_count (stats st) + processed_count (stats st) + 1
           /\ length (results s) + success_count (stats st)
              = length (results st) + success_count (stats s))%nat) as Hstep.
  { unfold batch_step. destruct (already_processed date E p).
    - cbn. lia.
    - destruct (analyze p (world st)) as [[[r|]|e] w']; cbn; rewrite ?length_app; cbn; lia. }
  cbv zeta in Hstep. destruct Hstep as (G1 & G2 & G3). cbn [length]. lia.
Qed.

Lemma retry_loop_fails_for_good (attempts : list nat) (paper : Paper.t) (w : World) :
  fails_for_good w ->
  fst (retry_loop attempts paper w) = None
  /\ assistant (snd (retry_loop attempts paper w)) = assistant w.
Proof.
  revert w. induction attempts as [|attempt rest IH]; intros w H; [split; reflexivity|].
  cbn [retry_loop]. unfold chat.
  pose proof (H (trace (record (EvChat (AnalysisRequest paper)) w))) as Hu.
  set (w1 := record (EvChat (AnalysisRequest paper)) w) in *.
  assert (fst (if (attempt <? max_retries - 1)%nat
               then retry_loop rest paper (sleep retry_delay w1)
               else (None, w1)) = None
          /\ assistant (snd (if (attempt <? max_retries - 1)%nat
                             then retry_loop rest paper (sleep retry_delay w1)
                             else (None, w1))) = assistant w) as Hagain.
  { destruct (attempt <? max_retries - 1)%nat; [|split; reflexivity].
    apply (IH (sleep retry_delay w1)). exact H. }
  destruct (assistant w (trace w1)) as [seconds response|seconds]; [|exact Hagain].
  cbn [unusable] in Hu.
  destruct (seconds <=? deadline); [|exact Hagain].
  destruct (Py.truthy response); [discriminate Hu|exact Hagain].
Qed.

Lemma analyze_single_fails_for_good (self : t) (paper : Paper.t) (silent : bool) (w : World) :
  assistant_on self = true -> fails_for_good w ->
  fst (analyze_single self paper silent w) = None
  /\ fails_for_good (snd (analyze_single self paper silent w)).
Proof.
  intros On H. rewrite (analyze_single_on _ _ _ _ On).
  destruct (retry_loop_fails_for_good (seq 0 max_retries) paper w H) as [H1 H2].
  destruct (retry_loop (seq 0 max_retries) paper w) as [[response|] w'];
    cbn [fst snd] in *; [discriminate H1|].
  split; [reflexivity|]. unfold fails_for_good. rewrite H2. exact H.
Qed.

Lemma batch_loop_fails_for_good (self : t) (silent : bool) (date : option str)
    (E : gset str) (papers : list Paper.t) (st : Loop) :
  assistant_on self = true -> fails_for_good (world st) ->
  let st' := batch_loop (single self silent) date E papers st in
  success_count (stats st') = success_count (stats st)
  /\ results st' = results st
  /\ files st' = files st.
Proof.
  intros On. revert st. induction papers as [|p papers IH]; intros st H.
  { cbn. repeat split. }
  cbv zeta. change (batch_loop (single self silent) date E (p :: papers) st)
    with (batch_loop (single self silent) date E papers
            (batch_step (single self silent) date E st p)).
  assert (let s := batch_step (single self silent) date E st p in
          fails_for_good (world s)
          /\ success_count (stats s) = success_count (stats st)
          /\ results s = results st /\ files s = files st) as Hstep.
  { unfold batch_step. destruct (already_processed date E p).
    - cbn. repeat split. exact H.
    - cbn beta.
      destruct (analyze_single_fails_for_good self p silent (world st) On H) as [F1 F2].
      destruct (analyze_single self p silent (world st)) as [[r|] w'];
        cbn [fst snd] in *; [discriminate F1|].
      cbn. repeat split. exact F2. }
  cbv zeta in Hstep. destruct Hstep as (G0 & G1 & G2 & G3).
  destruct (IH _ G0) as (I1 & I2 & I3). cbv zeta.
  rewrite I1, I2, I3. repeat split; assumption.
Qed.

Lemma analyze_batch_with_loop
    (analyze : Paper.t -> World -> exc (option AnalysisResult.t) * World)
    (papers : list Paper.t) (date : option str) (silent : bool) (fs : Store) (w : World) :
  let st := batch_loop analyze date (existing_ids_of fs date) papers
              {| files := fs; world := w; results := []; stats := no_stats |} in
  let run := analyze_batch_with analyze papers date silent fs w in
  run_files run = files st /\ run_world run = world st
  /\ run_results run = results st /\ run_stats run = stats st.
Proof. destruct papers; cbn; repeat split; reflexivity. Qed.

Lemma analyze_batch_with_returned
    (analyze : Paper.t -> World -> exc (option AnalysisResult.t) * World)
    (papers : list Paper.t) (date : option str) (silent : bool) (fs : Store) (w : World) :
  returned (analyze_batch_with analyze papers date silent fs w)
  = match papers with
    | [] => Ok []
    | _ :: _ =>
        if silent then Raise UnboundLocalError
        else Ok (run_results (analyze_batch_with analyze papers date silent fs w))
    end.
Proof. destruct papers; [reflexivity|]. cbn. destruct silent; reflexivity. Qed.

(** C2, where the code departs from it. The loop itself is as the spec
    says: whatever the single analysis does (result, [None], exception),
    every paper is counted once, as skipped, succeeded or failed, and
    when the assistant fails for good nothing succeeds, every processed
    paper counts as failed and the store is left alone; a call that is
    not silent then returns its results. A silent call on a non-empty
    list, though, never returns: after the loop it raises
    [UnboundLocalError]. *)
Theorem analyze_batch_accounts_but_ends_silent_runs_badly :
  (forall analyze papers date silent fs w,
      let run := analyze_batch_with analyze papers date silent fs w in
      (success_count (run_stats run) + fail_count (run_stats run)
       = processed_count (run_stats run))%nat
      /\ (skip_count (run_stats run) + processed_count (run_stats run)
          = length papers)%nat
      /\ length (run_results run) = success_count (run_stats run)
      /\ (silent = false -> returned run = Ok (run_results run)))
  /\ (forall self papers date silent fs w,
        assistant_on self = true -> fails_for_good w ->
        let run := analyze_batch self papers date silent fs w in
        success_count (run_stats run) = 0%nat
        /\ fail_count (run_stats run) = processed_count (run_stats run)
        /\ (skip_count (run_stats run) + processed_count (run_stats run)
            = length papers)%nat
        /\ run_files run = fs
        /\ (silent = false -> returned run = Ok []))
  /\ (forall self paper papers date fs w,
        returned (analyze_batch self (paper :: papers) date true fs w)
        = Raise UnboundLocalError)
  /\ returned (analyze_batch Sample.on [Sample.paper] (Some Sample.day) true ∅
                 Sample.failing)
     = Raise UnboundLocalError
  /\ run_stats (analyze_batch Sample.on [Sample.paper] (Some Sample.day) true ∅
                  Sample.failing)
     = {| processed_count := 1; success_count := 0; fail_count := 1; skip_count := 0 |}.
Proof.
  assert (forall analyze papers date silent fs w,
      let run := analyze_batch_with analyze papers date silent fs w in
      (success_count (run_stats run) + fail_count (run_stats run)
       = processed_count (run_stats run))%nat
      /\ (skip_count (run_stats run) + processed_count (run_stats run)
          = length papers)%nat
      /\ length (run_results run) = success_count (run_stats run)
      /\ (silent = false -> returned run = Ok (run_results run))) as Hacc.
  { intros analyze papers date silent fs w run.
    destruct (analyze_batch_with_loop analyze papers date silent fs w) as (_ & _ & Hr & Hs).
    fold run in Hr, Hs.
    destruct (batch_loop_accounting analyze date (existing_ids_of fs date) papers
                {| files := fs; world := w; results := []; stats := no_stats |})
      as (H1 & H2 & H3).
    rewrite <- Hr, <- Hs in *.
    cbn [results stats no_stats processed_count success_count fail_count skip_count
         length] in *.
    repeat split; try lia.
    intros ->. unfold run. rewrite analyze_batch_with_returned.
    destruct papers; reflexivity. }
  split; [exact Hacc|]. split; [|split; [|split]].
  - intros self papers date silent fs w On Hfail run.
    destruct (Hacc (single self silent) papers date silent fs w) as (A1 & A2 & A3 & A4).
    fold (analyze_batch self papers date silent fs w) in A1, A2, A3, A4. fold run in A1, A2, A3, A4.
    destruct (analyze_batch_with_loop (single self silent) papers date silent fs w)
      as (Hf & _ & Hr & Hs).
    fold (analyze_batch self papers date silent fs w) in Hf, Hr, Hs. fold run in Hf, Hr, Hs.
    destruct (batch_loop_fails_for_good self silent date (existing_ids_of fs date) papers
                {| files := fs; world := w; results := []; stats := no_stats |} On Hfail)
      as (F1 & F2 & F3).
    rewrite <- Hs in F1. rewrite <- Hr in F2. rewrite <- Hf in F3.
    cbn [results files stats no_stats success_count] in F1, F2, F3.
    repeat split; try assumption; try lia.
    intros Hs'. rewrite (A4 Hs'), F2. reflexivity.
  - intros self paper papers date fs w. reflexivity.
  - vm_compute. reflexivity.
  - vm_compute. reflexivity.
Qed.
End FailureFacts.

(* ===================================================================== *)
(** * Further properties *)
(* ===================================================================== *)

(** ** Text: [strip], [split] and [replace] *)

Section TextFacts.

Lemma length_rstrip (s : str) : (length (Py.rstrip s) <= length s)%nat.
Proof.
  induction s as [|x r IH]; [reflexivity|].
  cbn [Py.rstrip]. destruct (Py.rstrip r) as [|y r'].
  - destruct (Py.isspace x); cbn; lia.
  - cbn [length] in *. lia.
Qed.

Lemma length_lstrip (s : str) : (length (Py.lstrip s) <= length s)%nat.
Proof.
  induction s as [|x r IH]; [reflexivity|].
  cbn [Py.lstrip]. destruct (Py.isspace x); cbn [length]; lia.
Qed.

Lemma lstrip_fixed_or_shorter (s : str) :
  Py.lstrip s = s \/ (length (Py.lstrip s) < length s)%nat.
Proof.
  destruct s as [|x r]; [left; reflexivity|].
  cbn [Py.lstrip]. destruct (Py.isspace x); [|left; reflexivity].
  right. pose proof (length_lstrip r). cbn [length]. lia.
Qed.

(** A text that [strip] leaves alone is left alone by both halves. *)
Lemma strip_fixed (s : str) :
  Py.strip s = s -> Py.lstrip s = s /\ Py.rstrip s = s.
Proof.
  unfold Py.strip. intros H.
  assert (Py.lstrip s = s) as Hl.
  { destruct (lstrip_fixed_or_shorter s) as [E|L]; [exact E|].
    pose proof (length_rstrip (Py.lstrip s)) as Hr. rewrite H in Hr. lia. }
  split; [exact Hl|]. rewrite Hl in H. exact H.
Qed.

Lemma rstrip_app (a b : str) :
  Py.rstrip b <> [] -> Py.rstrip (a ++ b) = a ++ Py.rstrip b.
Proof.
  intros H. induction a as [|x a IH]; [reflexivity|].
  cbn [app Py.rstrip]. rewrite IH.
  destruct (a ++ Py.rstrip b) as [|y r] eqn:E; [|reflexivity].
  apply app_eq_nil in E as [_ E]. contradiction.
Qed.

Lemma strip_app (a b : str) (x : N) :
  Py.isspace x = false -> b <> [] -> Py.strip b = b ->
  Py.strip (x :: a ++ b) = x :: a ++ b.
Proof.
  intros Hx Hb Hs. destruct (strip_fixed b Hs) as [_ Hr].
  unfold Py.strip. cbn [Py.lstrip]. rewrite Hx.
  change (x :: a ++ b) with ((x :: a) ++ b).
  rewrite rstrip_app by (rewrite Hr; exact Hb). rewrite Hr. reflexivity.
Qed.

Lemma split_not_nil (c : N) (s : str) : Py.split c s <> [].
Proof.
  destruct s as [|x r]; [discriminate|].
  cbn [Py.split]. destruct (x =? c); [discriminate|].
  destruct (Py.split c r); discriminate.
Qed.

Lemma split_none (c : N) (a : str) :
  Py.contains c a = false -> Py.split c a = [a].
Proof.
  induction a as [|x a IH]; [reflexivity|].
  cbn [Py.contains existsb]. rewrite N.eqb_sym. intros H.
  apply orb_false_iff in H as [H1 H2].
  cbn [Py.split]. rewrite H1. unfold Py.contains in IH. rewrite (IH H2). reflexivity.
Qed.

(** [(a + c + b).split(c)] is [a.split(c) + b.split(c)]. *)
Lemma split_app (c : N) (a b : str) :
  Py.split c (a ++ c :: b) = Py.split c a ++ Py.split c b.
Proof.
  induction a as [|x a IH].
  - cbn [app Py.split]. rewrite N.eqb_refl. reflexivity.
  - cbn [app Py.split]. rewrite IH. destruct (x =? c); [reflexivity|].
    pose proof (split_not_nil c a) as Hn.
    destruct (Py.split c a) as [|h t]; [contradiction|]. reflexivity.
Qed.

Lemma last_app_not_nil {A} (a b : list A) (d : A) :
  b <> [] -> List.last (a ++ b) d = List.last b d.
Proof.
  intros Hb. induction a as [|x a IH]; [reflexivity|].
  cbn [app List.last]. destruct (a ++ b) as [|y r] eqn:E; [|exact IH].
  apply app_eq_nil in E as [_ E]. contradiction.
Qed.

(** [(a + c + b).split(c)[-1]] is [b] when [c] does not occur in [b]. *)
Lemma last_split (c : N) (a b : str) :
  Py.contains c b = false -> List.last (Py.split c (a ++ c :: b)) [] = b.
Proof.
  intros H. rewrite split_app, last_app_not_nil by apply split_not_nil.
  rewrite (split_none c b H). reflexivity.
Qed.

Lemma startswith_app (p s : str) : Py.startswith p (p ++ s) = true.
Proof.
  induction p as [|x p IH]; [reflexivity|].
  cbn [app Py.startswith]. rewrite N.eqb_refl. exact IH.
Qed.

Lemma replace_go_skip (old new a b : str) :
  Py.replace_go old new (length a) (a ++ b) = Py.replace_go old new 0 b.
Proof.
  induction a as [|x a IH]; [reflexivity|].
  cbn [length app Py.replace_go]. exact IH.
Qed.

Lemma replace_free (c : N) (old' new t : str) :
  Py.contains c t = false -> Py.replace_go (c :: old') new 0 t = t.
Proof.
  induction t as [|x t IH]; [reflexivity|].
  cbn [Py.contains existsb]. intros H. apply orb_false_iff in H as [H1 H2].
  cbn [Py.replace_go Py.truthy Py.startswith andb]. rewrite H1. cbn [andb].
  f_equal. apply IH, H2.
Qed.

(** [(p + t).replace(p, '')] is [t] when the first character of [p] does
    not occur in [t]. *)
Lemma replace_prefix (c : N) (old' t : str) :
  Py.contains c t = false ->
  Py.replace (c :: old') [] ((c :: old') ++ t) = t.
Proof.
  intros H. unfold Py.replace. cbn [app Py.replace_go Py.truthy andb].
  change (Py.startswith (c :: old') (c :: old' ++ t))
    with (Py.startswith (c :: old') ((c :: old') ++ t)).
  rewrite startswith_app. cbn [app length Nat.sub].
  rewrite Nat.sub_0_r, replace_go_skip. apply replace_free, H.
Qed.

Lemma contains_app_false (c : N) (a b : str) :
  Py.contains c a = false -> Py.contains c b = false -> Py.contains c (a ++ b) = false.
Proof. intros Ha Hb. rewrite contains_app, Ha, Hb. reflexivity. Qed.

Lemma lstrip_head (s : str) :
  Py.lstrip s = [] \/ exists x r, Py.lstrip s = x :: r /\ Py.isspace x = false.
Proof.
  induction s as [|x r IH]; [left; reflexivity|].
  cbn [Py.lstrip]. destruct (Py.isspace x) eqn:E; [exact IH|].
  right. exists x, r. split; [reflexivity|exact E].
Qed.

Lemma rstrip_idem (s : str) : Py.rstrip (Py.rstrip s) = Py.rstrip s.
Proof.
  induction s as [|x r IH]; [reflexivity|].
  cbn [Py.rstrip]. destruct (Py.rstrip r) as [|y r'] eqn:E.
  - destruct (Py.isspace x) eqn:Hx; [reflexivity|]. cbn [Py.rstrip]. rewrite Hx. reflexivity.
  - cbn [Py.rstrip]. cbn [Py.rstrip] in IH. rewrite IH. reflexivity.
Qed.

Lemma rstrip_head (x : N) (r : str) :
  Py.isspace x = false -> exists r', Py.rstrip (x :: r) = x :: r'.
Proof.
  intros Hx. cbn [Py.rstrip]. destruct (Py.rstrip r) as [|y r'].
  - rewrite Hx. exists []. reflexivity.
  - exists (y :: r'). reflexivity.
Qed.

(** [strip] leaves a stripped text alone. *)
Lemma strip_idem (s : str) : Py.strip (Py.strip s) = Py.strip s.
Proof.
  unfold Py.strip.
  assert (Py.lstrip (Py.rstrip (Py.lstrip s)) = Py.rstrip (Py.lstrip s)) as ->.
  { destruct (lstrip_head s) as [->|(x & r & -> & Hx)]; [reflexivity|].
    destruct (rstrip_head x r Hx) as [r' ->]. cbn [Py.lstrip]. rewrite Hx. reflexivity. }
  apply rstrip_idem.
Qed.

Section Mapped.

(** A change of characters under which white space stays white space
    and no other character becomes white space. *)
Variable f : N -> N.
Hypothesis f_space : forall c, Py.isspace (f c) = Py.isspace c.

Lemma lstrip_map (s : str) : Py.lstrip (f <$> s) = f <$> Py.lstrip s.
Proof.
  induction s as [|x r IH]; [reflexivity|].
  cbn [fmap list_fmap Py.lstrip]. rewrite f_space.
  destruct (Py.isspace x); [exact IH|reflexivity].
Qed.

Lemma rstrip_map (s : str) : Py.rstrip (f <$> s) = f <$> Py.rstrip s.
Proof.
  induction s as [|x r IH]; [reflexivity|].
  cbn [fmap list_fmap Py.rstrip]. cbn [fmap list_fmap] in IH. rewrite IH, f_space.
  destruct (Py.rstrip r); [|reflexivity].
  destruct (Py.isspace x); reflexivity.
Qed.

Lemma strip_map (s : str) : Py.strip (f <$> s) = f <$> Py.strip s.
Proof. unfold Py.strip. rewrite lstrip_map, rstrip_map. reflexivity. Qed.

End Mapped.

(** [s.replace('\n', ' ')], character by character. *)
Lemma replace_line_feeds (s : str) :
  Py.replace [10] [32] s = (fun c => if c =? 10 then 32 else c) <$> s.
Proof.
  unfold Py.replace. induction s as [|x r IH]; [reflexivity|].
  cbn [Py.replace_go Py.truthy Py.startswith andb length Nat.sub fmap list_fmap].
  rewrite andb_true_r, N.eqb_sym. cbn [fmap list_fmap] in IH.
  destruct (x =? 10); cbn [app]; rewrite IH; reflexivity.
Qed.

Lemma line_feed_to_space (c : N) :
  Py.isspace (if c =? 10 then 32 else c) = Py.isspace c.
Proof.
  destruct (c =? 10) eqn:E; [|reflexivity].
  apply N.eqb_eq in E. subst c. reflexivity.
Qed.

Lemma no_line_feed (s : str) :
  Py.contains 10 ((fun c => if c =? 10 then 32 else c) <$> s) = false.
Proof.
  unfold Py.contains. induction s as [|x r IH]; [reflexivity|].
  cbn [fmap list_fmap existsb] in IH |- *.
  rewrite IH, orb_false_r.
  destruct (x =? 10) eqn:E; [reflexivity|]. rewrite N.eqb_sym. exact E.
Qed.

End TextFacts.

(** ** More on [_format_publish_date] and [_extract_paper_id_from_result] *)

Section FieldFacts.
Import Analyzer.

(** X13: whatever the input, the date [_format_publish_date] returns holds
    no 'T', and it is the empty text exactly when the input starts with
    'T': only then does a result carry an empty [publish_date]. *)
Theorem format_publish_date_never_keeps_T (s : str) :
  Py.contains 84 (_format_publish_date s) = false
  /\ (_format_publish_date s = [] <-> exists rest, s = 84 :: rest).
Proof.
  destruct (decide (s = [])) as [->|Hne].
  { split; [reflexivity|]. split; [discriminate|]. intros [rest H]. discriminate. }
  destruct (decide (s = unknown)) as [->|Hnu].
  { split; [reflexivity|]. split; [discriminate|]. intros [rest H]. discriminate. }
  destruct (Py.contains 84 s) eqn:HT.
  - destruct (format_T_prefix s Hne Hnu HT) as (rest & Hs & Hfree).
    split; [exact Hfree|]. split.
    + intros E. rewrite E in Hs. exists rest. exact Hs.
    + intros [r ->]. rewrite format_T by assumption.
      cbn [Py.split]. rewrite N.eqb_refl. reflexivity.
  - rewrite (format_no_T s Hne Hnu HT).
    destruct (re_search_date s) as [d|] eqn:R; cbn [default from_option id].
    + destruct (re_search_date_some s d R) as [Hd _].
      split; [apply ymd_no_T, Hd|]. split.
      * intros ->. discriminate Hd.
      * intros [r ->]. cbn in HT. discriminate HT.
    + split; [exact HT|]. split; [intros E; contradiction|].
      intros [r ->]. cbn in HT. discriminate HT.
Qed.

(** X14: an entry of a report file that carries neither [paper_id] nor
    [id] is identified by its [paper_url]: whatever stands before the
    last '/' of the URL, the id is the text after it (for
    [https://arxiv.org/abs/2507.21046], the id [2507.21046]). *)
Theorem extract_paper_id_from_url (result : dict) (base x : str) :
  dict_lookup (py "paper_id") result = None ->
  dict_lookup (py "id") result = None ->
  dict_lookup (py "paper_url") result = Some (base ++ 47 :: x) ->
  Py.contains 47 x = false ->
  _extract_paper_id_from_result result = x.
Proof.
  intros H1 H2 H3 Hx. unfold _extract_paper_id_from_result.
  rewrite H1, H2, H3. cbn [default from_option id].
  replace (Py.truthy (base ++ 47 :: x)) with true by (destruct base; reflexivity).
  apply last_split, Hx.
Qed.

Lemma extract_paper_id_from_url_witness :
  _extract_paper_id_from_result
    [(py "title_zh", py "标题"); (py "paper_url", py "https://arxiv.org/abs/2507.21046")]
  = py "2507.21046".
Proof.
  apply (extract_paper_id_from_url
           [(py "title_zh", py "标题"); (py "paper_url", py "https://arxiv.org/abs/2507.21046")]
           (py "https://arxiv.org/abs") (py "2507.21046"));
    vm_compute; reflexivity.
Defined.

End FieldFacts.

(** ** The answer of the assistant, line by line *)

Section ParseFacts.
Import Analyzer.

Lemma parse_model_function_nonempty (response : str) :
  parsed_model_function (_parse_ai_response response) <> [].
Proof.
  unfold _parse_ai_response.
  set (fields := fold_left parse_line _ _).
  destruct (Py.truthy (parsed_model_function fields)) eqn:T; cbn [negb orb].
  - destruct (Py.eqb _ []); cbn; [discriminate|]. apply truthy_true, T.
  - cbn. discriminate.
Qed.

Lemma parse_line_unlabelled (fields : ParsedFields) (line : str) :
  labelled line = false -> parse_line fields line = fields.
Proof.
  unfold labelled, parse_line. intros H.
  apply orb_false_iff in H as [H H3]. apply orb_false_iff in H as [H1 H2].
  rewrite H1, H2, H3. reflexivity.
Qed.

Lemma parse_unlabelled (response : str) :
  forallb (fun line => negb (labelled line)) (Py.split 10 (Py.strip response)) = true ->
  _parse_ai_response response = no_fields.
Proof.
  intros H. unfold _parse_ai_response.
  assert (forall fields,
            fold_left parse_line (Py.split 10 (Py.strip response)) fields = fields) as Hfold.
  { induction (Py.split 10 (Py.strip response)) as [|line lines IH]; intros fields;
      [reflexivity|].
    cbn [forallb] in H. apply andb_true_iff in H as [H1 H2].
    apply negb_true_iff in H1. cbn [fold_left].
    rewrite (parse_line_unlabelled _ _ H1). apply IH, H2. }
  rewrite Hfold. reflexivity.
Qed.

(** X10: an answer in which no line starts with one of the three labels
    is usable but tells nothing: the result falls back to the English
    title, to the summary fallback and to the sentinel for the model
    function. *)
Theorem parsed_result_unlabelled (paper : Paper.t) (response : str) :
  forallb (fun line => negb (labelled line)) (Py.split 10 (Py.strip response)) = true ->
  parsed_result paper response
  = {| AnalysisResult.id := Paper.id paper;
       AnalysisResult.title_en := Paper.title paper;
       AnalysisResult.title_zh := Paper.title paper;
       AnalysisResult.url := Paper.url paper;
       AnalysisResult.authors := Paper.authors paper;
       AnalysisResult.publish_date := _format_publish_date (Paper.publish_date paper);
       AnalysisResult.summary_en := Paper.summary paper;
       AnalysisResult.summary_zh := summary_fallback (Paper.summary paper);
       AnalysisResult.github_repo := Paper.github_repo paper;
       AnalysisResult.project_page := Paper.project_page paper;
       AnalysisResult.model_function := unknown |}.
Proof.
  intros H. unfold parsed_result. rewrite (parse_unlabelled response H). reflexivity.
Qed.

Lemma parsed_result_unlabelled_witness :
  AnalysisResult.title_zh (parsed_result Sample.paper (py "I cannot help with that."))
  = Paper.title Sample.paper
  /\ AnalysisResult.model_function
       (parsed_result Sample.paper (py "I cannot help with that."))
     = unknown.
Proof.
  assert (forallb (fun line => negb (labelled line))
            (Py.split 10 (Py.strip (py "I cannot help with that."))) = true) as H
    by (vm_compute; reflexivity).
  rewrite (parsed_result_unlabelled Sample.paper (py "I cannot help with that.") H).
  split; reflexivity.
Defined.

Lemma label_heads :
  title_label = 42 :: tl title_label
  /\ summary_label = 42 :: tl summary_label
  /\ function_label = 42 :: tl function_label
  /\ Py.contains 10 title_label = false
  /\ Py.contains 10 summary_label = false
  /\ Py.contains 10 function_label = false.
Proof. vm_compute. repeat split. Qed.

Lemma label_clashes (x : str) :
  Py.startswith title_label (summary_label ++ x) = false
  /\ Py.startswith title_label (function_label ++ x) = false
  /\ Py.startswith summary_label (function_label ++ x) = false.
Proof. repeat split; vm_compute; reflexivity. Qed.

Lemma labelled_line (label' x : str) :
  plain_field x ->
  Py.strip ((42 :: label') ++ x) = (42 :: label') ++ x
  /\ Py.replace (42 :: label') [] ((42 :: label') ++ x) = x.
Proof.
  intros (Hne & Hs & _ & Hstar). split.
  - cbn [app]. apply strip_app; [vm_compute; reflexivity|exact Hne|exact Hs].
  - apply replace_prefix, Hstar.
Qed.

Lemma parse_labelled_answer (title_zh summary_zh model_function : str) :
  plain_field title_zh -> plain_field summary_zh -> plain_field model_function ->
  _parse_ai_response (labelled_answer title_zh summary_zh model_function)
  = {| parsed_title_zh := title_zh;
       parsed_summary_zh := summary_zh;
       parsed_model_function := model_function |}.
Proof.
  intros Ht Hs Hf.
  pose proof Ht as (Ht0 & Ht1 & Ht2 & Ht3).
  pose proof Hs as (Hs0 & Hs1 & Hs2 & Hs3).
  pose proof Hf as (Hf0 & Hf1 & Hf2 & Hf3).
  destruct label_heads as (E1 & E2 & E3 & N1 & N2 & N3).
  destruct (label_clashes summary_zh) as (C1 & _ & _).
  destruct (label_clashes model_function) as (_ & C2 & C3).
  destruct (labelled_line (tl title_label) title_zh Ht) as [S1 R1].
  destruct (labelled_line (tl summary_label) summary_zh Hs) as [S2 R2].
  destruct (labelled_line (tl function_label) model_function Hf) as [S3 R3].
  rewrite <- E1 in S1, R1. rewrite <- E2 in S2, R2. rewrite <- E3 in S3, R3.
  unfold _parse_ai_response.
  assert (Py.strip (labelled_answer title_zh summary_zh model_function)
          = labelled_answer title_zh summary_zh model_function) as ->.
  { assert (labelled_answer title_zh summary_zh model_function
            = 42 :: (tl title_label ++ title_zh ++ [10] ++ summary_label
                     ++ summary_zh ++ [10] ++ function_label) ++ model_function) as ->.
    { unfold labelled_answer. rewrite E1 at 1.
      rewrite <- !app_assoc. reflexivity. }
    apply strip_app; [vm_compute; reflexivity|exact Hf0|exact Hf1]. }
  assert (Py.split 10 (labelled_answer title_zh summary_zh model_function)
          = [title_label ++ title_zh; summary_label ++ summary_zh;
             function_label ++ model_function]) as ->.
  { assert (labelled_answer title_zh summary_zh model_function
            = (title_label ++ title_zh)
              ++ 10 :: ((summary_label ++ summary_zh)
                        ++ 10 :: (function_label ++ model_function))) as ->.
    { unfold labelled_answer. rewrite <- !app_assoc. reflexivity. }
    rewrite !split_app.
    rewrite !split_none by (apply contains_app_false; assumption).
    reflexivity. }
  cbn [fold_left]. unfold parse_line.
  rewrite S1, S2, S3, R1, R2, R3, Ht1, Hs1, Hf1.
  rewrite !startswith_app, C1, C2, C3.
  cbn [parsed_title_zh parsed_summary_zh parsed_model_function].
  rewrite Hf1.
  destruct model_function as [|c r]; [contradiction|].
  cbn [Py.truthy negb orb]. unfold Py.eqb. rewrite bool_decide_eq_false_2 by discriminate.
  reflexivity.
Qed.

(** X11: an answer in the format the prompt asks for comes back field by
    field: for three plain fields, the result built from the three
    labelled lines carries exactly these fields as [title_zh],
    [summary_zh] and [model_function]. *)
Theorem parsed_result_labelled_answer (paper : Paper.t)
    (title_zh summary_zh model_function : str) :
  plain_field title_zh -> plain_field summary_zh -> plain_field model_function ->
  let result :=
    parsed_result paper (labelled_answer title_zh summary_zh model_function) in
  AnalysisResult.title_zh result = title_zh
  /\ AnalysisResult.summary_zh result = summary_zh
  /\ AnalysisResult.model_function result = model_function.
Proof.
  intros Ht Hs Hf. cbv zeta. unfold parsed_result.
  rewrite (parse_labelled_answer _ _ _ Ht Hs Hf).
  destruct Ht as (Ht0 & Ht1 & _). destruct Hs as (Hs0 & Hs1 & _).
  cbn [parsed_title_zh parsed_summary_zh parsed_model_function
       AnalysisResult.title_zh AnalysisResult.summary_zh AnalysisResult.model_function].
  rewrite Ht1, Hs1.
  destruct title_zh; [contradiction|]. destruct summary_zh; [contradiction|].
  repeat split.
Qed.

Lemma plain_field_sample :
  plain_field (py "注意力就是一切") /\ plain_field (py "提出 Transformer 架构。")
  /\ plain_field (py "序列建模").
Proof.
  repeat split; try (vm_compute; reflexivity); discriminate.
Qed.

Lemma parsed_result_labelled_answer_witness :
  AnalysisResult.title_zh
    (parsed_result Sample.paper
       (labelled_answer (py "注意力就是一切") (py "提出 Transformer 架构。") (py "序列建模")))
  = py "注意力就是一切"
  /\ AnalysisResult.model_function
       (parsed_result Sample.paper
          (labelled_answer (py "注意力就是一切") (py "提出 Transformer 架构。") (py "序列建模")))
     = py "序列建模".
Proof.
  destruct plain_field_sample as (Ht & Hs & Hf).
  destruct (parsed_result_labelled_answer Sample.paper
              (py "注意力就是一切") (py "提出 Transformer 架构。") (py "序列建模") Ht Hs Hf)
    as (H1 & _ & H3).
  split; [exact H1|exact H3].
Defined.

(** X12: whatever the assistant says, a result of [analyze_single] takes
    its id, English title, URL, authors, English summary, repository and
    project page from the paper unchanged, its date is the paper's date
    normalised, and its model function is never empty. *)
Theorem analyze_single_copies_paper (self : t) (paper : Paper.t) (silent : bool)
    (w w' : World) (result : AnalysisResult.t) :
  analyze_single self paper silent w = (Some result, w') ->
  AnalysisResult.id result = Paper.id paper
  /\ AnalysisResult.title_en result = Paper.title paper
  /\ AnalysisResult.url result = Paper.url paper
  /\ AnalysisResult.authors result = Paper.authors paper
  /\ AnalysisResult.summary_en result = Paper.summary paper
  /\ AnalysisResult.github_repo result = Paper.github_repo paper
  /\ AnalysisResult.project_page result = Paper.project_page paper
  /\ AnalysisResult.publish_date result = _format_publish_date (Paper.publish_date paper)
  /\ AnalysisResult.model_function result <> [].
Proof.
  unfold analyze_single. destruct (negb (use_ai self) || negb (ai_client self)).
  - intros [= <- _]. cbn. repeat split. discriminate.
  - destruct (retry_loop _ paper w) as [[response|] w1]; [|discriminate].
    intros [= <- _]. unfold parsed_result.
    cbn [AnalysisResult.id AnalysisResult.title_en AnalysisResult.url
         AnalysisResult.authors AnalysisResult.summary_en AnalysisResult.github_repo
         AnalysisResult.project_page AnalysisResult.publish_date
         AnalysisResult.model_function].
    repeat split. apply parse_model_function_nonempty.
Qed.

Lemma analyze_single_copies_paper_witness :
  AnalysisResult.id (parsed_result Sample.paper (py "**模型功能**：分类"))
  = Paper.id Sample.paper
  /\ AnalysisResult.publish_date (parsed_result Sample.paper (py "**模型功能**：分类"))
     = py "2025-07-31".
Proof.
  assert (analyze_single Sample.on Sample.paper false Sample.terse
          = (Some (parsed_result Sample.paper (py "**模型功能**：分类")),
             record (EvChat (AnalysisRequest Sample.paper)) Sample.terse)) as Hon
    by (vm_compute; reflexivity).
  destruct (analyze_single_copies_paper _ _ _ _ _ _ Hon) as (H1 & _ & _ & _ & _ & _ & _ & H8 & _).
  split; [exact H1|]. rewrite H8. vm_compute. reflexivity.
Defined.

End ParseFacts.

(** ** The attempts of one analysis and the calls of a batch *)

Section AttemptFacts.
Import Analyzer.

Local Abbreviation single self silent :=
  (fun paper w => let '(r, w') := analyze_single self paper silent w in (Ok r, w')).

Lemma usable_outcome (o : ChatOutcome) :
  unusable o = false ->
  exists seconds response,
    o = Answered seconds response /\ seconds <= deadline /\ response <> [].
Proof.
  destruct o as [seconds response|seconds]; cbn [unusable]; [|discriminate].
  intros H. apply orb_false_iff in H as [H1 H2]. apply negb_false_iff in H1, H2.
  exists seconds, response. split; [reflexivity|].
  split; [apply N.leb_le, H1|apply truthy_true, H2].
Qed.

(** One turn of the retry loop. *)
Lemma retry_loop_step (attempt : nat) (rest : list nat) (paper : Paper.t) (w : World) :
  let w1 := record (EvChat (AnalysisRequest paper)) w in
  let o := assistant w (trace w1) in
  retry_loop (attempt :: rest) paper w
  = if unusable o
    then if (attempt <? max_retries - 1)%nat
         then retry_loop rest paper (sleep retry_delay w1)
         else (None, w1)
    else (Some (answer o), w1).
Proof.
  cbv zeta. cbn [retry_loop]. unfold chat.
  destruct (assistant w _) as [seconds response|seconds]; cbn [unusable answer];
    [|reflexivity].
  destruct (seconds <=? deadline), (Py.truthy response); reflexivity.
Qed.

(** The three turns of the retry loop. *)
Lemma retry_loop_attempts (paper : Paper.t) (w : World) :
  exists n,
    (1 <= n <= 3)%nat
    /\ trace (snd (retry_loop (seq 0 max_retries) paper w))
       = trace w ++ attempts_trace paper n
    /\ assistant (snd (retry_loop (seq 0 max_retries) paper w)) = assistant w
    /\ (forall k, (1 <= k < n)%nat ->
          unusable (assistant w (trace w ++ attempts_trace paper k)) = true)
    /\ match fst (retry_loop (seq 0 max_retries) paper w) with
       | Some response =>
           exists seconds,
             assistant w (trace w ++ attempts_trace paper n) = Answered seconds response
             /\ seconds <= deadline /\ response <> []
       | None =>
           n = 3%nat
           /\ unusable (assistant w (trace w ++ attempts_trace paper 3)) = true
       end.
Proof.
  remember (retry_loop (seq 0 max_retries) paper w) as res eqn:R.
  change (seq 0 max_retries) with [0; 1; 2]%nat in R.
  rewrite retry_loop_step in R. cbv zeta in R.
  unfold sleep, record in R. cbn [trace assistant] in R.
  change (0 <? max_retries - 1)%nat with true in R. cbv iota in R.
  destruct (unusable (assistant w (trace w ++ [EvChat (AnalysisRequest paper)]))) eqn:U1.
  2:{ destruct (usable_outcome _ U1) as (seconds & response & E & Hs & Hr).
      subst res. exists 1%nat. cbn [fst snd trace assistant attempts_trace]. rewrite E.
      split; [lia|]. split; [reflexivity|]. split; [reflexivity|].
      split; [intros k Hk; lia|].
      exists seconds. cbn [answer]. repeat split; assumption. }
  rewrite retry_loop_step in R. cbv zeta in R.
  unfold sleep, record in R. cbn [trace assistant] in R.
  change (1 <? max_retries - 1)%nat with true in R. cbv iota in R.
  rewrite <- !app_assoc in R. cbn [app] in R.
  destruct (unusable (assistant w (trace w ++ [EvChat (AnalysisRequest paper);
              EvSleep retry_delay; EvChat (AnalysisRequest paper)]))) eqn:U2.
  2:{ destruct (usable_outcome _ U2) as (seconds & response & E & Hs & Hr).
      subst res. exists 2%nat. cbn [fst snd trace assistant attempts_trace app]. rewrite E.
      split; [lia|]. split; [reflexivity|]. split; [reflexivity|].
      split.
      { intros k Hk. assert (k = 1%nat) as -> by lia. exact U1. }
      exists seconds. cbn [answer]. repeat split; assumption. }
  rewrite retry_loop_step in R. cbv zeta in R.
  unfold sleep, record in R. cbn [trace assistant] in R.
  change (2 <? max_retries - 1)%nat with false in R. cbv iota in R.
  rewrite <- !app_assoc in R. cbn [app] in R.
  exists 3%nat. cbn [attempts_trace app].
  split; [lia|].
  destruct (unusable (assistant w (trace w ++ [EvChat (AnalysisRequest paper);
              EvSleep retry_delay; EvChat (AnalysisRequest paper);
              EvSleep retry_delay; EvChat (AnalysisRequest paper)]))) eqn:U3.
  - subst res. cbn [fst snd trace assistant].
    split; [reflexivity|]. split; [reflexivity|]. split.
    { intros k Hk. assert (k = 1 \/ k = 2)%nat as [-> | ->] by lia; assumption. }
    split; reflexivity.
  - destruct (usable_outcome _ U3) as (seconds & response & E & Hs & Hr).
    subst res. cbn [fst snd trace assistant]. rewrite E.
    split; [reflexivity|]. split; [reflexivity|]. split.
    { intros k Hk. assert (k = 1 \/ k = 2)%nat as [-> | ->] by lia; assumption. }
    exists seconds. cbn [answer]. repeat split; assumption.
Qed.

(** X8: with the assistant on, one analysis makes between one and three
    calls, all for its own paper, and sleeps two seconds between two
    calls and at no other time. It calls again exactly as long as the
    outcome is unusable (an exception, an answer after the deadline, an
    empty answer): the result is built from the first usable answer,
    and there is no result exactly when all three outcomes are
    unusable. *)
Theorem analyze_single_attempts (self : t) (paper : Paper.t) (silent : bool) (w : World) :
  assistant_on self = true ->
  exists n,
    (1 <= n <= 3)%nat
    /\ trace (snd (analyze_single self paper silent w)) = trace w ++ attempts_trace paper n
    /\ assistant (snd (analyze_single self paper silent w)) = assistant w
    /\ (forall k, (1 <= k < n)%nat ->
          unusable (assistant w (trace w ++ attempts_trace paper k)) = true)
    /\ match fst (analyze_single self paper silent w) with
       | Some result =>
           exists seconds response,
             assistant w (trace w ++ attempts_trace paper n) = Answered seconds response
             /\ seconds <= deadline /\ response <> []
             /\ result = parsed_result paper response
       | None =>
           n = 3%nat
           /\ unusable (assistant w (trace w ++ attempts_trace paper 3)) = true
       end.
Proof.
  intros On. rewrite (analyze_single_on self paper silent w On).
  destruct (retry_loop_attempts paper w) as (n & Hn & Ht & Ha & Hk & Hr).
  exists n. destruct (retry_loop (seq 0 max_retries) paper w) as [[response|] w'];
    cbn [fst snd] in *.
  - destruct Hr as (seconds & E & Hs & Hne).
    repeat (split; [assumption|]). exists seconds, response. repeat split; assumption.
  - repeat (split; [assumption|]). exact Hr.
Qed.

Lemma analyze_single_attempts_witness :
  assistant_on Sample.on = true
  /\ exists n,
       (1 <= n <= 3)%nat
       /\ trace (snd (analyze_single Sample.on Sample.paper false Sample.failing))
          = trace Sample.failing ++ attempts_trace Sample.paper n.
Proof.
  split; [reflexivity|].
  destruct (analyze_single_attempts Sample.on Sample.paper false Sample.failing eq_refl)
    as (n & Hn & Ht & _).
  exists n. split; [exact Hn|exact Ht].
Defined.

Lemma chat_requests_app (a b : list Event) :
  chat_requests (a ++ b) = chat_requests a ++ chat_requests b.
Proof. apply omap_app. Qed.

Lemma slept_app (a b : list Event) : slept (a ++ b) = slept a + slept b.
Proof.
  induction a as [|e a IH]; [reflexivity|].
  cbn [app slept fold_right]. fold (slept (a ++ b)). fold (slept a).
  rewrite IH. destruct e; lia.
Qed.

Lemma chat_requests_attempts (paper : Paper.t) (n : nat) :
  chat_requests (attempts_trace paper n) = repeat (AnalysisRequest paper) n.
Proof.
  induction n as [|[|m] IH]; [reflexivity|reflexivity|].
  change (attempts_trace paper (S (S m)))
    with (attempts_trace paper (S m)
          ++ [EvSleep retry_delay; EvChat (AnalysisRequest paper)]).
  rewrite chat_requests_app, IH.
  change (chat_requests [EvSleep retry_delay; EvChat (AnalysisRequest paper)])
    with [AnalysisRequest paper].
  change (repeat (AnalysisRequest paper) (S (S m)))
    with (AnalysisRequest paper :: repeat (AnalysisRequest paper) (S m)).
  rewrite (repeat_cons (S m)). reflexivity.
Qed.

Lemma slept_attempts (paper : Paper.t) (n : nat) :
  slept (attempts_trace paper n) = retry_delay * N.of_nat (n - 1).
Proof.
  induction n as [|[|m] IH]; [reflexivity|reflexivity|].
  change (attempts_trace paper (S (S m)))
    with (attempts_trace paper (S m)
          ++ [EvSleep retry_delay; EvChat (AnalysisRequest paper)]).
  rewrite slept_app, IH. cbn [slept fold_right]. unfold retry_delay. lia.
Qed.

(** What one analysis adds to the trace, with the assistant on or off. *)
Lemma analyze_single_trace (self : t) (paper : Paper.t) (silent : bool) (w : World) :
  exists n,
    (n <= 3)%nat
    /\ trace (snd (analyze_single self paper silent w)) = trace w ++ attempts_trace paper n
    /\ assistant (snd (analyze_single self paper silent w)) = assistant w.
Proof.
  destruct (assistant_on self) eqn:On.
  - rewrite (analyze_single_on self paper silent w On).
    destruct (retry_loop_attempts paper w) as (n & Hn & Ht & Ha & _).
    exists n. destruct (retry_loop (seq 0 max_retries) paper w) as [[response|] w'];
      cbn [fst snd] in *; (split; [lia|]); split; assumption.
  - rewrite (analyze_single_off self paper silent w On). exists 0%nat.
    cbn. rewrite app_nil_r. split; [lia|]. split; reflexivity.
Qed.

Lemma batch_loop_trace (self : t) (silent : bool) (date : option str) (E : gset str)
    (papers : list Paper.t) (st : Loop) :
  let st' := batch_loop (single self silent) date E papers st in
  exists added,
    trace (world st') = trace (world st) ++ added
    /\ assistant (world st') = assistant (world st)
    /\ (length (chat_requests added) + 3 * processed_count (stats st)
        <= 3 * processed_count (stats st'))%nat
    /\ slept added + 4 * N.of_nat (processed_count (stats st))
       <= 4 * N.of_nat (processed_count (stats st'))
    /\ Forall (fun req => exists p, p ∈ papers /\ already_processed date E p = false
                                   /\ req = AnalysisRequest p)
              (chat_requests added).
Proof.
  revert st. induction papers as [|p papers IH]; intros st.
  { exists []. cbn. rewrite app_nil_r. repeat split; try lia. constructor. }
  cbv zeta. change (batch_loop (single self silent) date E (p :: papers) st)
    with (batch_loop (single self silent) date E papers
            (batch_step (single self silent) date E st p)).
  destruct (IH (batch_step (single self silent) date E st p))
    as (added & I1 & I2 & I3 & I4 & I5).
  assert (Forall (fun req => exists q, q ∈ p :: papers /\ already_processed date E q = false
                                     /\ req = AnalysisRequest q)
                 (chat_requests added)) as I5'.
  { eapply Forall_impl; [exact I5|]. intros req (q & Hq & Hs & Hr).
    exists q. split; [right; exact Hq|]. split; assumption. }
  unfold batch_step in I1, I2, I3, I4 |- *.
  destruct (already_processed date E p) eqn:Sk.
  - exists added. cbn [world stats processed_count] in *. repeat split; assumption.
  - cbn beta in I1, I2, I3, I4 |- *.
    destruct (analyze_single_trace self p silent (world st)) as (n & Hn & Ht & Ha).
    destruct (analyze_single self p silent (world st)) as [[r|] w'];
      cbn [snd world stats processed_count] in *;
      (exists (attempts_trace p n ++ added);
       rewrite chat_requests_app, slept_app, chat_requests_attempts, slept_attempts,
         length_app, repeat_length;
       split; [rewrite I1, Ht, app_assoc; reflexivity|];
       split; [rewrite I2; exact Ha|];
       split; [lia|];
       split; [unfold retry_delay; lia|];
       apply Forall_app; split; [|exact I5'];
       apply Forall_forall; intros req Hreq; apply list_elem_of_In, repeat_spec in Hreq;
       exists p; split; [left|]; split; [exact Sk|exact Hreq]).
Qed.

(** X9: a batch only adds to the trace and leaves the assistant as it
    is; it makes at most three calls and sleeps at most four seconds
    for each paper it does not skip, and every call it makes is the
    analysis request of a paper of the list that it does not skip: a
    paper already in the report file costs no call. *)
Theorem analyze_batch_calls (self : t) (papers : list Paper.t) (date : option str)
    (silent : bool) (fs : Store) (w : World) :
  let run := analyze_batch self papers date silent fs w in
  exists added,
    trace (run_world run) = trace w ++ added
    /\ assistant (run_world run) = assistant w
    /\ (length (chat_requests added) <= 3 * processed_count (run_stats run))%nat
    /\ slept added <= 4 * N.of_nat (processed_count (run_stats run))
    /\ Forall (fun req => exists p,
                 p ∈ papers
                 /\ already_processed date (existing_ids_of fs date) p = false
                 /\ req = AnalysisRequest p)
              (chat_requests added).
Proof.
  intros run.
  destruct (analyze_batch_loop self papers date silent fs w) as (_ & Hw & _ & Hs).
  fold run in Hw, Hs. rewrite Hw, Hs.
  destruct (batch_loop_trace self silent date (existing_ids_of fs date) papers
              {| files := fs; world := w; results := []; stats := no_stats |})
    as (added & H1 & H2 & H3 & H4 & H5).
  cbn [world stats no_stats processed_count] in H1, H2, H3, H4.
  exists added. repeat (split; [first [assumption | lia]|]). exact H5.
Qed.

End AttemptFacts.

(** ** The report file under single saves and batches *)

Section SaveFacts.
Import Analyzer.

Local Abbreviation single self silent :=
  (fun paper w => let '(r, w') := analyze_single self paper silent w in (Ok r, w')).

Lemma filter_filter_same {A} (f : A -> bool) (l : list A) :
  List.filter f (List.filter f l) = List.filter f l.
Proof.
  induction l as [|x l IH]; [reflexivity|].
  cbn [List.filter]. destruct (f x) eqn:E; [|exact IH].
  cbn [List.filter]. rewrite E, IH. reflexivity.
Qed.

Lemma with_result_twice (r r' : AnalysisResult.t) (es : list dict) :
  AnalysisResult.id r = AnalysisResult.id r' ->
  with_result r' (with_result r es) = with_result r' es.
Proof.
  intros H. unfold with_result at 1 3. unfold with_result.
  rewrite List.filter_app. cbn [List.filter]. rewrite extract_to_dict.
  unfold AnalysisResult.paper_id. rewrite H.
  replace (Py.eqb (AnalysisResult.id r') (AnalysisResult.id r')) with true
    by (symmetry; apply bool_decide_eq_true; reflexivity).
  cbn [negb]. rewrite app_nil_r, filter_filter_same. reflexivity.
Qed.

(** X1: after [_save_single_result] the file of the date holds the
    result exactly once under its id, as its last entry; the entries
    under every other id are the ones it held before, the file grows by
    one entry at most, and the file of no other date changes. *)
Theorem save_single_result_round_trip (r : AnalysisResult.t) (d : str) (fs : Store) :
  let stored := _load_existing_results (_save_single_result r d fs) d in
  entries_of (AnalysisResult.id r) stored = [AnalysisResult.to_dict r]
  /\ last stored = Some (AnalysisResult.to_dict r)
  /\ (forall x, x <> AnalysisResult.id r ->
        entries_of x stored = entries_of x (_load_existing_results fs d))
  /\ (forall d' : str, d' <> d -> _save_single_result r d fs !! d' = fs !! d')
  /\ (length stored <= S (length (_load_existing_results fs d)))%nat.
Proof.
  cbv zeta. rewrite load_save. split; [|split; [|split; [|split]]].
  - rewrite entries_of_with_result.
    replace (Py.eqb (AnalysisResult.id r) (AnalysisResult.id r)) with true
      by (symmetry; apply bool_decide_eq_true; reflexivity).
    reflexivity.
  - unfold with_result. apply last_snoc.
  - intros x Hx. rewrite entries_of_with_result.
    replace (Py.eqb (AnalysisResult.id r) x) with false
      by (symmetry; apply bool_decide_eq_false; congruence).
    reflexivity.
  - intros d' Hd. unfold _save_single_result. apply lookup_insert_ne. congruence.
  - unfold with_result. rewrite length_app. cbn [length].
    pose proof (List.filter_length_le
                  (fun e => negb (Py.eqb (_extract_paper_id_from_result e)
                                         (AnalysisResult.paper_id r)))
                  (_load_existing_results fs d)). lia.
Qed.

(** X2: of two results saved one after the other under the same id,
    only the second is kept: the store is the one the second save alone
    would have left. *)
Theorem save_single_result_overwrites (r r' : AnalysisResult.t) (d : str) (fs : Store) :
  AnalysisResult.id r = AnalysisResult.id r' ->
  _save_single_result r' d (_save_single_result r d fs) = _save_single_result r' d fs.
Proof.
  intros H. unfold _save_single_result at 1.
  rewrite load_save, (with_result_twice r r' _ H).
  unfold _save_single_result. apply insert_insert_eq.
Qed.

Lemma save_single_result_overwrites_witness :
  AnalysisResult.id (basic_result Sample.paper)
  = AnalysisResult.id (basic_result Sample.revised)
  /\ _save_single_result (basic_result Sample.revised) Sample.day
       (_save_single_result (basic_result Sample.paper) Sample.day Sample.stocked)
     = _save_single_result (basic_result Sample.revised) Sample.day Sample.stocked.
Proof.
  assert (AnalysisResult.id (basic_result Sample.paper)
          = AnalysisResult.id (basic_result Sample.revised)) as H
    by (vm_compute; reflexivity).
  split; [exact H|].
  apply (save_single_result_overwrites (basic_result Sample.paper)
           (basic_result Sample.revised) Sample.day Sample.stocked H).
Defined.

Lemma save_when_dated_other (date : option str) (d' : str) (r : AnalysisResult.t)
    (fs : Store) :
  date_given date = false \/ date <> Some d' ->
  save_when_dated date r fs !! d' = fs !! d'.
Proof.
  unfold save_when_dated, date_given. destruct date as [d|]; [|reflexivity].
  destruct (Py.truthy d); [|reflexivity].
  intros [H|H]; [discriminate|]. unfold _save_single_result.
  apply lookup_insert_ne. congruence.
Qed.

Lemma fold_save_other (date : option str) (d' : str) (rs : list AnalysisResult.t)
    (fs : Store) :
  date_given date = false \/ date <> Some d' ->
  fold_left (fun fs r => save_when_dated date r fs) rs fs !! d' = fs !! d'.
Proof.
  intros H. revert fs. induction rs as [|r rs IH]; intros fs; [reflexivity|].
  cbn [fold_left]. rewrite IH. apply save_when_dated_other, H.
Qed.

Lemma save_when_undated (date : option str) (r : AnalysisResult.t) (fs : Store) :
  date_given date = false -> save_when_dated date r fs = fs.
Proof.
  unfold save_when_dated, date_given. destruct date as [d|]; [|reflexivity].
  intros ->. reflexivity.
Qed.

Lemma fold_save_undated (date : option str) (rs : list AnalysisResult.t) (fs : Store) :
  date_given date = false ->
  fold_left (fun fs r => save_when_dated date r fs) rs fs = fs.
Proof.
  intros H. revert fs. induction rs as [|r rs IH]; intros fs; [reflexivity|].
  cbn [fold_left]. rewrite save_when_undated by exact H. apply IH.
Qed.

Lemma filter_none {A} (l : list A) : List.filter (fun _ => false) l = [].
Proof. induction l as [|x l IH]; [reflexivity|exact IH]. Qed.

(** X3: a batch writes the report file of its own date and no other:
    the file of every other date, and every file when no date is
    given, is after the batch what it was before. *)
Theorem analyze_batch_touches_one_file (self : t) (papers : list Paper.t)
    (date : option str) (silent : bool) (fs : Store) (w : World) (d' : str) :
  date_given date = false \/ date <> Some d' ->
  run_files (analyze_batch self papers date silent fs w) !! d' = fs !! d'.
Proof.
  intros H.
  destruct (analyze_batch_loop self papers date silent fs w) as (Hf & _).
  rewrite Hf.
  destruct (batch_loop_spec (single self silent) date (existing_ids_of fs date)
              (single_id self silent) papers
              {| files := fs; world := w; results := []; stats := no_stats |})
    as (rs & _ & Hfs & _).
  rewrite Hfs. cbn [files]. apply fold_save_other, H.
Qed.

Lemma analyze_batch_touches_one_file_witness :
  run_files (analyze_batch Sample.off [Sample.paper; Sample.other]
               (Some (py "2025-08-02")) false Sample.stocked Sample.failing)
    !! Sample.day
  = Sample.stocked !! Sample.day.
Proof.
  apply (analyze_batch_touches_one_file Sample.off [Sample.paper; Sample.other]
           (Some (py "2025-08-02")) false Sample.stocked Sample.failing Sample.day).
  right. vm_compute. discriminate.
Defined.

(** X4: without a date (none, or the empty text) a batch skips no
    paper, whatever the store holds, analyses every paper of the list
    and writes nothing. *)
Theorem analyze_batch_undated (self : t) (papers : list Paper.t)
    (date : option str) (silent : bool) (fs : Store) (w : World) :
  date_given date = false ->
  let run := analyze_batch self papers date silent fs w in
  run_files run = fs
  /\ skip_count (run_stats run) = 0%nat
  /\ processed_count (run_stats run) = length papers.
Proof.
  intros H run.
  destruct (analyze_batch_loop self papers date silent fs w) as (Hf & _ & _ & Hs).
  fold run in Hf, Hs. rewrite Hf, Hs.
  destruct (batch_loop_spec (single self silent) date (existing_ids_of fs date)
              (single_id self silent) papers
              {| files := fs; world := w; results := []; stats := no_stats |})
    as (rs & _ & Hfs & Hk & Hp & _).
  rewrite Hfs, Hk, Hp. cbn [files stats no_stats skip_count processed_count Nat.add].
  assert (forall p, already_processed date (existing_ids_of fs date) p = false) as Hno.
  { intros p. unfold already_processed. rewrite H. reflexivity. }
  rewrite (filter_ext_list _ (fun _ => false) papers Hno).
  rewrite (filter_ext_list (fun p => negb (already_processed date _ p)) (fun _ => true) papers)
    by (intros p; rewrite Hno; reflexivity).
  rewrite (filter_all (fun _ => true)) by reflexivity.
  rewrite filter_none.
  split; [apply fold_save_undated, H|]. split; reflexivity.
Qed.

Lemma analyze_batch_undated_witness :
  date_given (Some []) = false
  /\ run_files (analyze_batch Sample.off [Sample.paper; Sample.other] (Some [])
                  false Sample.stocked Sample.failing)
     = Sample.stocked
  /\ processed_count
       (run_stats (analyze_batch Sample.off [Sample.paper; Sample.other] (Some [])
                     false Sample.stocked Sample.failing))
     = 2%nat.
Proof.
  split; [reflexivity|].
  destruct (analyze_batch_undated Sample.off [Sample.paper; Sample.other] (Some [])
              false Sample.stocked Sample.failing eq_refl) as (H1 & _ & H3).
  split; [exact H1|exact H3].
Defined.

Lemma stored_ids_app (a b : list dict) : stored_ids (a ++ b) = stored_ids a ++ stored_ids b.
Proof. unfold stored_ids. apply fmap_app. Qed.

Lemma stored_ids_to_dict (rs : list AnalysisResult.t) :
  stored_ids (AnalysisResult.to_dict <$> rs) = AnalysisResult.id <$> rs.
Proof.
  unfold stored_ids. rewrite <- list_fmap_compose. apply list_fmap_ext.
  intros i r _. apply extract_to_dict.
Qed.

(** Results under distinct ids are stored as they come. *)
Lemma merge_results_distinct (rs : list AnalysisResult.t) :
  NoDup (AnalysisResult.id <$> rs) ->
  merge_results [] rs = AnalysisResult.to_dict <$> rs.
Proof.
  induction rs as [|r rs IH] using rev_ind; [reflexivity|].
  rewrite fmap_app. cbn [fmap list_fmap]. intros H.
  apply NoDup_app in H as (H1 & H2 & _).
  rewrite merge_results_snoc, IH by exact H1.
  rewrite <- (app_nil_r (AnalysisResult.to_dict <$> rs)) at 1.
  rewrite with_result_keeps.
  - rewrite fmap_app. reflexivity.
  - rewrite stored_ids_to_dict. intros Hin. apply (H2 _ Hin). left.
Qed.

(** X5: a report file in which no id occurs twice stays so through a
    batch, whatever the list of papers (repeated papers included) and
    whatever the assistant answers. *)
Theorem analyze_batch_keeps_ids_distinct (self : t) (papers : list Paper.t) (d : str)
    (silent : bool) (fs : Store) (w : World) :
  d <> [] ->
  NoDup (stored_ids (_load_existing_results fs d)) ->
  NoDup (stored_ids
           (_load_existing_results
              (run_files (analyze_batch self papers (Some d) silent fs w)) d)).
Proof.
  intros Hd Hnd.
  destruct (analyze_batch_spec self papers d silent fs w Hd)
    as (Hst & _ & _ & _ & _ & Hsub).
  rewrite Hst, stored_ids_app. apply NoDup_app. split; [exact Hnd|]. split.
  - intros x Hx Hx'. apply elem_of_merge_results in Hx' as [Hx'|Hx'].
    + cbn in Hx'. apply elem_of_nil in Hx'. exact Hx'.
    + apply (sublist_subseteq _ _ Hsub) in Hx'.
      apply list_elem_of_fmap in Hx' as (p & -> & Hp).
      rewrite list_elem_of_In, List.filter_In in Hp. destruct Hp as [_ Hp].
      apply negb_true_iff, bool_decide_eq_false in Hp. apply Hp.
      apply elem_of_list_to_set, Hx.
  - apply NoDup_merge_results. constructor.
Qed.

Lemma analyze_batch_keeps_ids_distinct_witness :
  NoDup (stored_ids
           (_load_existing_results
              (run_files (analyze_batch Sample.on
                            [Sample.other; Sample.revised; Sample.other]
                            (Some Sample.day) false Sample.stocked Sample.terse))
              Sample.day)).
Proof.
  apply (analyze_batch_keeps_ids_distinct Sample.on
           [Sample.other; Sample.revised; Sample.other] Sample.day false
           Sample.stocked Sample.terse).
  - vm_compute. discriminate.
  - apply (bool_decide_unpack _). vm_compute. reflexivity.
Defined.

Lemma batch_loop_off (self : t) (silent : bool) (date : option str) (E : gset str)
    (papers : list Paper.t) (st : Loop) :
  assistant_on self = false ->
  let st' := batch_loop (single self silent) date E papers st in
  results st'
  = results st
    ++ (basic_result <$> List.filter (fun p => negb (already_processed date E p)) papers)
  /\ world st' = world st
  /\ fail_count (stats st') = fail_count (stats st).
Proof.
  intros Off. revert st. induction papers as [|p papers IH]; intros st.
  { cbn. rewrite app_nil_r. repeat split. }
  cbv zeta. change (batch_loop (single self silent) date E (p :: papers) st)
    with (batch_loop (single self silent) date E papers
            (batch_step (single self silent) date E st p)).
  destruct (IH (batch_step (single self silent) date E st p)) as (I1 & I2 & I3).
  rewrite I1, I2, I3. unfold batch_step. cbn [List.filter].
  destruct (already_processed date E p); cbn [negb].
  - cbn. repeat split.
  - cbn beta. rewrite (analyze_single_off self p silent (world st) Off).
    cbn [results world stats fail_count fmap list_fmap].
    rewrite <- app_assoc. repeat split.
Qed.

(** A batch with the assistant off: its results and its world. *)
Lemma analyze_batch_off (self : t) (papers : list Paper.t)
    (date : option str) (silent : bool) (fs : Store) (w : World) :
  assistant_on self = false ->
  let run := analyze_batch self papers date silent fs w in
  run_results run
  = basic_result
      <$> List.filter
            (fun p => negb (already_processed date (existing_ids_of fs date) p)) papers
  /\ run_world run = w.
Proof.
  intros Off run.
  destruct (analyze_batch_loop self papers date silent fs w) as (_ & Hw & Hr & _).
  fold run in Hw, Hr.
  destruct (batch_loop_off self silent date (existing_ids_of fs date) papers
              {| files := fs; world := w; results := []; stats := no_stats |} Off)
    as (B1 & B2 & _).
  rewrite <- Hr in B1. rewrite <- Hw in B2. split; assumption.
Qed.

(** X6: with the assistant off a batch cannot fail on a paper: its
    results are the basic results of the papers it does not skip, in
    the order of the list, no paper is counted as failed, and the
    assistant is never called. *)
Theorem analyze_batch_without_assistant (self : t) (papers : list Paper.t)
    (date : option str) (silent : bool) (fs : Store) (w : World) :
  assistant_on self = false ->
  let run := analyze_batch self papers date silent fs w in
  run_results run
  = basic_result
      <$> List.filter
            (fun p => negb (already_processed date (existing_ids_of fs date) p)) papers
  /\ run_world run = w
  /\ fail_count (run_stats run) = 0%nat
  /\ success_count (run_stats run) = processed_count (run_stats run).
Proof.
  intros Off run.
  destruct (analyze_batch_off self papers date silent fs w Off) as (Hr & Hw).
  destruct (analyze_batch_loop self papers date silent fs w) as (_ & _ & _ & Hs).
  fold run in Hr, Hw, Hs.
  destruct (batch_loop_off self silent date (existing_ids_of fs date) papers
              {| files := fs; world := w; results := []; stats := no_stats |} Off)
    as (_ & _ & B3).
  destruct (batch_loop_accounting (single self silent) date (existing_ids_of fs date) papers
              {| files := fs; world := w; results := []; stats := no_stats |})
    as (A1 & _).
  rewrite <- Hs in B3, A1.
  cbn [stats no_stats fail_count success_count processed_count] in B3, A1.
  repeat split; try assumption. lia.
Qed.

Lemma analyze_batch_without_assistant_witness :
  assistant_on Sample.off = false
  /\ run_world (analyze_batch Sample.off [Sample.paper; Sample.other] (Some Sample.day)
                  false Sample.stocked Sample.failing)
     = Sample.failing
  /\ fail_count
       (run_stats (analyze_batch Sample.off [Sample.paper; Sample.other] (Some Sample.day)
                     false Sample.stocked Sample.failing))
     = 0%nat.
Proof.
  split; [reflexivity|].
  destruct (analyze_batch_without_assistant Sample.off [Sample.paper; Sample.other]
              (Some Sample.day) false Sample.stocked Sample.failing eq_refl)
    as (_ & H2 & H3 & _).
  split; [exact H2|exact H3].
Defined.

(** X15: [analyze_papers] builds its analyzer from a configuration
    without [use_ai], so the assistant is on exactly when the client
    can be built; when it cannot, the call degrades to the basic
    results, one for each paper that is not skipped and in the order
    of the list, without a call of the assistant. *)
Theorem analyze_papers_degrades (papers : list Paper.t) (date : option str)
    (silent : bool) (fs : Store) (w : World) :
  (forall client_builds, assistant_on (__init__ None client_builds) = client_builds)
  /\ let run := analyze_papers false papers date silent fs w in
     run_results run
     = basic_result
         <$> List.filter
               (fun p => negb (already_processed date (existing_ids_of fs date) p)) papers
     /\ run_world run = w.
Proof.
  split; [intros []; reflexivity|].
  exact (analyze_batch_off (__init__ None false) papers date silent fs w eq_refl).
Qed.

Lemma filter_false_all {A} (f : A -> bool) (l : list A) :
  (forall x, x ∈ l -> f x = false) -> List.filter f l = [].
Proof.
  induction l as [|x l IH]; intros H; [reflexivity|].
  cbn [List.filter]. rewrite (H x) by left. apply IH. intros y Hy. apply H. right. exact Hy.
Qed.

Lemma filter_true_all {A} (f : A -> bool) (l : list A) :
  (forall x, x ∈ l -> f x = true) -> List.filter f l = l.
Proof.
  induction l as [|x l IH]; intros H; [reflexivity|].
  cbn [List.filter]. rewrite (H x) by left. f_equal. apply IH.
  intros y Hy. apply H. right. exact Hy.
Qed.

Lemma existing_ids_dated (fs : Store) (d : str) :
  d <> [] ->
  existing_ids_of fs (Some d) = list_to_set (stored_ids (_load_existing_results fs d)).
Proof. intros Hd. unfold existing_ids_of. apply truthy_true in Hd. rewrite Hd. reflexivity. Qed.

(** With the assistant off, the file after a dated batch. *)
Lemma analyze_batch_off_store (self : t) (papers : list Paper.t) (d : str)
    (silent : bool) (fs : Store) (w : World) :
  assistant_on self = false -> d <> [] ->
  let E : gset str := list_to_set (stored_ids (_load_existing_results fs d)) in
  let fresh := List.filter (fun p => negb (bool_decide (Paper.id p ∈ E))) papers in
  _load_existing_results (run_files (analyze_batch self papers (Some d) silent fs w)) d
  = _load_existing_results fs d ++ merge_results [] (basic_result <$> fresh).
Proof.
  intros Off Hd E fresh.
  destruct (analyze_batch_spec self papers d silent fs w Hd) as (Hst & _).
  destruct (analyze_batch_off self papers (Some d) silent fs w Off)
    as (Hr & _).
  rewrite Hst, Hr. do 3 f_equal. rewrite existing_ids_dated by exact Hd.
  apply filter_ext_list. intros p. rewrite already_processed_dated by exact Hd. reflexivity.
Qed.

Lemma basic_results_stored (l : list Paper.t) :
  NoDup (Paper.id <$> l) ->
  merge_results [] (basic_result <$> l)
  = (fun p => AnalysisResult.to_dict (basic_result p)) <$> l.
Proof.
  intros H. rewrite merge_results_distinct.
  - rewrite <- list_fmap_compose. reflexivity.
  - rewrite <- list_fmap_compose. exact H.
Qed.

(** X7: resuming an interrupted day, with the assistant off. When a
    first batch has got through the papers [done] and a second batch
    is given the whole list [done ++ rest] (ids distinct, report file
    empty at the start), the second batch skips exactly [done],
    analyses exactly [rest], and leaves the report file that one batch
    over the whole list would have left: the basic results of the
    papers, in the order of the list. *)
Theorem analyze_batch_resumes (self : t) (done rest : list Paper.t) (d : str)
    (silent1 silent2 silent3 : bool) (fs : Store) (w : World) :
  assistant_on self = false -> d <> [] ->
  _load_existing_results fs d = [] ->
  NoDup (Paper.id <$> (done ++ rest)) ->
  let run1 := analyze_batch self done (Some d) silent1 fs w in
  let run2 := analyze_batch self (done ++ rest) (Some d) silent2
                (run_files run1) (run_world run1) in
  let whole := analyze_batch self (done ++ rest) (Some d) silent3 fs w in
  _load_existing_results (run_files run2) d = _load_existing_results (run_files whole) d
  /\ _load_existing_results (run_files whole) d
     = (fun p => AnalysisResult.to_dict (basic_result p)) <$> (done ++ rest)
  /\ skip_count (run_stats run2) = length done
  /\ processed_count (run_stats run2) = length rest.
Proof.
  intros Off Hd Hempty Hnd run1 run2 whole.
  pose proof Hnd as Hnd'. rewrite fmap_app in Hnd'.
  apply NoDup_app in Hnd' as (Hn1 & Hdis & Hn2).
  assert (_load_existing_results (run_files whole) d
          = (fun p => AnalysisResult.to_dict (basic_result p)) <$> (done ++ rest)) as Hwhole.
  { unfold whole. rewrite analyze_batch_off_store by assumption.
    rewrite Hempty. cbn [app stored_ids fmap list_fmap list_to_set].
    rewrite (filter_true_all _ (done ++ rest))
      by (intros p _; apply negb_true_iff, bool_decide_eq_false, not_elem_of_empty).
    apply basic_results_stored, Hnd. }
  assert (_load_existing_results (run_files run1) d
          = (fun p => AnalysisResult.to_dict (basic_result p)) <$> done) as H1.
  { unfold run1. rewrite analyze_batch_off_store by assumption.
    rewrite Hempty. cbn [app stored_ids fmap list_fmap list_to_set].
    rewrite (filter_true_all _ done)
      by (intros p _; apply negb_true_iff, bool_decide_eq_false, not_elem_of_empty).
    apply basic_results_stored, Hn1. }
  set (E2 := list_to_set (stored_ids (_load_existing_results (run_files run1) d)) : gset str).
  assert (forall p, p ∈ done -> bool_decide (Paper.id p ∈ E2) = true) as Hin1.
  { intros p Hp. apply bool_decide_eq_true. unfold E2. rewrite H1.
    apply elem_of_list_to_set. unfold stored_ids. rewrite <- list_fmap_compose.
    apply list_elem_of_fmap. exists p. split; [reflexivity|exact Hp]. }
  assert (forall p, p ∈ rest -> bool_decide (Paper.id p ∈ E2) = false) as Hin2.
  { intros p Hp. apply bool_decide_eq_false. unfold E2. rewrite H1.
    rewrite elem_of_list_to_set. unfold stored_ids. rewrite <- list_fmap_compose.
    intros Hc. apply list_elem_of_fmap in Hc as (q & Hq & Hq').
    apply (Hdis (Paper.id p)).
    - apply list_elem_of_fmap. exists q. split; [exact Hq|exact Hq'].
    - apply list_elem_of_fmap. exists p. split; [reflexivity|exact Hp]. }
  destruct (analyze_batch_spec self (done ++ rest) d silent2 (run_files run1) (run_world run1) Hd)
    as (_ & Hk & Hp & _).
  fold run2 in Hk, Hp. fold E2 in Hk, Hp.
  rewrite List.filter_app in Hk, Hp.
  rewrite (filter_true_all _ done Hin1), (filter_false_all _ rest Hin2), app_nil_r in Hk.
  rewrite (filter_false_all _ done), (filter_true_all _ rest) in Hp
    by (intros p Hp'; rewrite ?(Hin1 p Hp'), ?(Hin2 p Hp'); reflexivity).
  split; [|split; [exact Hwhole|split; [exact Hk|exact Hp]]].
  rewrite Hwhole. unfold run2. rewrite analyze_batch_off_store by assumption.
  fold E2. rewrite List.filter_app.
  rewrite (filter_false_all _ done), (filter_true_all _ rest)
    by (intros p Hp'; rewrite ?(Hin1 p Hp'), ?(Hin2 p Hp'); reflexivity).
  cbn [app]. rewrite H1, basic_results_stored by exact Hn2.
  rewrite fmap_app. reflexivity.
Qed.

Lemma analyze_batch_resumes_witness :
  let run1 := analyze_batch Sample.off [Sample.paper] (Some Sample.day) false
                ∅ Sample.failing in
  let run2 := analyze_batch Sample.off [Sample.paper; Sample.other] (Some Sample.day) false
                (run_files run1) (run_world run1) in
  let whole := analyze_batch Sample.off [Sample.paper; Sample.other] (Some Sample.day) false
                 ∅ Sample.failing in
  _load_existing_results (run_files run2) Sample.day
  = _load_existing_results (run_files whole) Sample.day
  /\ skip_count (run_stats run2) = 1%nat
  /\ processed_count (run_stats run2) = 1%nat.
Proof.
  assert (Sample.day <> []) as Hd by (vm_compute; discriminate).
  assert (_load_existing_results ∅ Sample.day = []) as He by reflexivity.
  assert (NoDup (Paper.id <$> ([Sample.paper] ++ [Sample.other]))) as Hn
    by (apply (bool_decide_unpack _); vm_compute; reflexivity).
  destruct (analyze_batch_resumes Sample.off [Sample.paper] [Sample.other] Sample.day
              false false false ∅ Sample.failing eq_refl Hd He Hn)
    as (H1 & _ & H3 & H4).
  cbv zeta. split; [exact H1|]. split; [exact H3|exact H4].
Defined.

End SaveFacts.

(** ** [clean]: from the metadata file to the cleaned file *)

Section RecordFacts.
Import Cleaner.
Variable format_value : json -> str.

Lemma or_else_falsy (a b : json) :
  Json.truthy (or_else a b) = true \/ or_else a b = b.
Proof.
  unfold or_else. destruct (Json.truthy a) eqn:E; [left; exact E|right; reflexivity].
Qed.

Lemma extract_paper_info_date (item : json) (c : Cleaned.t) :
  _extract_paper_info format_value item = Some c ->
  exists a b d, Cleaned.publish_date c = or_else (or_else (or_else a b) d) (JStr []).
Proof.
  unfold _extract_paper_info. intros H.
  destruct (paper_data_of item) as [pd|e] eqn:Hpd;
    [|unfold extract_body in H; rewrite Hpd in H; discriminate H].
  destruct pd as [| | | | |l|fields];
    try (unfold extract_body in H; rewrite Hpd in H; discriminate H).
  rewrite (extract_body_dict format_value item fields Hpd) in H. cbn zeta in H.
  destruct (normalize_title _) as [title|e]; [|discriminate H].
  cbn [mbind exc_bind] in H.
  destruct (negb _ || negb _); [discriminate H|].
  destruct (if Json.truthy (JArr _) then _ else _) as [authors|e]; [|discriminate H].
  cbn [mbind exc_bind try_except] in H. injection H as <-.
  cbn [Cleaned.publish_date]. eexists _, _, _. reflexivity.
Qed.

(** X23: every record the rules produce has its title on one line and
    without white space at either end, and a publish date that is
    never a null or another falsy value of the raw record: it is
    truthy or the empty text. *)
Theorem cleaned_records_normalised (raw_data : list json) :
  Forall (fun c => Py.contains 10 (Cleaned.title c) = false
                   /\ Py.strip (Cleaned.title c) = Cleaned.title c
                   /\ (Json.truthy (Cleaned.publish_date c) = true
                       \/ Cleaned.publish_date c = JStr []))
         (_clean_with_rules format_value raw_data).
Proof.
  rewrite clean_with_rules_omap. apply Forall_forall. intros c Hc.
  apply list_elem_of_omap in Hc as (item & _ & Hitem).
  destruct (extract_paper_info_some format_value item c Hitem)
    as (fields & _ & _ & Ht & _).
  destruct (extract_paper_info_date item c Hitem) as (a & b & d & ->).
  split; [|split; [|apply or_else_falsy]].
  - unfold normalize_title in Ht. destruct (default _ _); try discriminate Ht.
    injection Ht as <-. rewrite replace_line_feeds. apply no_line_feed.
  - unfold normalize_title in Ht. destruct (default _ _); try discriminate Ht.
    injection Ht as <-. rewrite replace_line_feeds.
    rewrite (strip_map _ line_feed_to_space), strip_idem. reflexivity.
Qed.

End RecordFacts.

Section CleanFacts.
Import Cleaner.
Variable format_value : json -> str.

Local Abbreviation clean := (Cleaner.clean format_value).

Lemma clean_data_rules (self : t) (raw_data : list json) (w : World) :
  use_ai self && ai_client self = false ->
  _clean_data format_value self raw_data w
  = (_clean_with_rules format_value raw_data, w).
Proof.
  intros H. unfold _clean_data. rewrite H. destruct raw_data; reflexivity.
Qed.

Lemma clean_loaded (self : t) (fm : FileManager) (date : str) (silent : bool) (w : World)
    (raw_data : list json) :
  _load_metadata fm date = Some raw_data ->
  clean self fm date silent w
  = {| succeeded := fst (_save_cleaned_data fm date
                           (fst (_clean_data format_value self raw_data w)));
       handed_over := snd (_save_cleaned_data fm date
                             (fst (_clean_data format_value self raw_data w)));
       cleaning_world := snd (_clean_data format_value self raw_data w) |}.
Proof.
  intros H. unfold Cleaner.clean. rewrite H.
  destruct (_clean_data format_value self raw_data w) as [cleaned_data w']. cbn [fst snd].
  destruct (_save_cleaned_data fm date cleaned_data) as [success saved]. reflexivity.
Qed.

Lemma load_metadata_none (fm : FileManager) (date : str) :
  _load_metadata fm date = None
  <-> metadata_files fm !! date = None
      \/ exists e, metadata_files fm !! date = Some (Raise e).
Proof.
  unfold _load_metadata. destruct (metadata_files fm !! date) as [[v|e]|].
  - split.
    + destruct v as [| | | | |items|fields]; try discriminate.
      destruct (Json.lookup _ fields); discriminate.
    + intros [H|[e H]]; discriminate.
  - split; [intros _; right; exists e; reflexivity|reflexivity].
  - split; [intros _; left; reflexivity|reflexivity].
Qed.

(** X16: [clean] reports success only when it has loaded the metadata
    file of the date and [save_json] has returned true for the list it
    was handed; when the file is missing or does not load it returns
    false without cleaning, without calling the assistant and without
    saving anything. *)
Theorem clean_succeeds_only_after_saving (self : t) (fm : FileManager) (date : str)
    (silent : bool) (w : World) :
  (succeeded (clean self fm date silent w) = true ->
     exists raw_data cleaned_data,
       _load_metadata fm date = Some raw_data
       /\ handed_over (clean self fm date silent w) = Some cleaned_data
       /\ cleaned_data = fst (_clean_data format_value self raw_data w)
       /\ save_json fm date cleaned_data = Ok true)
  /\ (metadata_files fm !! date = None
      \/ (exists e, metadata_files fm !! date = Some (Raise e)) ->
      clean self fm date silent w
      = {| succeeded := false; handed_over := None; cleaning_world := w |}).
Proof.
  split.
  - destruct (_load_metadata fm date) as [raw_data|] eqn:L.
    + rewrite (clean_loaded self fm date silent w raw_data L).
      cbn [succeeded handed_over]. unfold _save_cleaned_data.
      destruct (ensure_dir fm); cbn [fst snd]; [|discriminate].
      intros H. exists raw_data, (fst (_clean_data format_value self raw_data w)).
      repeat split.
      destruct (save_json fm date _) as [[]|]; cbn in H; congruence.
    + unfold Cleaner.clean. rewrite L. cbn. discriminate.
  - intros H. apply load_metadata_none in H. unfold Cleaner.clean. rewrite H. reflexivity.
Qed.

(** The records of the rule-based cleaning. *)
Lemma clean_with_rules_records (raw_data : list json) :
  Forall (fun c => Json.truthy (Cleaned.id c) = true /\ Cleaned.title c <> []
                   /\ Cleaned.translation c = Cleaned.title c)
         (_clean_with_rules format_value raw_data).
Proof.
  rewrite clean_with_rules_omap. apply Forall_forall. intros c Hc.
  apply list_elem_of_omap in Hc as (item & _ & Hitem).
  destruct (extract_paper_info_some format_value item c Hitem)
    as (fields & _ & _ & _ & Hid & Ht & Htr & _).
  repeat split; assumption.
Qed.

(** X17: [clean_data], in spite of its parameter [ai_model], cleans by
    the rules alone, as [clean_data_no_ai] does: the two calls are the
    same, neither calls the assistant, and once the metadata file is
    loaded the list handed to [save_json] is the rule-based one, at most
    one record for each raw record, each with an id, a non-empty title
    and the title as its translation. *)
Theorem clean_data_never_asks (client_builds client_builds' : bool) (fm : FileManager)
    (date : str) (silent silent' : bool) (w : World) :
  clean_data format_value client_builds fm date silent w
  = clean_data_no_ai format_value client_builds' fm date silent' w
  /\ cleaning_world (clean_data format_value client_builds fm date silent w) = w
  /\ forall cleaned_data,
       handed_over (clean_data format_value client_builds fm date silent w)
       = Some cleaned_data ->
       exists raw_data,
         _load_metadata fm date = Some raw_data
         /\ cleaned_data = _clean_with_rules format_value raw_data
         /\ (length cleaned_data <= length raw_data)%nat
         /\ Forall (fun c => Json.truthy (Cleaned.id c) = true /\ Cleaned.title c <> []
                             /\ Cleaned.translation c = Cleaned.title c)
                   cleaned_data.
Proof.
  assert (forall self, use_ai self && ai_client self = false ->
            Cleaner.clean format_value self fm date silent w
            = match _load_metadata fm date with
              | None => {| succeeded := false; handed_over := None; cleaning_world := w |}
              | Some raw_data =>
                  {| succeeded :=
                       fst (_save_cleaned_data fm date
                              (_clean_with_rules format_value raw_data));
                     handed_over :=
                       snd (_save_cleaned_data fm date
                              (_clean_with_rules format_value raw_data));
                     cleaning_world := w |}
              end) as Hrules.
  { intros self Hoff. destruct (_load_metadata fm date) as [raw_data|] eqn:L.
    - rewrite (clean_loaded self fm date silent w raw_data L).
      rewrite (clean_data_rules self raw_data w Hoff). reflexivity.
    - unfold Cleaner.clean. rewrite L. reflexivity. }
  assert (clean_data format_value client_builds fm date silent w
          = clean_data_no_ai format_value client_builds' fm date silent' w) as Hsame.
  { unfold clean_data, clean_data_no_ai, Cleaner.clean.
    destruct (_load_metadata fm date) as [raw_data|]; [|reflexivity].
    rewrite !clean_data_rules by (destruct client_builds, client_builds'; reflexivity).
    reflexivity. }
  split; [exact Hsame|].
  unfold clean_data. rewrite Hrules by reflexivity.
  destruct (_load_metadata fm date) as [raw_data|]; cbn [cleaning_world handed_over].
  - split; [reflexivity|]. intros cleaned_data H. exists raw_data.
    unfold _save_cleaned_data in H. destruct (ensure_dir fm); cbn [snd] in H; [|discriminate].
    injection H as <-. split; [reflexivity|]. split; [reflexivity|].
    split; [apply clean_with_rules_length|apply clean_with_rules_records].
  - split; [reflexivity|]. discriminate.
Qed.

Lemma load_metadata_holding (v : json) (date : str) (fm : FileManager) :
  _load_metadata (holding v date fm) date
  = match v with
    | JArr data => Some data
    | JObj fields =>
        match Json.lookup (py "error") fields with
        | Some _ => Some []
        | None => Some [v]
        end
    | _ => Some []
    end.
Proof.
  unfold _load_metadata, holding. cbn [metadata_files]. rewrite lookup_insert_eq.
  destruct v; reflexivity.
Qed.

Lemma clean_holding (self : t) (v v' : json) (fm : FileManager) (date : str)
    (silent : bool) (w : World) :
  _load_metadata (holding v date fm) date = _load_metadata (holding v' date fm) date ->
  clean self (holding v date fm) date silent w
  = clean self (holding v' date fm) date silent w.
Proof. intros H. unfold Cleaner.clean. rewrite H. reflexivity. Qed.

(** X18: the shapes of a metadata file. A file that holds a single
    object is cleaned as the list of that one object; a file that holds
    an object with the key [error], or a value that is neither a list
    nor an object, is cleaned as the empty list: [clean] then hands the
    empty list to [save_json] without calling the assistant, even with
    the assistant on, and returns what the save returns. *)
Theorem clean_reads_every_shape (self : t) (fm : FileManager) (date : str)
    (silent : bool) (w : World) :
  (forall fields,
     Json.lookup (py "error") fields = None ->
     clean self (holding (JObj fields) date fm) date silent w
     = clean self (holding (JArr [JObj fields]) date fm) date silent w)
  /\ (forall v,
        match v with
        | JArr _ => False
        | JObj fields => Json.lookup (py "error") fields <> None
        | _ => True
        end ->
        clean self (holding v date fm) date silent w
        = clean self (holding (JArr []) date fm) date silent w)
  /\ clean self (holding (JArr []) date fm) date silent w
     = {| succeeded := fst (_save_cleaned_data fm date []);
          handed_over := snd (_save_cleaned_data fm date []);
          cleaning_world := w |}.
Proof.
  split; [|split].
  - intros fields H. apply clean_holding. rewrite !load_metadata_holding, H. reflexivity.
  - intros v H. apply clean_holding. rewrite !load_metadata_holding.
    destruct v as [| | | | |items|fields]; try reflexivity; [contradiction|].
    destruct (Json.lookup _ fields); [reflexivity|contradiction].
  - rewrite (clean_loaded self _ date silent w [])
      by (rewrite load_metadata_holding; reflexivity).
    reflexivity.
Qed.

End CleanFacts.

Section CleanExamples.
Import Cleaner.

Lemma clean_succeeds_only_after_saving_witness :
  Cleaner.clean Sample.no_format Sample.rule_cleaner Sample.disk (py "2025-08-02")
    false Sample.failing
  = {| succeeded := false; handed_over := None; cleaning_world := Sample.failing |}
  /\ exists raw_data cleaned_data,
       _load_metadata Sample.disk Sample.day = Some raw_data
       /\ handed_over (Cleaner.clean Sample.no_format Sample.rule_cleaner Sample.disk
                         Sample.day false Sample.failing)
          = Some cleaned_data
       /\ cleaned_data
          = fst (_clean_data Sample.no_format Sample.rule_cleaner raw_data Sample.failing)
       /\ save_json Sample.disk Sample.day cleaned_data = Ok true.
Proof.
  split.
  - apply (proj2 (clean_succeeds_only_after_saving Sample.no_format Sample.rule_cleaner
                    Sample.disk (py "2025-08-02") false Sample.failing)).
    left. vm_compute. reflexivity.
  - apply (proj1 (clean_succeeds_only_after_saving Sample.no_format Sample.rule_cleaner
                    Sample.disk Sample.day false Sample.failing)).
    vm_compute. reflexivity.
Defined.

Lemma clean_data_never_asks_witness :
  exists raw_data,
    _load_metadata Sample.disk Sample.day = Some raw_data
    /\ [Sample.cleaned] = _clean_with_rules Sample.no_format raw_data
    /\ (length [Sample.cleaned] <= length raw_data)%nat.
Proof.
  assert (handed_over (clean_data Sample.no_format true Sample.disk Sample.day false
                         Sample.failing)
          = Some [Sample.cleaned]) as H by (vm_compute; reflexivity).
  destruct (proj2 (proj2 (clean_data_never_asks Sample.no_format true false Sample.disk
                            Sample.day false true Sample.failing))
              [Sample.cleaned] H) as (raw_data & H1 & H2 & H3 & _).
  exists raw_data. split; [exact H1|]. split; [exact H2|exact H3].
Defined.

Lemma clean_reads_every_shape_witness :
  Cleaner.clean Sample.no_format Sample.ai_cleaner
    (Cleaner.holding (JObj [(py "error", JStr (py "rate limited"))]) Sample.day Sample.disk)
    Sample.day false Sample.talkative
  = Cleaner.clean Sample.no_format Sample.ai_cleaner
      (Cleaner.holding (JArr []) Sample.day Sample.disk) Sample.day false Sample.talkative
  /\ Cleaner.cleaning_world
       (Cleaner.clean Sample.no_format Sample.ai_cleaner
          (Cleaner.holding (JArr []) Sample.day Sample.disk) Sample.day false
          Sample.talkative)
     = Sample.talkative.
Proof.
  destruct (clean_reads_every_shape Sample.no_format Sample.ai_cleaner Sample.disk
              Sample.day false Sample.talkative) as (_ & H2 & H3).
  split.
  - apply (H2 (JObj [(py "error", JStr (py "rate limited"))])). vm_compute. discriminate.
  - rewrite H3. reflexivity.
Defined.

End CleanExamples.

(** ** What the prompt of the Cleaner is built from *)

Section PromptFacts.
Import Cleaner.
Variable format_value : json -> str.

Lemma bind_ok {A B} (m : exc A) (k : A -> exc B) (b : B) :
  (x ← m; k x) = Ok b -> exists a, m = Ok a /\ k a = Ok b.
Proof. destruct m as [a|e]; [|discriminate]. intros H. exists a. split; [reflexivity|exact H]. Qed.

Lemma slice_value_size (n : nat) (v v' : json) :
  slice_value n v = Ok v' -> (size v' <= n)%nat.
Proof.
  destruct v; try discriminate; intros [= <-]; cbn [size]; rewrite length_take; lia.
Qed.

Lemma preprocess_body_some (item : json) (p : Processed) :
  preprocess_body format_value item = Ok (Some p) ->
  bare item = false
  /\ Json.truthy (processed_id p) = true
  /\ processed_title p <> []
  /\ (length (processed_summary p) <= 800)%nat
  /\ (size (processed_ai_keywords p) <= 15)%nat
  /\ (length (processed_authors p) <= 8)%nat.
Proof.
  unfold preprocess_body. intros H.
  apply bind_ok in H as (paper & Hpaper & H).
  apply bind_ok in H as (authors_raw & Hauthors & H).
  apply bind_ok in H as (entries & Hentries & H).
  apply bind_ok in H as (paper_id & Hid & H).
  apply bind_ok in H as (title_raw & Htitle_raw & H).
  apply bind_ok in H as (title & Htitle & H).
  apply bind_ok in H as (summary_raw & Hsummary_raw & H).
  apply bind_ok in H as (summary & Hsummary & H).
  apply bind_ok in H as (ai_summary_raw & Hai_raw & H).
  apply bind_ok in H as (ai_summary & Hai & H).
  apply bind_ok in H as (keywords_raw & Hkeywords_raw & H).
  apply bind_ok in H as (keywords & Hkeywords & H).
  apply bind_ok in H as (published_at & Hpublished & H).
  apply bind_ok in H as (github & Hgithub & H).
  apply bind_ok in H as (project & Hproject & H).
  apply bind_ok in H as (url & Hurl & H).
  destruct (Json.truthy paper_id) eqn:Tid; [|discriminate].
  destruct (Py.truthy title) eqn:Tt; [|discriminate].
  cbn [andb] in H. injection H as <-.
  cbn [processed_id processed_title processed_summary processed_ai_keywords
       processed_authors].
  split; [|split; [exact Tid|split; [apply truthy_true, Tt|split; [|split]]]].
  - destruct item as [| | | | | |fields]; try discriminate Hpaper.
    cbn [bare]. destruct (Json.lookup (py "paper") fields) as [v|] eqn:L; [reflexivity|].
    exfalso. cbn [Json.get default from_option] in Hpaper. rewrite L in Hpaper.
    cbn in Hpaper. injection Hpaper as <-.
    cbn in Hid, Htitle_raw. injection Hid as <-. discriminate Tid.
  - rewrite length_take. lia.
  - apply (slice_value_size 15 _ _ Hkeywords).
  - rewrite length_take. lia.
Qed.

Lemma preprocess_records (raw_data : list json) :
  Forall (fun p => exists item,
            item ∈ raw_data /\ preprocess_body format_value item = Ok (Some p))
         (_preprocess_raw_data format_value raw_data).
Proof.
  apply Forall_forall. intros p Hp. unfold _preprocess_raw_data in Hp.
  apply list_elem_of_omap in Hp as (item & Hitem & H).
  exists item. split; [exact Hitem|].
  destruct (preprocess_body format_value item) as [[q|]|e]; cbn in H; congruence.
Qed.

Lemma sample_data_prefix (raw_data : list json) :
  sample_data format_value raw_data
  = take 15 (_preprocess_raw_data format_value raw_data).
Proof.
  unfold sample_data. destruct (15 <? _)%nat eqn:E; [reflexivity|].
  apply Nat.ltb_ge in E. symmetry. apply take_ge. exact E.
Qed.

(** X19: the prompt of the Cleaner is bounded. The sample it is built
    from holds at most fifteen records, the first that pass the
    preprocessing, and each of them has an id, a non-empty title, at
    most eight authors, at most fifteen keywords and a summary of at
    most 800 characters, whatever the raw data. *)
Theorem sample_data_bounded (raw_data : list json) :
  (length (sample_data format_value raw_data) <= 15)%nat
  /\ sample_data format_value raw_data
     `prefix_of` _preprocess_raw_data format_value raw_data
  /\ Forall (fun p => Json.truthy (processed_id p) = true
                      /\ processed_title p <> []
                      /\ (length (processed_authors p) <= 8)%nat
                      /\ (size (processed_ai_keywords p) <= 15)%nat
                      /\ (length (processed_summary p) <= 800)%nat)
            (sample_data format_value raw_data).
Proof.
  rewrite sample_data_prefix. split; [rewrite length_take; lia|].
  split; [apply prefix_take|].
  apply Forall_take. eapply Forall_impl; [apply preprocess_records|].
  intros p (item & _ & H).
  destruct (preprocess_body_some item p H) as (_ & H1 & H2 & H3 & H4 & H5).
  repeat split; assumption.
Qed.

Lemma preprocess_bare (raw_data : list json) :
  forallb bare raw_data = true -> _preprocess_raw_data format_value raw_data = [].
Proof.
  intros H. destruct (_preprocess_raw_data format_value raw_data) as [|p l] eqn:E;
    [reflexivity|].
  exfalso. pose proof (preprocess_records raw_data) as Hall. rewrite E in Hall.
  apply Forall_cons in Hall as [(item & Hitem & Hp) _].
  destruct (preprocess_body_some item p Hp) as (Hb & _).
  rewrite forallb_forall in H. apply list_elem_of_In in Hitem.
  rewrite (H item Hitem) in Hb. discriminate.
Qed.

(** X20: the two paths of the Cleaner do not read the same records. A
    record without the envelope [paper] is read by the rules, which
    take the record itself for the paper, but never reaches the
    assistant: of raw data made of such records the prompt sample is
    empty, while the rules clean each of them as they clean the same
    record inside an envelope. *)
Theorem bare_records_never_reach_the_prompt (raw_data : list json) :
  forallb bare raw_data = true ->
  sample_data format_value raw_data = []
  /\ _clean_with_rules format_value raw_data
     = _clean_with_rules format_value
         ((fun item => JObj [(py "paper", item)]) <$> raw_data).
Proof.
  intros H. split.
  - rewrite sample_data_prefix, (preprocess_bare raw_data H). reflexivity.
  - induction raw_data as [|item raw_data IH]; [reflexivity|].
    cbn [forallb] in H. apply andb_true_iff in H as [Hb H].
    cbn [fmap list_fmap _clean_with_rules]. rewrite <- (IH H).
    replace (_extract_paper_info format_value (JObj [(py "paper", item)]))
      with (_extract_paper_info format_value item); [reflexivity|].
    destruct item as [| | | | | |fields]; try discriminate Hb.
    cbn [bare] in Hb. destruct (Json.lookup (py "paper") fields) eqn:L; [discriminate|].
    unfold _extract_paper_info, extract_body, paper_data_of.
    cbn [Json.get]. rewrite L. reflexivity.
Qed.

End PromptFacts.

Lemma bare_records_never_reach_the_prompt_witness :
  Cleaner.sample_data Sample.no_format [Sample.bare_record] = []
  /\ length (Cleaner._clean_with_rules Sample.no_format [Sample.bare_record]) = 1%nat.
Proof.
  destruct (bare_records_never_reach_the_prompt Sample.no_format [Sample.bare_record]
              eq_refl) as (H1 & _).
  split; [exact H1|]. vm_compute. reflexivity.
Defined.

(** ** The pipeline and its notification *)

Section PipelineFacts.
Import Pipeline.

Variable executable : str.
Variable quote_text : str.
Variable paper_list_text : str -> str.
Variable lower : str -> str.
Variable FEISHU_WEBHOOK : option str.
Variable post : Feishu.Card -> exc json.

Local Abbreviation run_pipeline :=
  (Pipeline.run_pipeline executable quote_text paper_list_text lower FEISHU_WEBHOOK post).
Local Abbreviation command := (Pipeline.command executable).

Lemma run_command_spec (cmd : list str) (step_name : str) (self : t) (ps : Processes) :
  let ok := exit_zero (subprocess_run ps (commands ps ++ [cmd])) in
  run_command cmd step_name self ps
  = (ok,
     {| success_steps := success_steps self ++ (if ok then [step_name] else []);
        failed_steps := failed_steps self ++ (if ok then [] else [step_name]) |},
     {| subprocess_run := subprocess_run ps; commands := commands ps ++ [cmd] |}).
Proof.
  cbv zeta. unfold run_command. cbn [commands].
  destruct (subprocess_run ps (commands ps ++ [cmd])) as [[|z|z]|e];
    cbn [exit_zero]; rewrite ?app_nil_r; reflexivity.
Qed.

(** The run, step by step. *)
Lemma run_pipeline_spec (date : str) (rage_mode silent : bool) (self : t) (ps : Processes) :
  let basic := command (py "basic") date rage_mode silent in
  let advanced := command (py "advanced") date rage_mode silent in
  let b := exit_zero (subprocess_run ps (commands ps ++ [basic])) in
  let a := exit_zero (subprocess_run ps (commands ps ++ [basic; advanced])) in
  let out := run_pipeline date rage_mode silent self ps in
  returned out = b && a
  /\ commands (processes out)
     = commands ps ++ (if b then [basic; advanced] else [basic])
  /\ subprocess_run (processes out) = subprocess_run ps
  /\ success_steps (runner out)
     = success_steps self
       ++ (if b then basic_step :: (if a then [advanced_step] else []) else [])
  /\ failed_steps (runner out)
     = failed_steps self
       ++ (if b then (if a then [] else [advanced_step]) else [basic_step])
  /\ posted out
     = print_summary quote_text paper_list_text lower FEISHU_WEBHOOK post (runner out) date.
Proof.
  cbv zeta. unfold Pipeline.run_pipeline.
  rewrite run_command_spec. cbv zeta.
  destruct (exit_zero (subprocess_run ps (commands ps ++ [command (py "basic") date rage_mode silent])))
    eqn:B; cbn [negb].
  - rewrite run_command_spec. cbv zeta. cbn [commands subprocess_run].
    rewrite <- !app_assoc. cbn [app].
    destruct (exit_zero _); cbn [returned processes runner posted commands subprocess_run
                                 success_steps failed_steps andb];
      rewrite <- ?app_assoc, ?app_nil_r; repeat split.
  - cbn [returned processes runner posted commands subprocess_run
         success_steps failed_steps andb].
    rewrite ?app_nil_r. repeat split.
Qed.

(** X21: the Advanced step is run only after the Basic step has ended
    with the exit code 0, with the same date and flags; the call
    returns true exactly when both steps end with 0; and every step
    that is run is entered once, at the end of the list of the
    succeeded steps when it ends with 0 and at the end of the list of
    the failed steps otherwise. *)
Theorem run_pipeline_steps (date : str) (rage_mode silent : bool) (self : t)
    (ps : Processes) :
  let basic := command (py "basic") date rage_mode silent in
  let advanced := command (py "advanced") date rage_mode silent in
  let b := exit_zero (subprocess_run ps (commands ps ++ [basic])) in
  let a := exit_zero (subprocess_run ps (commands ps ++ [basic; advanced])) in
  let out := run_pipeline date rage_mode silent self ps in
  returned out = b && a
  /\ commands (processes out)
     = commands ps ++ (if b then [basic; advanced] else [basic])
  /\ drop 3 advanced = drop 3 basic
  /\ success_steps (runner out)
     = success_steps self
       ++ (if b then basic_step :: (if a then [advanced_step] else []) else [])
  /\ failed_steps (runner out)
     = failed_steps self
       ++ (if b then (if a then [] else [advanced_step]) else [basic_step]).
Proof.
  cbv zeta.
  destruct (run_pipeline_spec date rage_mode silent self ps)
    as (H1 & H2 & _ & H4 & H5 & _).
  cbv zeta in H1, H2, H4, H5.
  split; [exact H1|]. split; [exact H2|]. split; [reflexivity|].
  split; [exact H4|exact H5].
Qed.

(** X22: the card tells the outcome. For a runner that starts without
    steps and a webhook that is set, one card is posted in a run; its
    header is green exactly when the run returns true, red exactly
    when the Basic step failed, and blue when only the Advanced step
    failed, a case that the status [warning] names and that no branch
    of the notifier knows. *)
Theorem run_pipeline_card (date : str) (rage_mode silent : bool) (self : t)
    (ps : Processes) (webhook : str) :
  lower (py "success") = py "success" ->
  lower (py "warning") = py "warning" ->
  lower (py "failed") = py "failed" ->
  success_steps self = [] ->
  FEISHU_WEBHOOK = Some webhook -> webhook <> [] ->
  let b := exit_zero (subprocess_run ps
                        (commands ps ++ [command (py "basic") date rage_mode silent])) in
  let out := run_pipeline date rage_mode silent self ps in
  exists card,
    posted out = [card]
    /\ Feishu.card_template card
       = (if returned out then py "green" else if b then py "blue" else py "red")
    /\ Feishu.card_title card = title_of (status_of (runner out)) date
    /\ status_of (runner out)
       = (if returned out then py "success" else if b then py "warning" else py "failed").
Proof.
  intros L1 L2 L3 Hfresh Hw Hne. cbv zeta.
  destruct (run_pipeline_spec date rage_mode silent self ps)
    as (H1 & _ & _ & H4 & _ & H6).
  cbv zeta in H1, H4, H6.
  assert (status_of (runner (run_pipeline date rage_mode silent self ps))
          = (if exit_zero (subprocess_run ps
                             (commands ps ++ [command (py "basic") date rage_mode silent]))
                && exit_zero (subprocess_run ps
                                (commands ps ++ [command (py "basic") date rage_mode silent;
                                                 command (py "advanced") date rage_mode silent]))
             then py "success"
             else if exit_zero (subprocess_run ps
                                  (commands ps
                                   ++ [command (py "basic") date rage_mode silent]))
                  then py "warning" else py "failed")) as Hs.
  { unfold status_of. rewrite H4, Hfresh. cbn [app].
    destruct (exit_zero (subprocess_run ps (commands ps ++ [_]))),
             (exit_zero (subprocess_run ps (commands ps ++ [_; _]))); reflexivity. }
  rewrite H6, H1, Hs.
  unfold print_summary, Feishu.send_feishu_notification. rewrite Hs, Hw.
  cbn [default from_option id]. apply truthy_true in Hne. rewrite Hne. cbn [negb snd].
  eexists. split; [reflexivity|]. cbn [Feishu.card_template Feishu.card_title].
  split; [|split; reflexivity].
  unfold Feishu.template_of.
  destruct (exit_zero (subprocess_run ps (commands ps ++ [_]))),
           (exit_zero (subprocess_run ps (commands ps ++ [_; _]))); cbn [andb];
    rewrite ?L1, ?L2, ?L3; vm_compute; reflexivity.
Qed.

End PipelineFacts.

Lemma run_pipeline_card_witness :
  exists card,
    Pipeline.posted
      (Pipeline.run_pipeline (py "python3") (py "💡 *Stay hungry, stay foolish. - Steve Jobs*
") (fun _ => []) Sample.lower (Some (py "https://open.feishu.cn/hook")) Sample.accepting
         Sample.day false true Pipeline.__init__ Sample.halting)
    = [card]
    /\ Feishu.card_template card = py "blue".
Proof.
  assert (py "https://open.feishu.cn/hook" <> []) as Hne by discriminate.
  destruct (run_pipeline_card (py "python3") (py "💡 *Stay hungry, stay foolish. - Steve Jobs*
") (fun _ => []) Sample.lower (Some (py "https://open.feishu.cn/hook")) Sample.accepting
              Sample.day false true Pipeline.__init__ Sample.halting
              (py "https://open.feishu.cn/hook")
              eq_refl eq_refl eq_refl eq_refl eq_refl Hne)
    as (card & Hp & Ht & _).
  exists card. split; [exact Hp|]. rewrite Ht. vm_compute. reflexivity.
Defined.

